(** * PeakForm: weekly analyzers, parsers and signal detection

    A shallow embedding of the analytical core of PeakForm
    ([peakform/parsers/garmin.py], [peakform/analyzers/*.py],
    [peakform/config.py]) and the properties its specification states.

    Python [float] is IEEE-754 binary64: it is modelled by the primitive
    floats of the kernel.  Python [int] is [Z], [str] is [string] (bytes, so
    ASCII text is modelled exactly), [None]-able fields are [option], and
    code that can raise returns in the [result] monad below. *)

From Stdlib Require Import ZArith List String Ascii Bool Lia.
From Stdlib Require Import Floats DecimalString DecimalZ.
Import ListNotations.

#[local] Set Warnings "-inexact-float,-abstract-large-number".

Local Open Scope string_scope.
Local Open Scope Z_scope.

(* ------------------------------------------------------------------ *)
(** * Exceptions *)
(* ------------------------------------------------------------------ *)

Inductive PyExn : Type :=
  | ValueError
  | OverflowError.

Inductive result (A : Type) : Type :=
  | Ok (a : A)
  | Raise (e : PyExn).

Arguments Ok {A} a.
Arguments Raise {A} e.

Definition bind {A B : Type} (r : result A) (k : A -> result B) : result B :=
  match r with
  | Ok a => k a
  | Raise e => Raise e
  end.

Notation "'do' x <- r ;; k" := (bind r (fun x => k))
  (at level 10, x name, r at level 100, k at level 200).

(** [try: ... except ValueError: handler] *)
Definition except_ValueError {A : Type} (r : result A) (handler : A) : result A :=
  match r with
  | Raise ValueError => Ok handler
  | other => other
  end.

(* ------------------------------------------------------------------ *)
(** * Python floats *)
(* ------------------------------------------------------------------ *)

Module PyFloat.

Definition nan : float := PrimFloat.nan.

Definition isnan (x : float) : bool := PrimFloat.is_nan x.

(** Truth value of a float: every float but [0.0] and [-0.0] is true
    (NaN included). *)
Definition truthy (x : float) : bool := negb (PrimFloat.eqb x 0%float).

(** [float(n)] for an [int]: the nearest double, ties to even;
    [OverflowError] beyond the range of doubles. *)
Definition of_int (n : Z) : result float :=
  let f := SF2Prim (binary_normalize prec emax n 0 false) in
  if PrimFloat.is_infinity f then Raise OverflowError else Ok f.

(** The exact value of a finite float is [m * 2^e]. *)
Definition round_half_even (m e : Z) : Z :=
  if 0 <=? e then m * 2 ^ e
  else
    let d := 2 ^ (- e) in
    let q := m / d in
    let r := m mod d in
    match 2 * r ?= d with
    | Lt => q
    | Gt => q + 1
    | Eq => if Z.even q then q else q + 1
    end.

(** [round(x)] with one argument: the nearest [int], ties to even. *)
Definition round (x : float) : result Z :=
  match Prim2SF x with
  | S754_nan => Raise ValueError
  | S754_infinity _ => Raise OverflowError
  | S754_zero _ => Ok 0
  | S754_finite s m e =>
      let n := round_half_even (Zpos m) e in
      Ok (if s then - n else n)
  end.

(** [int(x)]: truncation towards zero. *)
Definition to_int (x : float) : result Z :=
  match Prim2SF x with
  | S754_nan => Raise ValueError
  | S754_infinity _ => Raise OverflowError
  | S754_zero _ => Ok 0
  | S754_finite s m e =>
      let n := if 0 <=? e then Zpos m * 2 ^ e else Zpos m / 2 ^ (- e) in
      Ok (if s then - n else n)
  end.

End PyFloat.

(* ------------------------------------------------------------------ *)
(** * Python strings *)
(* ------------------------------------------------------------------ *)

Module PyStr.

(** [\d] and the digits [int()] and [float()] read, among the ASCII
    characters (Python also reads the decimal digits of the rest of
    Unicode). *)
Definition is_digit (c : ascii) : bool :=
  match uint_of_char c (Some Decimal.Nil) with
  | Some _ => true
  | None => false
  end.

(** The ASCII characters [str.strip()] removes (it also removes the
    white space of the rest of Unicode). *)
Definition is_space (c : ascii) : bool :=
  let n := N_of_ascii c in
  ((9 <=? n) && (n <=? 13) || (28 <=? n) && (n <=? 32))%N.

Fixpoint lstrip (s : string) : string :=
  match s with
  | String c s' => if is_space c then lstrip s' else s
  | EmptyString => EmptyString
  end.

(** [rstrip]: drop the trailing run of spaces. *)
Fixpoint rstrip (s : string) : string :=
  match s with
  | String c s' =>
      match rstrip s' with
      | EmptyString => if is_space c then EmptyString else String c EmptyString
      | t => String c t
      end
  | EmptyString => EmptyString
  end.

Definition strip (s : string) : string := rstrip (lstrip s).

Definition lower_char (c : ascii) : ascii :=
  let n := N_of_ascii c in
  if ((65 <=? n) && (n <=? 90))%N then ascii_of_N (n + 32) else c.

Definition upper_char (c : ascii) : ascii :=
  let n := N_of_ascii c in
  if ((97 <=? n) && (n <=? 122))%N then ascii_of_N (n - 32) else c.

Definition is_alpha (c : ascii) : bool :=
  let n := N_of_ascii c in
  ((65 <=? n) && (n <=? 90) || (97 <=? n) && (n <=? 122))%N.

Fixpoint lower (s : string) : string :=
  match s with
  | String c s' => String (lower_char c) (lower s')
  | EmptyString => EmptyString
  end.

(** [sub in s] *)
Fixpoint contains (sub s : string) : bool :=
  if String.prefix sub s then true
  else match s with
       | String _ s' => contains sub s'
       | EmptyString => false
       end.

(** [s.replace(c, t)] for a one-character pattern. *)
Fixpoint replace_char (c : ascii) (t : string) (s : string) : string :=
  match s with
  | String a s' =>
      if Ascii.eqb a c then t ++ replace_char c t s'
      else String a (replace_char c t s')
  | EmptyString => EmptyString
  end.

(** [s.split(c)] for a one-character separator: never empty. *)
Fixpoint split_char (c : ascii) (s : string) : list string :=
  match s with
  | String a s' =>
      if Ascii.eqb a c then EmptyString :: split_char c s'
      else match split_char c s' with
           | p :: ps => String a p :: ps
           | [] => [String a EmptyString]
           end
  | EmptyString => [EmptyString]
  end.

(** [sep.join(parts)] *)
Fixpoint join (sep : string) (parts : list string) : string :=
  match parts with
  | [] => EmptyString
  | [p] => p
  | p :: ps => p ++ sep ++ join sep ps
  end.

(** [s.title()]: a letter is upper-cased after a non-letter and
    lower-cased after a letter. *)
Fixpoint title_from (prev_alpha : bool) (s : string) : string :=
  match s with
  | String c s' =>
      String (if prev_alpha then lower_char c else upper_char c)
             (title_from (is_alpha c) s')
  | EmptyString => EmptyString
  end.

Definition title (s : string) : string := title_from false s.

(** [str(n)] and [f"{n}"] for an [int]. *)
Definition of_int (n : Z) : string := NilEmpty.string_of_int (Z.to_int n).

(** [f"{n:02d}"]: zero-padded to two characters. *)
Definition of_int_02d (n : Z) : string :=
  match of_int n with
  | String c EmptyString => String "0" (String c EmptyString)
  | s => s
  end.

(** The value of a non-empty run of digits. *)
Definition digits_value (s : string) : option Z :=
  match s with
  | EmptyString => None
  | _ => option_map Z.of_uint (NilEmpty.uint_of_string s)
  end.

(** The longest prefix of digits, and what follows it. *)
Fixpoint take_digits (s : string) : string * string :=
  match s with
  | String c s' =>
      if is_digit c
      then let (d, r) := take_digits s' in (String c d, r)
      else (EmptyString, s)
  | EmptyString => (EmptyString, EmptyString)
  end.

(** [digit (["_"] digit)*] after its first digit: the digits without
    the underscores, and what follows. *)
Fixpoint digitpart_rest (s : string) : string * string :=
  match s with
  | String c s' =>
      if is_digit c
      then let (d, r) := digitpart_rest s' in (String c d, r)
      else if Ascii.eqb c "_"
      then match s' with
           | String c2 _ =>
               if is_digit c2 then digitpart_rest s' else (EmptyString, s)
           | EmptyString => (EmptyString, s)
           end
      else (EmptyString, s)
  | EmptyString => (EmptyString, EmptyString)
  end.

Definition digitpart (s : string) : option (string * string) :=
  match s with
  | String c s' =>
      if is_digit c
      then let (d, r) := digitpart_rest s' in Some (String c d, r)
      else None
  | EmptyString => None
  end.

(** An optional sign: [true] for ["-"]. *)
Definition take_sign (s : string) : bool * string :=
  match s with
  | String "-" s' => (true, s')
  | String "+" s' => (false, s')
  | _ => (false, s)
  end.

(** [sys.get_int_max_str_digits()]: [int()] refuses a text of more
    decimal digits with [ValueError] (CPython from 3.11 on, and 3.7 to
    3.10 in their releases since September 2022).  The sign, the white
    space and the underscores do not count; zeros in front do. *)
Definition int_max_str_digits : Z := 4300.

(** [int()] of a run of decimal digits. *)
Definition int_of_digits (d : string) : result Z :=
  if int_max_str_digits <? Z.of_nat (String.length d) then Raise ValueError
  else match digits_value d with
       | Some n => Ok n
       | None => Raise ValueError
       end.

(** [int(s)] in base 10: [ValueError] unless [s] is, between optional
    white space, an optional sign and digits with single underscores
    between them, and has no more digits than [int_max_str_digits]. *)
Definition to_int (s : string) : result Z :=
  let (neg, body) := take_sign (strip s) in
  match digitpart body with
  | Some (d, EmptyString) =>
      do n <- int_of_digits d ;;
      Ok (if neg then - n else n)
  | _ => Raise ValueError
  end.

End PyStr.

(* ------------------------------------------------------------------ *)
(** * Conversions between floats and text *)
(* ------------------------------------------------------------------ *)

Module PyConv.

Import PyStr.

Definition signed (neg : bool) (n : Z) : Z := if neg then - n else n.

(** The double nearest to [(-1)^neg * n * 10^e] (ties to even), as
    [float()] computes it from a decimal literal.  A negative exponent is
    a division: the quotient is taken with more than 55 bits and a sticky
    bit, so that rounding it rounds the exact value. *)
Definition of_decimal (neg : bool) (n e : Z) : float :=
  if n =? 0 then (if neg then (-0)%float else 0%float)
  else if 0 <=? e
  then SF2Prim (binary_normalize prec emax (signed neg (n * 10 ^ e)) 0 false)
  else
    let d := 10 ^ (- e) in
    let s := Z.max 0 (Z.log2 d + 57 - Z.log2 n) in
    let q := (n * 2 ^ s) / d in
    let sticky := if (n * 2 ^ s) mod d =? 0 then 0 else 1 in
    SF2Prim (binary_normalize prec emax (signed neg (2 * q + sticky)) (- s - 1) false).

(** [[sign] digitpart] of an exponent. *)
Definition exponent_value (s : string) : option (Z * string) :=
  let (neg, body) := take_sign s in
  match digitpart body with
  | Some (d, r) => option_map (fun n => (signed neg n, r)) (digits_value d)
  | None => None
  end.

(** [number [exponent]]: integer digits, fraction digits, exponent. *)
Definition floatnumber (s : string) : option (string * string * Z) :=
  let mantissa :=
    match digitpart s with
    | Some (ip, String "." r) =>
        match digitpart r with
        | Some (fp, r') => Some (ip, fp, r')
        | None => Some (ip, EmptyString, r)
        end
    | Some (ip, r) => Some (ip, EmptyString, r)
    | None =>
        match s with
        | String "." r =>
            match digitpart r with
            | Some (fp, r') => Some (EmptyString, fp, r')
            | None => None
            end
        | _ => None
        end
    end in
  match mantissa with
  | Some (ip, fp, EmptyString) => Some (ip, fp, 0)
  | Some (ip, fp, String c r) =>
      if Ascii.eqb (lower_char c) "e"
      then match exponent_value r with
           | Some (e, EmptyString) => Some (ip, fp, e)
           | _ => None
           end
      else None
  | None => None
  end.

(** [float(s)] for a [str]: white space is stripped, then an optional
    sign and [inf], [infinity], [nan] (in any case) or a decimal number;
    [ValueError] otherwise. *)
Definition float_of_str (s : string) : result float :=
  let (neg, body) := take_sign (strip s) in
  let low := lower body in
  if String.eqb low "inf" || String.eqb low "infinity"
  then Ok (if neg then neg_infinity else infinity)
  else if String.eqb low "nan" then Ok PyFloat.nan
  else
    match floatnumber body with
    | Some (ip, fp, e) =>
        match digits_value (ip ++ fp) with
        | Some n => Ok (of_decimal neg n (e - Z.of_nat (String.length fp)))
        | None => Raise ValueError
        end
    | None => Raise ValueError
    end.

(** Left-pad with zeros to [n] characters. *)
Fixpoint zfill (n : nat) (s : string) : string :=
  match (n - String.length s)%nat with
  | O => s
  | S _ => match n with
           | O => s
           | S n' => String "0" (zfill n' s)
           end
  end.

(** [digits] with a point before its last [k] characters. *)
Definition insert_point (k : nat) (digits : string) : string :=
  match k with
  | O => digits
  | _ =>
      let n := String.length digits in
      String.substring 0 (n - k) digits ++ "." ++ String.substring (n - k) k digits
  end.

(** [f"{x:.kf}"]: the exact value rounded to [k] decimals, ties to even. *)
Definition format_f (k : nat) (x : float) : string :=
  match Prim2SF x with
  | S754_nan => "nan"
  | S754_infinity s => if s then "-inf" else "inf"
  | S754_zero s =>
      (if s then "-" else "") ++ insert_point k (zfill (S k) "0")
  | S754_finite s m e =>
      let n := PyFloat.round_half_even (Zpos m * 10 ^ Z.of_nat k) e in
      (if s then "-" else "") ++ insert_point k (zfill (S k) (of_int n))
  end.

End PyConv.

(* ------------------------------------------------------------------ *)
(** * parsers/garmin.py: the cell converters *)
(* ------------------------------------------------------------------ *)

Module Garmin.

Import PyStr PyConv.

(** A raw cell as the converters receive it from the frame: [None], the
    float NaN of an empty cell, or the text of the cell.  (Cells of a
    column that was read as numbers are not modelled.) *)
Inductive PyValue : Type :=
  | PyNone
  | PyNaN
  | PyText (s : string).

(** [str(value)] *)
Definition str (v : PyValue) : string :=
  match v with
  | PyNone => "None"
  | PyNaN => "nan"
  | PyText s => s
  end.

(** [value is None or (isinstance(value, float) and np.isnan(value))] *)
Definition is_none_or_nan (v : PyValue) : bool :=
  match v with
  | PyNone | PyNaN => true
  | PyText _ => false
  end.

(** [s in ("--", "", "nan")] *)
Definition is_sentinel (s : string) : bool :=
  String.eqb s "--" || String.eqb s "" || String.eqb s "nan".

Definition _strip_comma_numeric (value : PyValue) : result float :=
  if is_none_or_nan value then Ok PyFloat.nan
  else
    let s := strip (str value) in
    if is_sentinel s then Ok PyFloat.nan
    else
      let s := replace_char "," "" s in
      except_ValueError (float_of_str s) PyFloat.nan.

(** [re.match(r"^(\d+):(\d{2})$", s)]: the two groups. *)
Definition match_pace (s : string) : option (string * string) :=
  match take_digits s with
  | (String c g1, String ":" (String a (String b EmptyString))) =>
      if is_digit a && is_digit b
      then Some (String c g1, String a (String b EmptyString))
      else None
  | _ => None
  end.

(** [int(m.group(i))] for a group of digits: outside every [try], so
    the [ValueError] of a group longer than [int_max_str_digits] is not
    caught. *)
Definition int_of_group (g : string) : result Z := int_of_digits g.

Definition _pace_to_decimal_minutes (value : PyValue) : result float :=
  if is_none_or_nan value then Ok PyFloat.nan
  else
    let s := strip (str value) in
    if is_sentinel s then Ok PyFloat.nan
    else
      match match_pace s with
      | Some (g1, g2) =>
          do minutes <- int_of_group g1 ;;
          do seconds <- int_of_group g2 ;;
          (* minutes + seconds / 60.0 *)
          do fseconds <- PyFloat.of_int seconds ;;
          do fminutes <- PyFloat.of_int minutes ;;
          Ok (fminutes + fseconds / 60)%float
      | None =>
          except_ValueError (float_of_str s) PyFloat.nan
      end.

(** [decimal_minutes] is [None] where a caller passes an absent average. *)
Definition _decimal_minutes_to_mmss (decimal_minutes : option float) : result string :=
  match decimal_minutes with
  | None => Ok "--"
  | Some x =>
      if PyFloat.isnan x then Ok "--"
      else
        do total_seconds <- PyFloat.round (x * 60)%float ;;
        let m := total_seconds / 60 in
        let s := total_seconds mod 60 in
        Ok (of_int m ++ ":" ++ of_int_02d s)
  end.

Definition _clean_generic (value : PyValue) : result float :=
  if is_none_or_nan value then Ok PyFloat.nan
  else
    let s := strip (str value) in
    if is_sentinel s then Ok PyFloat.nan
    else except_ValueError (float_of_str s) PyFloat.nan.

(** [a + b] for an [int] and a [float]. *)
Definition int_add_float (a : Z) (b : float) : result float :=
  do fa <- PyFloat.of_int a ;; Ok (fa + b)%float.

Definition _parse_duration (value : PyValue) : result float :=
  match value with
  | PyNone => Ok PyFloat.nan
  | _ =>
      let s := strip (str value) in
      if is_sentinel s then Ok PyFloat.nan
      else
        let parts := split_char ":" s in
        except_ValueError
          (match parts with
           | [p0; p1; p2] =>
               do h <- to_int p0 ;;
               do m <- to_int p1 ;;
               do sec <- float_of_str p2 ;;
               int_add_float (h * 3600 + m * 60) sec
           | [p0; p1] =>
               do m <- to_int p0 ;;
               do sec <- float_of_str p1 ;;
               int_add_float (m * 60) sec
           | _ => float_of_str s
           end)
          PyFloat.nan
  end.

Definition format_pace (decimal_minutes : option float) : result string :=
  _decimal_minutes_to_mmss decimal_minutes.

(** Parse a pace cell, then display it. *)
Definition pace_roundtrip (s : string) : result string :=
  do x <- _pace_to_decimal_minutes (PyText s) ;;
  _decimal_minutes_to_mmss (Some x).

(** A run of digits that is the decimal writing of a number: no zero
    in front of another digit. *)
Definition canonical (g : string) : bool :=
  match g with
  | String "0" (String _ _) => false
  | _ => true
  end.

(** [MM:SS] text: digits, a colon, two digits, with seconds at most 59 *)
Definition is_mmss (s : string) : bool :=
  match match_pace s with
  | Some (_, g2) =>
      match digits_value g2 with
      | Some sec => sec <=? 59
      | None => false
      end
  | None => false
  end.

(** ... whose minutes are written without leading zeros and are below
    1000. *)
Definition is_display_pace (s : string) : bool :=
  is_mmss s &&
  match match_pace s with
  | Some (g1, _) =>
      canonical g1 &&
      match digits_value g1 with
      | Some m => m <? 1000
      | None => false
      end
  | None => false
  end.

(** The arithmetic of the round trip on [m] minutes and [s] seconds:
    [round((m + s / 60.0) * 60)] is [60 * m + s]. *)
Definition pace_float_ok (m s : Z) : bool :=
  match (do fs <- PyFloat.of_int s ;;
         do fm <- PyFloat.of_int m ;;
         Ok (fm + fs / 60)%float) with
  | Ok x =>
      negb (PyFloat.isnan x) &&
      match PyFloat.round (x * 60)%float with
      | Ok t => t =? 60 * m + s
      | Raise _ => false
      end
  | Raise _ => false
  end.

(** The four kinds of numeric cells and the converter [_load] applies
    to each. *)
Inductive CellKind : Type :=
  | Generic
  | CommaNumeric
  | Pace
  | Duration.

Definition convert (k : CellKind) (value : PyValue) : result float :=
  match k with
  | Generic => _clean_generic value
  | CommaNumeric => _strip_comma_numeric value
  | Pace => _pace_to_decimal_minutes value
  | Duration => _parse_duration value
  end.

Definition raises_ValueError {A : Type} (r : result A) : bool :=
  match r with
  | Raise ValueError => true
  | _ => false
  end.

(** A text that is no number of its kind: the conversions the converter
    tries on it ([float()], [int()], the pace pattern) fail. *)
Definition unparsable (k : CellKind) (text : string) : bool :=
  let s := strip text in
  match k with
  | Generic => raises_ValueError (float_of_str s)
  | CommaNumeric => raises_ValueError (float_of_str (replace_char "," "" s))
  | Pace =>
      match match_pace s with
      | Some _ => false
      | None => raises_ValueError (float_of_str s)
      end
  | Duration =>
      match split_char ":" s with
      | [p0; p1; p2] =>
          raises_ValueError (to_int p0) || raises_ValueError (to_int p1)
          || raises_ValueError (float_of_str p2)
      | [p0; p1] =>
          raises_ValueError (to_int p0) || raises_ValueError (float_of_str p1)
      | _ => raises_ValueError (float_of_str s)
      end
  end.

End Garmin.

(* ------------------------------------------------------------------ *)
(** * Dates and timestamps *)
(* ------------------------------------------------------------------ *)

Module PyDate.

(** A [datetime.date], by its proleptic Gregorian ordinal
    ([date.toordinal()]: 1 is 0001-01-01). *)
Definition date : Type := Z.

Definition _is_leap (year : Z) : bool :=
  (year mod 4 =? 0) && (negb (year mod 100 =? 0) || (year mod 400 =? 0)).

Definition _days_before_year (year : Z) : Z :=
  let y := year - 1 in
  y * 365 + y / 4 - y / 100 + y / 400.

Definition _days_in_month (year month : Z) : Z :=
  if (month =? 2) && _is_leap year then 29
  else nth (Z.to_nat month) [0; 31; 28; 31; 30; 31; 30; 31; 31; 30; 31; 30; 31] 0.

Definition _days_before_month (year month : Z) : Z :=
  nth (Z.to_nat month) [0; 0; 31; 59; 90; 120; 151; 181; 212; 243; 273; 304; 334] 0
  + (if (2 <? month) && _is_leap year then 1 else 0).

(** [date(year, month, day)] *)
Definition mkdate (year month day : Z) : date :=
  _days_before_year year + _days_before_month year month + day.

Definition _MAXORDINAL : Z := 3652059.

(** [d + timedelta(days=n)]: [OverflowError] when the days do not fit a
    [timedelta] or the result leaves years 1 to 9999. *)
Definition date_add_days (d : date) (n : Z) : result date :=
  if Z.abs n >? 999999999 then Raise OverflowError
  else
    let o := d + n in
    if (0 <? o) && (o <=? _MAXORDINAL) then Ok o else Raise OverflowError.

(** A [pd.Timestamp]: nanoseconds since 1970-01-01 00:00. *)
Definition Timestamp : Type := Z.

Definition ns_per_day : Z := 86400 * 1000000000.

(** [pd.Timedelta(days=n)] *)
Definition Timedelta_days (n : Z) : Z := n * ns_per_day.

(** The ordinal of 1970-01-01. *)
Definition epoch_ordinal : Z := Eval vm_compute in mkdate 1970 1 1.

(** [ts.date()] *)
Definition Timestamp_date (ts : Timestamp) : date :=
  epoch_ordinal + ts / ns_per_day.

(** [pd.Timestamp(date)], at midnight. *)
Definition Timestamp_of_date (d : date) : Timestamp :=
  (d - epoch_ordinal) * ns_per_day.

End PyDate.

(* ------------------------------------------------------------------ *)
(** * Frames and series *)
(* ------------------------------------------------------------------ *)

Module Pandas.

Import PyDate.

(** A numeric series: NaN is the missing value. *)
Definition Series : Type := list float.

Definition dropna (s : Series) : Series :=
  filter (fun x => negb (PyFloat.isnan x)) s.

(** [s.sum(skipna=True)]: the present values, added from left to right
    (numpy adds a long array pairwise, which can differ in the last bit). *)
Definition sum (s : Series) : float :=
  fold_left PrimFloat.add (dropna s) 0%float.

(** [float(n)] for a length. *)
Definition float_of_nat (n : nat) : float :=
  SF2Prim (binary_normalize prec emax (Z.of_nat n) 0 false).

(** [s.mean()]: NaN on an empty series. *)
Definition mean (s : Series) : float :=
  let v := dropna s in
  match v with
  | [] => PyFloat.nan
  | _ => (fold_left PrimFloat.add v 0 / float_of_nat (List.length v))%float
  end.

(** The larger of two floats, as a running maximum keeps it. *)
Definition fmax (a b : float) : float := if PrimFloat.ltb a b then b else a.

(** [s.max(skipna=True)]: NaN when nothing is present. *)
Definition max (s : Series) : float :=
  match dropna s with
  | [] => PyFloat.nan
  | x :: v => fold_left fmax v x
  end.

(** [s.std()]: the sample deviation, NaN below two values. *)
Definition std (s : Series) : float :=
  let v := dropna s in
  match v with
  | [] | [_] => PyFloat.nan
  | _ =>
      let avg := (fold_left PrimFloat.add v 0 / float_of_nat (List.length v))%float in
      let sq := map (fun x => ((avg - x) * (avg - x))%float) v in
      PrimFloat.sqrt (fold_left PrimFloat.add sq 0 / float_of_nat (List.length v - 1))%float
  end.

(** A frame keyed by date: the names of its other columns and its rows,
    each a date ([None] is NaT) and one cell per column. *)
Record DataFrame : Type := {
  columns : list string;
  rows : list (option Timestamp * list float)
}.

Definition empty_frame : DataFrame := {| columns := []; rows := [] |}.

(** [df.empty] *)
Definition empty (df : DataFrame) : bool :=
  match rows df with
  | [] => true
  | _ => false
  end.

(** [df[(df["date"] >= start) & (df["date"] <= end)]]: a comparison with
    NaT is false. *)
Definition in_window (start end_ : Timestamp) (d : option Timestamp) : bool :=
  match d with
  | Some t => (start <=? t) && (t <=? end_)
  | None => false
  end.

Definition week_slice (df : DataFrame) (start end_ : Timestamp) : DataFrame :=
  {| columns := columns df;
     rows := filter (fun r => in_window start end_ (fst r)) (rows df) |}.

(** The position of a column. *)
Fixpoint index_of (name : string) (cols : list string) : option nat :=
  match cols with
  | [] => None
  | c :: cs =>
      if String.eqb c name then Some O
      else option_map S (index_of name cs)
  end.

(** [df[name]] for a column of the frame. *)
Definition column (df : DataFrame) (name : string) : Series :=
  match index_of name (columns df) with
  | Some i => map (fun r => nth i (snd r) PyFloat.nan) (rows df)
  | None => []
  end.

End Pandas.

(* ------------------------------------------------------------------ *)
(** * config.py *)
(* ------------------------------------------------------------------ *)

Module Config.

Definition GOAL_WEIGHT_LBS : float := 160%float.
Definition TRACKING_RESTART : PyDate.date := PyDate.mkdate 2026 2 16.
Definition FIBER_TARGET_G : float := 25%float.
Definition PROTEIN_PRESERVATION_MIN_G : float := 140%float.
Definition CARBS_UNDERFUEL_MIN_G : float := 80%float.
Definition CALORIE_ADHERENCE_WINDOW_KCAL : float := 100%float.
Definition CALORIE_VARIANCE_CONCERN_STDEV : float := 300%float.
Definition TRAIL_RUN_ASCENT_FT : float := 500%float.
Definition MILEAGE_OVERREACH_PCT : float := 0.10%float.
Definition BODY_BATTERY_DRAIN_CONCERN : float := 15%float.
Definition GROUND_CONTACT_CONCERN_MS : float := 5%float.
Definition PRIORITY_MUSCLE_GROUPS : list string :=
  ["Glutes"; "Hips"; "Core"; "Hamstrings"].

End Config.

(* ------------------------------------------------------------------ *)
(** * Truth values of optional floats *)
(* ------------------------------------------------------------------ *)

(** [if x:] for a field that is [None] or a float. *)
Definition opt_truthy (x : option float) : bool :=
  match x with
  | Some v => PyFloat.truthy v
  | None => false
  end.

(** [x or y] on such fields. *)
Definition opt_or (x y : option float) : option float :=
  if opt_truthy x then x else y.

(** [x or 0] where a number is needed. *)
Definition or_zero (x : option float) : float :=
  match opt_or x (Some 0%float) with
  | Some v => v
  | None => 0%float
  end.

(** The rolling baselines look at the [i]-th week before [week_start]:
    [w_end = week_start - Timedelta(days=1 + 7 * (i - 1))],
    [w_start = w_end - Timedelta(days=6)]. *)
Definition prior_window (week_start : PyDate.Timestamp) (i : Z)
  : PyDate.Timestamp * PyDate.Timestamp :=
  let w_end := week_start - PyDate.Timedelta_days (1 + 7 * (i - 1)) in
  let w_start := w_end - PyDate.Timedelta_days 6 in
  (w_start, w_end).

(** [range(1, n + 1)] *)
Definition range_from_1 (n : nat) : list Z := map Z.of_nat (seq 1 n).

(** The calendar days a window touches, both ends included. *)
Definition days_covered (w : PyDate.Timestamp * PyDate.Timestamp) : Z :=
  PyDate.Timestamp_date (snd w) - PyDate.Timestamp_date (fst w) + 1.

(** A row dated [t] is in the slice of the window. *)
Definition inside (w : PyDate.Timestamp * PyDate.Timestamp) (t : PyDate.Timestamp) : bool :=
  Pandas.in_window (fst w) (snd w) (Some t).

(* ------------------------------------------------------------------ *)
(** * analyzers/running.py *)
(* ------------------------------------------------------------------ *)

Module Running.

Import PyDate.

(** A row of the running activities, with the columns the analyzer
    reads. *)
Record Run : Type := {
  date : option Timestamp;
  distance_mi : float;
  total_ascent_ft : float;
  is_trail : bool;
  avg_pace : float;
  avg_hr : float;
  avg_cadence : float;
  aerobic_te : float;
  avg_ground_contact_ms : float;
  body_battery_drain : float
}.

(** The frame of runs; the export may lack the ground-contact and the
    body-battery columns. *)
Record RunFrame : Type := {
  has_ground_contact : bool;
  has_body_battery : bool;
  runs : list Run
}.

Record RunWeekStats : Type := {
  week_start : Timestamp;
  week_end : Timestamp;
  total_miles : float;
  total_elevation_gain_ft : float;
  run_count : Z;
  flat_run_count : Z;
  flat_avg_pace_dec : option float;
  flat_avg_hr : option float;
  flat_avg_cadence : option float;
  flat_avg_aerobic_te : option float;
  flat_avg_ground_contact_ms : option float;
  longest_run_miles : float;
  trail_run_count : Z;
  trail_total_miles : float;
  trail_total_elevation_ft : float;
  avg_body_battery_drain : option float;
  max_body_battery_drain : option float;
  hr_pace_efficiency : option float
}.

(** [RunWeekStats(week_start=..., week_end=...)]: the defaults. *)
Definition default_stats (ws we : Timestamp) : RunWeekStats := {|
  week_start := ws;
  week_end := we;
  total_miles := 0;
  total_elevation_gain_ft := 0;
  run_count := 0;
  flat_run_count := 0;
  flat_avg_pace_dec := None;
  flat_avg_hr := None;
  flat_avg_cadence := None;
  flat_avg_aerobic_te := None;
  flat_avg_ground_contact_ms := None;
  longest_run_miles := 0;
  trail_run_count := 0;
  trail_total_miles := 0;
  trail_total_elevation_ft := 0;
  avg_body_battery_drain := None;
  max_body_battery_drain := None;
  hr_pace_efficiency := None
|}.

Record RunningAnalysis : Type := {
  current : RunWeekStats;
  rolling_4wk : RunWeekStats;
  mileage_change_pct : option float;
  pace_change_dec : option float;
  hr_change : option float;
  cadence_change : option float;
  ground_contact_change_ms : option float;
  overreach_flag : bool;
  recovery_debt_flag : bool;
  aerobic_adaptation_signal : bool;
  fatigue_signal : bool
}.

(** [vals.mean()] when [len(vals)], for [vals = column.dropna()]. *)
Definition mean_if_any (s : Pandas.Series) : option float :=
  match Pandas.dropna s with
  | [] => None
  | _ => Some (Pandas.mean s)
  end.

Definition max_if_any (s : Pandas.Series) : option float :=
  match Pandas.dropna s with
  | [] => None
  | _ => Some (Pandas.max s)
  end.

Definition _compute_week_stats
  (all_runs : RunFrame) (week_start week_end : Timestamp) : RunWeekStats :=
  let stats := default_stats week_start week_end in
  match runs all_runs with
  | [] => stats
  | _ =>
      let window :=
        filter (fun r => Pandas.in_window week_start week_end (date r))
               (runs all_runs) in
      match window with
      | [] => stats
      | _ =>
          let flat := filter (fun r => negb (is_trail r)) window in
          let trail := filter is_trail window in
          let flat_pace := mean_if_any (map avg_pace flat) in
          let flat_hr := mean_if_any (map avg_hr flat) in
          let bbd := map body_battery_drain window in
          {| week_start := week_start;
             week_end := week_end;
             total_miles := Pandas.sum (map distance_mi window);
             total_elevation_gain_ft := Pandas.sum (map total_ascent_ft window);
             run_count := Z.of_nat (List.length window);
             flat_run_count := Z.of_nat (List.length flat);
             flat_avg_pace_dec := flat_pace;
             flat_avg_hr := flat_hr;
             flat_avg_cadence := mean_if_any (map avg_cadence flat);
             flat_avg_aerobic_te := mean_if_any (map aerobic_te flat);
             flat_avg_ground_contact_ms :=
               if has_ground_contact all_runs
               then mean_if_any (map avg_ground_contact_ms flat)
               else None;
             longest_run_miles := Pandas.max (map distance_mi window);
             trail_run_count := Z.of_nat (List.length trail);
             trail_total_miles := Pandas.sum (map distance_mi trail);
             trail_total_elevation_ft := Pandas.sum (map total_ascent_ft trail);
             avg_body_battery_drain :=
               if has_body_battery all_runs then mean_if_any bbd else None;
             max_body_battery_drain :=
               if has_body_battery all_runs then max_if_any bbd else None;
             hr_pace_efficiency :=
               match flat_hr, flat_pace with
               | Some hr, Some pace =>
                   if PyFloat.truthy hr && PyFloat.truthy pace
                      && PrimFloat.ltb 0 pace
                   then Some (hr / pace)%float
                   else None
               | _, _ => None
               end
          |}
      end
  end.

(** The windows of the prior weeks, most recent first. *)
Definition prior_windows (week_start : Timestamp) (num_prior_weeks : nat)
  : list (Timestamp * Timestamp) :=
  map (prior_window week_start) (range_from_1 num_prior_weeks).

(** [_avg]: the mean of the values that are neither [None] nor NaN;
    [None] when there is none. *)
Definition _avg (vals : list (option float)) : option float :=
  let clean :=
    flat_map (fun v => match v with
                       | Some x => if PyFloat.isnan x then [] else [x]
                       | None => []
                       end) vals in
  match clean with
  | [] => None
  | _ => Some (fold_left PrimFloat.add clean 0
               / Pandas.float_of_nat (List.length clean))%float
  end.

(** An [int] among the floats of [_avg]. *)
Definition float_of_count (n : Z) : float :=
  SF2Prim (binary_normalize prec emax n 0 false).

Definition _compute_rolling_avg_stats
  (all_runs : RunFrame) (week_start : Timestamp) (num_prior_weeks : nat)
  : result RunWeekStats :=
  let prior_stats :=
    map (fun w => _compute_week_stats all_runs (fst w) (snd w))
        (prior_windows week_start num_prior_weeks) in
  let avg_of (f : RunWeekStats -> option float) := _avg (map f prior_stats) in
  let some (f : RunWeekStats -> float) := fun s => Some (f s) in
  let count (f : RunWeekStats -> Z) := fun s => Some (float_of_count (f s)) in
  do n_runs <- PyFloat.round (or_zero (avg_of (count run_count))) ;;
  do n_trail <- PyFloat.round (or_zero (avg_of (count trail_run_count))) ;;
  Ok {| week_start := week_start;
        week_end := week_start;
        total_miles := or_zero (avg_of (some total_miles));
        total_elevation_gain_ft := or_zero (avg_of (some total_elevation_gain_ft));
        run_count := n_runs;
        flat_run_count := 0;
        flat_avg_pace_dec := avg_of flat_avg_pace_dec;
        flat_avg_hr := avg_of flat_avg_hr;
        flat_avg_cadence := avg_of flat_avg_cadence;
        flat_avg_aerobic_te := avg_of flat_avg_aerobic_te;
        flat_avg_ground_contact_ms := avg_of flat_avg_ground_contact_ms;
        longest_run_miles := or_zero (avg_of (some longest_run_miles));
        trail_run_count := n_trail;
        trail_total_miles := 0;
        trail_total_elevation_ft := 0;
        avg_body_battery_drain := avg_of avg_body_battery_drain;
        max_body_battery_drain := None;
        hr_pace_efficiency := None |}.

(** [current - rolling] when both are true values. *)
Definition change (cur roll : option float) : option float :=
  match cur, roll with
  | Some c, Some r =>
      if PyFloat.truthy c && PyFloat.truthy r then Some (c - r)%float else None
  | _, _ => None
  end.

(** The comparisons of [analyze], once the two sets of statistics are
    computed. *)
Definition compare_stats (current rolling : RunWeekStats) : RunningAnalysis :=
  (* Mileage change % *)
  let mileage_change_pct :=
    if PyFloat.truthy (total_miles rolling) && PrimFloat.ltb 0 (total_miles rolling)
    then Some ((total_miles current - total_miles rolling) / total_miles rolling)%float
    else None in
  let overreach_flag :=
    match mileage_change_pct with
    | Some pct => PrimFloat.ltb Config.MILEAGE_OVERREACH_PCT pct
    | None => false
    end in
  let pace_change_dec := change (flat_avg_pace_dec current) (flat_avg_pace_dec rolling) in
  let hr_change := change (flat_avg_hr current) (flat_avg_hr rolling) in
  let ground_contact_change_ms :=
    change (flat_avg_ground_contact_ms current) (flat_avg_ground_contact_ms rolling) in
  let cadence_change := change (flat_avg_cadence current) (flat_avg_cadence rolling) in
  (* Aerobic adaptation: pace improved AND HR stable or lower *)
  let aerobic_adaptation_signal :=
    match pace_change_dec, hr_change with
    | Some p, Some h => PrimFloat.ltb p (-0.05) && PrimFloat.leb h 2
    | _, _ => false
    end in
  (* Fatigue signal: pace slower AND HR higher *)
  let fatigue_signal :=
    match pace_change_dec, hr_change with
    | Some p, Some h => PrimFloat.ltb 0.05 p && PrimFloat.ltb 2 h
    | _, _ => false
    end in
  (* Recovery debt *)
  let recovery_debt_flag :=
    match avg_body_battery_drain current with
    | Some bbd => PrimFloat.ltb Config.BODY_BATTERY_DRAIN_CONCERN bbd
    | None => false
    end in
  {| current := current;
     rolling_4wk := rolling;
     mileage_change_pct := mileage_change_pct;
     pace_change_dec := pace_change_dec;
     hr_change := hr_change;
     cadence_change := cadence_change;
     ground_contact_change_ms := ground_contact_change_ms;
     overreach_flag := overreach_flag;
     recovery_debt_flag := recovery_debt_flag;
     aerobic_adaptation_signal := aerobic_adaptation_signal;
     fatigue_signal := fatigue_signal |}.

Definition analyze (runs : RunFrame) (week_start week_end : Timestamp)
  : result RunningAnalysis :=
  let current := _compute_week_stats runs week_start week_end in
  do rolling <- _compute_rolling_avg_stats runs week_start 4 ;;
  Ok (compare_stats current rolling).

(** A flat run of [miles] miles on [day], the other readings missing. *)
Definition run_on (day : PyDate.date) (miles : float) : Run :=
  {| date := Some (Timestamp_of_date day);
     distance_mi := miles;
     total_ascent_ft := 0;
     is_trail := false;
     avg_pace := PyFloat.nan;
     avg_hr := PyFloat.nan;
     avg_cadence := PyFloat.nan;
     aerobic_te := PyFloat.nan;
     avg_ground_contact_ms := PyFloat.nan;
     body_battery_drain := PyFloat.nan |}.

(** The overreach scenario: 20 miles in each of the four weeks before the
    week of Monday 2026-03-16, and 23 miles in that week. *)
Definition overreach_scenario : RunFrame :=
  {| has_ground_contact := true;
     has_body_battery := true;
     runs := [ run_on (mkdate 2026 2 18) 20; run_on (mkdate 2026 2 25) 20;
               run_on (mkdate 2026 3 4) 20; run_on (mkdate 2026 3 11) 20;
               run_on (mkdate 2026 3 18) 23 ] |}.

(** Statistics of a week of flat runs with the given mean pace and heart
    rate, the rest at its defaults. *)
Definition flat_stats (pace hr : float) : RunWeekStats :=
  let d := default_stats 0 0 in
  {| week_start := week_start d;
     week_end := week_end d;
     total_miles := total_miles d;
     total_elevation_gain_ft := total_elevation_gain_ft d;
     run_count := run_count d;
     flat_run_count := flat_run_count d;
     flat_avg_pace_dec := Some pace;
     flat_avg_hr := Some hr;
     flat_avg_cadence := flat_avg_cadence d;
     flat_avg_aerobic_te := flat_avg_aerobic_te d;
     flat_avg_ground_contact_ms := flat_avg_ground_contact_ms d;
     longest_run_miles := longest_run_miles d;
     trail_run_count := trail_run_count d;
     trail_total_miles := trail_total_miles d;
     trail_total_elevation_ft := trail_total_elevation_ft d;
     avg_body_battery_drain := avg_body_battery_drain d;
     max_body_battery_drain := max_body_battery_drain d;
     hr_pace_efficiency := hr_pace_efficiency d |}.

End Running.

(* ------------------------------------------------------------------ *)
(** * The order of floats *)
(* ------------------------------------------------------------------ *)

Module FloatOrder.

(** The comparisons of floats that are not NaN are the lexicographic order
    of these keys: the class (infinities, signed finite numbers, zeros),
    then the exponent, then the mantissa, the last two reversed for a
    negative number. *)
Definition sf_key (x : spec_float) : Z * Z * Z :=
  match x with
  | S754_nan => (0, 0, 0)
  | S754_zero _ => (0, 0, 0)
  | S754_infinity s => (if s then -2 else 2, 0, 0)
  | S754_finite s m e => if s then (-1, - e, Zneg m) else (1, e, Zpos m)
  end.

Definition key (x : float) : Z * Z * Z := sf_key (Prim2SF x).

Definition lex_lt (a b : Z * Z * Z) : Prop :=
  let '(a1, a2, a3) := a in
  let '(b1, b2, b3) := b in
  a1 < b1 \/ (a1 = b1 /\ (a2 < b2 \/ (a2 = b2 /\ a3 < b3))).

Definition lex_le (a b : Z * Z * Z) : Prop := lex_lt a b \/ a = b.

Definition lex_compare (a b : Z * Z * Z) : comparison :=
  let '(a1, a2, a3) := a in
  let '(b1, b2, b3) := b in
  match a1 ?= b1 with
  | Eq => match a2 ?= b2 with
          | Eq => a3 ?= b3
          | c => c
          end
  | c => c
  end.

End FloatOrder.

(* ------------------------------------------------------------------ *)
(** * Text outside ASCII *)
(* ------------------------------------------------------------------ *)

Module Utf8.

(** The characters of the messages outside ASCII, as their UTF-8 bytes. *)
Definition utf8 (bytes : list nat) : string :=
  fold_right (fun b s => String (ascii_of_nat b) s) EmptyString bytes.

Definition check_mark : string := utf8 [226; 156; 133]%nat.
Definition warning_sign : string := utf8 [226; 154; 160; 239; 184; 143]%nat.
Definition arrow : string := utf8 [226; 134; 146]%nat.
Definition em_dash : string := utf8 [226; 128; 148]%nat.
Definition en_dash : string := utf8 [226; 128; 147]%nat.

End Utf8.

(* ------------------------------------------------------------------ *)
(** * Dictionaries and numpy helpers *)
(* ------------------------------------------------------------------ *)

(** A [dict] with text keys, in insertion order. *)
Definition Dict : Type := list (string * float).

Fixpoint dict_get (d : Dict) (k : string) : option float :=
  match d with
  | [] => None
  | (k', v) :: d' => if String.eqb k' k then Some v else dict_get d' k
  end.

(** The keys of several dictionaries, each once, by first occurrence.
    (The source collects them in a [set], whose order is not specified.) *)
Fixpoint add_keys (seen : list string) (ks : list string) : list string :=
  match ks with
  | [] => seen
  | k :: ks' =>
      if existsb (String.eqb k) seen then add_keys seen ks'
      else add_keys (seen ++ [k]) ks'
  end.

Definition all_keys (ds : list Dict) : list string :=
  fold_left (fun seen d => add_keys seen (map fst d)) ds [].

Module Numpy.

(** [np.mean] of a short list of floats. *)
Definition mean (vals : list float) : float :=
  (fold_left PrimFloat.add vals 0 / Pandas.float_of_nat (List.length vals))%float.

(** [np.rint]: the nearest integral float, ties to even. *)
Definition rint (x : float) : float :=
  match Prim2SF x with
  | S754_finite s m e =>
      if 0 <=? e then x
      else
        let n := PyFloat.round_half_even (Zpos m) e in
        if n =? 0 then (if s then (-0)%float else 0%float)
        else SF2Prim (binary_normalize prec emax (if s then - n else n) 0 false)
  | _ => x
  end.

(** [round(x, 1)] for a numpy float: [np.around] scales, rounds and
    scales back. *)
Definition round1 (x : float) : float := (rint (x * 10) / 10)%float.

End Numpy.

(* ------------------------------------------------------------------ *)
(** * analyzers/strength.py *)
(* ------------------------------------------------------------------ *)

Module Strength.

Import PyDate Pandas.

Record StrengthWeekStats : Type := {
  week_start : Timestamp;
  week_end : Timestamp;
  workout_days : Z;
  sets_by_muscle : Dict;
  heaviest_by_exercise : Dict;
  volume_by_exercise : Dict
}.

Record StrengthAnalysis : Type := {
  current : StrengthWeekStats;
  prior_4wk_avg : option StrengthWeekStats;
  pr_exercises : list string;
  regression_exercises : list string;
  missed_muscle_groups : list string;
  volume_drop_flags : Dict
}.

(** One aggregate per column, for the columns where it is positive:
    [{col: float(agg[col]) for col in agg.index if agg[col] > 0}]. *)
Definition positive_by_column (agg : Series -> float) (window : DataFrame) : Dict :=
  flat_map (fun col =>
              let v := agg (column window col) in
              if PrimFloat.ltb 0 v then [(col, v)] else [])
           (columns window).

Definition _week_sets (muscle_df : DataFrame) (start end_ : Timestamp) : Dict :=
  if empty muscle_df then []
  else
    let window := week_slice muscle_df start end_ in
    if empty window then [] else positive_by_column Pandas.sum window.

(** The heaviest weight of each exercise in the window: the maximum of
    the column over the present values, kept when it is a positive
    number ([not np.isnan(maxes[col]) and maxes[col] > 0]). *)
Definition _week_heaviest (heaviest_df : DataFrame) (start end_ : Timestamp) : Dict :=
  if empty heaviest_df then []
  else
    let window := week_slice heaviest_df start end_ in
    if empty window then []
    else
      flat_map (fun col =>
                  let v := Pandas.max (column window col) in
                  if negb (PyFloat.isnan v) && PrimFloat.ltb 0 v
                  then [(col, v)] else [])
               (columns window).

Definition _week_volume (volume_df : DataFrame) (start end_ : Timestamp) : Dict :=
  if empty volume_df then []
  else
    let window := week_slice volume_df start end_ in
    if empty window then [] else positive_by_column Pandas.sum window.

Definition _workout_days (muscle_df : DataFrame) (start end_ : Timestamp) : Z :=
  if empty muscle_df then 0
  else
    let window := week_slice muscle_df start end_ in
    if empty window then 0
    else
      Z.of_nat (List.length
        (filter (fun r => PrimFloat.ltb 0 (Pandas.sum (snd r))) (rows window))).

(** The four weeks before [week_start]: [for i in range(1, 5)]. *)
Definition prior_windows (week_start : Timestamp) : list (Timestamp * Timestamp) :=
  map (prior_window week_start) [1; 2; 3; 4].

(** [max(vals)] for a non-empty list: the first of the largest values. *)
Definition py_max (x : float) (vals : list float) : float :=
  fold_left (fun best v => if PrimFloat.ltb best v then v else best) vals x.

(** The positive values an exercise has in the prior weeks:
    [[d[ex] for d in prior_heaviest_list if ex in d and d[ex] > 0]]. *)
Definition positive_values (ds : list Dict) (ex : string) : list float :=
  flat_map (fun d => match dict_get d ex with
                     | Some v => if PrimFloat.ltb 0 v then [v] else []
                     | None => []
                     end) ds.

(** The best prior maximum of each exercise. *)
Definition prior_heaviest (prior_heaviest_list : list Dict) : Dict :=
  flat_map (fun ex => match positive_values prior_heaviest_list ex with
                      | [] => []
                      | v :: vals => [(ex, py_max v vals)]
                      end)
           (all_keys prior_heaviest_list).

(** The mean sets of each muscle group over the weeks that have it. *)
Definition prior_sets (prior_sets_list : list Dict) : Dict :=
  flat_map (fun mg =>
              match flat_map (fun d => match dict_get d mg with
                                       | Some v => [v]
                                       | None => []
                                       end) prior_sets_list with
              | [] => []
              | vals => [(mg, Numpy.mean vals)]
              end)
           (all_keys prior_sets_list).

(** [f"{ex}: {prior_max:.0f} -> {cur_max:.0f} lbs"] *)
Definition entry (ex : string) (prior_max cur_max : float) : string :=
  ex ++ ": " ++ PyConv.format_f 0 prior_max ++ " " ++ Utf8.arrow ++ " "
     ++ PyConv.format_f 0 cur_max ++ " lbs".

(** Progressive overload / regression detection. *)
Definition pr_exercises_of (current_heaviest prior_best : Dict) : list string :=
  flat_map (fun '(ex, cur_max) =>
              match dict_get prior_best ex with
              | Some prior_max =>
                  if PrimFloat.ltb prior_max cur_max
                  then [entry ex prior_max cur_max] else []
              | None => []
              end) current_heaviest.

Definition regression_exercises_of (current_heaviest prior_best : Dict) : list string :=
  flat_map (fun '(ex, cur_max) =>
              match dict_get prior_best ex with
              | Some prior_max =>
                  if PrimFloat.ltb prior_max cur_max then []
                  else if PrimFloat.ltb cur_max (prior_max * 0.95)
                  then [entry ex prior_max cur_max] else []
              | None => []
              end) current_heaviest.

Definition missed_groups (sets : Dict) : list string :=
  filter (fun mg =>
            negb (existsb (fun col => PyStr.contains (PyStr.lower mg) (PyStr.lower col))
                          (map fst sets)))
         Config.PRIORITY_MUSCLE_GROUPS.

Definition volume_drops (current_sets prior_avg_sets : Dict) : Dict :=
  flat_map (fun '(mg, avg_sets) =>
              if PrimFloat.ltb 0 avg_sets then
                let cur_sets := match dict_get current_sets mg with
                                | Some v => v
                                | None => 0%float
                                end in
                let drop_pct := ((avg_sets - cur_sets) / avg_sets)%float in
                if PrimFloat.ltb 0.25 drop_pct
                then [(mg, Numpy.round1 (drop_pct * 100))] else []
              else [])
           prior_avg_sets.

(** The sheets of the nutrition export the analyzer reads. *)
Record StrengthSheets : Type := {
  muscle_groups : DataFrame;
  exercises_heaviest : DataFrame;
  exercises_volume : DataFrame
}.

Definition analyze (mf_data : StrengthSheets) (week_start week_end : Timestamp)
  : StrengthAnalysis :=
  let muscle_df := muscle_groups mf_data in
  let heaviest_df := exercises_heaviest mf_data in
  let volume_df := exercises_volume mf_data in
  let current :=
    {| week_start := week_start; week_end := week_end;
       workout_days := _workout_days muscle_df week_start week_end;
       sets_by_muscle := _week_sets muscle_df week_start week_end;
       heaviest_by_exercise := _week_heaviest heaviest_df week_start week_end;
       volume_by_exercise := _week_volume volume_df week_start week_end |} in
  let prior_sets_list :=
    map (fun w => _week_sets muscle_df (fst w) (snd w)) (prior_windows week_start) in
  let prior_heaviest_list :=
    map (fun w => _week_heaviest heaviest_df (fst w) (snd w)) (prior_windows week_start) in
  let prior_avg :=
    {| week_start := week_start; week_end := week_end;
       workout_days := 0;
       sets_by_muscle := prior_sets prior_sets_list;
       heaviest_by_exercise := prior_heaviest prior_heaviest_list;
       volume_by_exercise := [] |} in
  {| current := current;
     prior_4wk_avg := Some prior_avg;
     pr_exercises :=
       pr_exercises_of (heaviest_by_exercise current) (heaviest_by_exercise prior_avg);
     regression_exercises :=
       regression_exercises_of (heaviest_by_exercise current) (heaviest_by_exercise prior_avg);
     missed_muscle_groups := missed_groups (sets_by_muscle current);
     volume_drop_flags :=
       volume_drops (sets_by_muscle current) (sets_by_muscle prior_avg) |}.

(** An export without strength sheets. *)
Definition no_sheets : StrengthSheets :=
  {| muscle_groups := empty_frame;
     exercises_heaviest := empty_frame;
     exercises_volume := empty_frame |}.


(** The baseline of the analysis: the heaviest weights of [prior_4wk_avg]. *)
Definition baseline_of (a : StrengthAnalysis) : Dict :=
  match prior_4wk_avg a with
  | Some prior => heaviest_by_exercise prior
  | None => []
  end.

(** An export with a bench press log: maxima of 125, 135, 0 (nothing
    lifted) and 130 lb in the four weeks before Monday 2026-03-16, and
    [this_week] in that week. *)
Definition bench_sheets (this_week : float) : StrengthSheets :=
  {| muscle_groups := empty_frame;
     exercises_heaviest :=
       {| columns := ["Bench Press"];
          rows := [ (Some (Timestamp_of_date (mkdate 2026 2 17)), [125%float]);
                    (Some (Timestamp_of_date (mkdate 2026 2 24)), [135%float]);
                    (Some (Timestamp_of_date (mkdate 2026 2 26)), [115%float]);
                    (Some (Timestamp_of_date (mkdate 2026 3 3)), [0%float]);
                    (Some (Timestamp_of_date (mkdate 2026 3 10)), [130%float]);
                    (Some (Timestamp_of_date (mkdate 2026 3 17)), [this_week]) ] |};
     exercises_volume := empty_frame |}.

End Strength.

(* ------------------------------------------------------------------ *)
(** * The PR and the regression list, as the description words them *)
(* ------------------------------------------------------------------ *)

Module Overload.

Import PyDate Strength.







End Overload.

(* ------------------------------------------------------------------ *)
(** * analyzers/nutrition.py *)
(* ------------------------------------------------------------------ *)

Module Nutrition.

Import PyDate Pandas.

Definition MICRONUTRIENT_TARGETS : Dict :=
  [ ("fiber", Config.FIBER_TARGET_G);
    ("iron", 18); ("vitamin_d", 15); ("potassium", 3400);
    ("magnesium", 420); ("sodium", 2300); ("calcium", 1000);
    ("vitamin_b12", 2.4); ("zinc", 11) ]%float.

Record NutritionWeekStats : Type := {
  week_start : Timestamp;
  week_end : Timestamp;
  logged_days : Z;
  avg_calories : option float;
  avg_protein_g : option float;
  avg_carbs_g : option float;
  avg_fat_g : option float;
  avg_fiber_g : option float;
  calorie_stdev : option float;
  avg_expenditure : option float;
  target_calories : option float;
  target_protein_g : option float;
  target_carbs_g : option float;
  target_fat_g : option float;
  protein_hit_days : Z;
  calorie_target_days : Z;
  avg_micronutrients : Dict
}.

Record NutritionAnalysis : Type := {
  current : NutritionWeekStats;
  avg_daily_deficit : option float;
  deficit_vs_target : option float;
  protein_pct_target : option float;
  carbs_pct_target : option float;
  fat_pct_target : option float;
  calories_pct_target : option float;
  protein_hit_rate : option float;
  calorie_target_rate : option float;
  low_protein_flag : bool;
  low_carb_underfuel_flag : bool;
  high_calorie_variance_flag : bool;
  incomplete_week_flag : bool;
  micronutrient_flags : Dict;
  weekly_mileage : float
}.

(** [mf_data.get_current_targets()] *)
Record Targets : Type := {
  calories : option float;
  protein_g : option float;
  carbs_g : option float;
  fat_g : option float
}.

(** The sheets of the nutrition export the analyzer reads. *)
Record NutritionSheets : Type := {
  current_targets : Targets;
  calories_macros : DataFrame;
  expenditure : DataFrame;
  micronutrients : DataFrame
}.

(** [_find_col]: the first column whose name contains a candidate, the
    candidates tried in order. *)
Fixpoint _find_col (df : DataFrame) (candidates : list string) : option string :=
  match candidates with
  | [] => None
  | c :: cs =>
      match find (fun col => PyStr.contains (PyStr.lower c) (PyStr.lower col))
                 (columns df) with
      | Some col => Some col
      | None => _find_col df cs
      end
  end.

(** The present values of the column found for [candidates]. *)
Definition found_values (week : DataFrame) (candidates : list string) : Series :=
  match _find_col week candidates with
  | Some col => dropna (column week col)
  | None => []
  end.

(** [vals.mean()] when [len(vals)]. *)
Definition mean_if_any (vals : Series) : option float :=
  match vals with
  | [] => None
  | _ => Some (Pandas.mean vals)
  end.

Definition count (p : float -> bool) (vals : Series) : Z :=
  Z.of_nat (List.length (filter p vals)).

(** [a / b * 100] when both are true values. *)
Definition pct_of (a b : option float) : option float :=
  match a, b with
  | Some x, Some y =>
      if PyFloat.truthy x && PyFloat.truthy y then Some (x / y * 100)%float else None
  | _, _ => None
  end.

(** The fibre average: the first of the three names that finds a column
    decides. *)
Fixpoint fiber_average (micro_week : DataFrame) (keys : list string) : option float :=
  match keys with
  | [] => None
  | k :: ks =>
      match _find_col micro_week [k] with
      | Some col => mean_if_any (dropna (column micro_week col))
      | None => fiber_average micro_week ks
      end
  end.

Definition week_stats (mf_data : NutritionSheets) (week_start week_end : Timestamp)
  : NutritionWeekStats :=
  let targets := current_targets mf_data in
  let cm_df := calories_macros mf_data in
  let cm_week := if empty cm_df then empty_frame else week_slice cm_df week_start week_end in
  let logged := negb (empty cm_week) in
  let cal_vals := found_values cm_week ["calorie"; "kcal"; "energy"] in
  let prot_vals := found_values cm_week ["protein"] in
  let carb_vals := found_values cm_week ["carb"] in
  let fat_vals := found_values cm_week ["fat"] in
  let protein_target :=
    or_zero (opt_or (protein_g targets) (Some Config.PROTEIN_PRESERVATION_MIN_G)) in
  let exp_df := expenditure mf_data in
  let exp_week := week_slice exp_df week_start week_end in
  let micro_df := micronutrients mf_data in
  let micro_week := week_slice micro_df week_start week_end in
  let has_micro := negb (empty micro_df) && negb (empty micro_week) in
  let fiber :=
    if has_micro then fiber_average micro_week ["fiber"; "dietary_fiber"; "fibre"]
    else None in
  {| week_start := week_start;
     week_end := week_end;
     logged_days := if logged then Z.of_nat (List.length (rows cm_week)) else 0;
     avg_calories := if logged then mean_if_any cal_vals else None;
     avg_protein_g := if logged then mean_if_any prot_vals else None;
     avg_carbs_g := if logged then mean_if_any carb_vals else None;
     avg_fat_g := if logged then mean_if_any fat_vals else None;
     avg_fiber_g := fiber;
     calorie_stdev :=
       if logged then match cal_vals with
                      | [] => None
                      | _ => Some (Pandas.std cal_vals)
                      end
       else None;
     avg_expenditure :=
       if negb (empty exp_df) && negb (empty exp_week)
       then mean_if_any (found_values exp_week ["expenditure"; "tdee"; "total"])
       else None;
     target_calories := calories targets;
     target_protein_g := protein_g targets;
     target_carbs_g := carbs_g targets;
     target_fat_g := fat_g targets;
     protein_hit_days :=
       if logged then count (fun p => PrimFloat.leb protein_target p) prot_vals else 0;
     calorie_target_days :=
       match calories targets with
       | Some t =>
           if logged && PyFloat.truthy t
           then count (fun c => PrimFloat.leb (abs (c - t))
                                  Config.CALORIE_ADHERENCE_WINDOW_KCAL) cal_vals
           else 0
       | None => 0
       end;
     avg_micronutrients :=
       List.app
       (match fiber with
        | Some f => [("fiber", f)]
        | None => []
        end)
       (if has_micro then
          flat_map (fun '(key, _) =>
                      if String.eqb key "fiber" then []
                      else match mean_if_any (found_values micro_week [key]) with
                           | Some m => [(key, m)]
                           | None => []
                           end)
                   MICRONUTRIENT_TARGETS
        else [])
  |}.

(** [float(a) / float(b)] for two counts. *)
Definition ratio (a b : Z) : float :=
  (Running.float_of_count a / Running.float_of_count b)%float.

Definition analyze
  (mf_data : NutritionSheets) (week_start week_end : Timestamp)
  (weekly_mileage : float) : NutritionAnalysis :=
  let stats := week_stats mf_data week_start week_end in
  let deficit :=
    match avg_calories stats, avg_expenditure stats with
    | Some c, Some e =>
        if PyFloat.truthy c && PyFloat.truthy e then Some (e - c)%float else None
    | _, _ => None
    end in
  {| current := stats;
     avg_daily_deficit := deficit;
     deficit_vs_target :=
       match deficit, target_calories stats, avg_expenditure stats with
       | Some d, Some t, Some e =>
           if PyFloat.truthy t && PyFloat.truthy e
              && negb (PrimFloat.eqb (e - t) 0)
           then Some (d - (e - t))%float else None
       | _, _, _ => None
       end;
     protein_pct_target := pct_of (avg_protein_g stats) (target_protein_g stats);
     carbs_pct_target := pct_of (avg_carbs_g stats) (target_carbs_g stats);
     fat_pct_target := pct_of (avg_fat_g stats) (target_fat_g stats);
     calories_pct_target := pct_of (avg_calories stats) (target_calories stats);
     protein_hit_rate :=
       if 0 <? logged_days stats
       then Some (ratio (protein_hit_days stats) (logged_days stats)) else None;
     calorie_target_rate :=
       if 0 <? logged_days stats
       then Some (ratio (calorie_target_days stats) (logged_days stats)) else None;
     low_protein_flag :=
       match avg_protein_g stats with
       | Some p => PyFloat.truthy p && PrimFloat.ltb p Config.PROTEIN_PRESERVATION_MIN_G
       | None => false
       end;
     low_carb_underfuel_flag :=
       match avg_carbs_g stats with
       | Some c =>
           PrimFloat.ltb c Config.CARBS_UNDERFUEL_MIN_G
           && PrimFloat.ltb 30 weekly_mileage
       | None => false
       end;
     high_calorie_variance_flag :=
       match calorie_stdev stats with
       | Some s => PyFloat.truthy s && PrimFloat.ltb Config.CALORIE_VARIANCE_CONCERN_STDEV s
       | None => false
       end;
     incomplete_week_flag := logged_days stats <? 5;
     micronutrient_flags :=
       flat_map (fun '(nutrient, target) =>
                   match dict_get (avg_micronutrients stats) nutrient with
                   | Some avg =>
                       let pct := (avg / target * 100)%float in
                       if PrimFloat.ltb pct 80 then [(nutrient, Numpy.round1 pct)] else []
                   | None => []
                   end)
                MICRONUTRIENT_TARGETS;
     weekly_mileage := weekly_mileage |}.

(** The carbohydrate readings of the week of an export, the missing ones
    dropped. *)
Definition week_carbs (mf_data : NutritionSheets) (week_start week_end : Timestamp)
  : Series :=
  found_values (week_slice (calories_macros mf_data) week_start week_end) ["carb"].

(** An export with one carbohydrate reading a day from Monday 2026-03-16
    on, and nothing else. *)
Definition carb_sheets (carbs : list float) : NutritionSheets :=
  {| current_targets :=
       {| calories := None; protein_g := None; carbs_g := None; fat_g := None |};
     calories_macros :=
       {| columns := ["Carbs (g)"];
          rows := map (fun '(i, c) =>
                         (Some (Timestamp_of_date (mkdate 2026 3 16 + Z.of_nat i)), [c]))
                      (combine (seq 0 (List.length carbs)) carbs) |};
     expenditure := empty_frame;
     micronutrients := empty_frame |}.

End Nutrition.

(* ------------------------------------------------------------------ *)
(** * analyzers/body_comp.py *)
(* ------------------------------------------------------------------ *)

Module BodyComp.

Import PyDate Pandas.

Record BodyCompAnalysis : Type := {
  week_start : Timestamp;
  week_end : Timestamp;
  weight_start_lbs : option float;
  weight_end_lbs : option float;
  weight_avg_lbs : option float;
  weight_net_change_lbs : option float;
  body_fat_pct_latest : option float;
  trend_weight_start : option float;
  trend_weight_end : option float;
  trend_net_change_lbs : option float;
  trend_direction : string;
  pounds_to_goal : option float;
  weekly_rate_lbs : option float;
  weeks_to_goal : option float;
  projected_goal_date : option date;
  weight_rising_despite_deficit : bool;
  trend_stalled : bool;
  algorithm_recalibrating : bool
}.

(** The sheets of the nutrition export the analyzer reads. *)
Record BodyCompSheets : Type := {
  scale_weight : DataFrame;
  weight_trend : DataFrame
}.

Definition _first_valid (series : Series) : option float :=
  hd_error (dropna series).

Definition _last_valid (series : Series) : option float :=
  hd_error (rev (dropna series)).

Definition _week_slice := week_slice.

(** [end - start] when both are true values. *)
Definition net_change (start end_ : option float) : option float :=
  match start, end_ with
  | Some s, Some e =>
      if PyFloat.truthy s && PyFloat.truthy e then Some (e - s)%float else None
  | _, _ => None
  end.

(** The week of a sheet, when the sheet and the week have rows. *)
Definition week_of (df : DataFrame) (week_start week_end : Timestamp)
  : option DataFrame :=
  if empty df then None
  else
    let week := _week_slice df week_start week_end in
    if empty week then None else Some week.

(** A column name is a true value when it is not empty. *)
Definition nonempty_name (c : option string) : option string :=
  match c with
  | Some EmptyString => None
  | other => other
  end.

Definition name_contains (sub : string) (c : string) : bool :=
  PyStr.contains sub (PyStr.lower c).

(** The series of the scale-weight column: the first column with
    "weight" in its name. *)
Definition weight_series (week : option DataFrame) : option Series :=
  match week with
  | Some w =>
      match nonempty_name (find (name_contains "weight") (columns w)) with
      | Some col => Some (dropna (column w col))
      | None => None
      end
  | None => None
  end.

(** The series of the body-fat column: the first with "fat" or "pct". *)
Definition fat_series (week : option DataFrame) : option Series :=
  match week with
  | Some w =>
      match nonempty_name
              (find (fun c => name_contains "fat" c || name_contains "pct" c)
                    (columns w)) with
      | Some col => Some (dropna (column w col))
      | None => None
      end
  | None => None
  end.

(** The series of the trend column: the first column with "trend" in its
    name or, failing that, the first column. *)
Definition trend_series (week : option DataFrame) : option Series :=
  match week with
  | Some w =>
      let by_name := nonempty_name (find (name_contains "trend") (columns w)) in
      let trend_col :=
        match by_name with
        | Some c => Some c
        | None => nonempty_name (hd_error (columns w))
        end in
      match trend_col with
      | Some col => Some (dropna (column w col))
      | None => None
      end
  | None => None
  end.

Definition on_series {A : Type} (f : Series -> option A) (s : option Series) : option A :=
  match s with
  | Some v => f v
  | None => None
  end.

(** The trend direction and the stalled flag. *)
Definition direction_of (trend_net_change_lbs : option float) : string * bool :=
  match trend_net_change_lbs with
  | Some c =>
      if PrimFloat.ltb c (-0.1) then ("down", false)
      else if PrimFloat.ltb 0.1 c then ("up", false)
      else ("flat", true)
  | None => ("flat", false)
  end.

(** [week_end.date() + timedelta(days=int(weeks_to_goal * 7))] *)
Definition goal_date (week_end : Timestamp) (weeks_to_goal : float) : result date :=
  do goal_days <- PyFloat.to_int (weeks_to_goal * 7)%float ;;
  date_add_days (Timestamp_date week_end) goal_days.

(** The goal projection: pounds to goal, weekly rate, weeks to goal and
    projected date. *)
Definition goal_projection
  (week_end : Timestamp) (trend_weight_end weight_end_lbs
   trend_net_change_lbs avg_daily_deficit : option float)
  : result (option float * option float * option float * option date) :=
  let current_weight := opt_or trend_weight_end weight_end_lbs in
  match current_weight with
  | Some cw =>
      if PyFloat.truthy cw then
        let pounds_to_goal := (cw - Config.GOAL_WEIGHT_LBS)%float in
        let by_trend :=
          match trend_net_change_lbs with
          | Some c => if PyFloat.truthy c && PrimFloat.ltb 0.05 (abs c)
                      then Some c else None
          | None => None
          end in
        match by_trend with
        | Some c =>
            let weekly_loss := (- c)%float in
            if PrimFloat.ltb 0 weekly_loss && PrimFloat.ltb 0 pounds_to_goal then
              let weeks := (pounds_to_goal / weekly_loss)%float in
              do d <- goal_date week_end weeks ;;
              Ok (Some pounds_to_goal, Some weekly_loss, Some weeks, Some d)
            else Ok (Some pounds_to_goal, Some weekly_loss, None, None)
        | None =>
            match avg_daily_deficit with
            | Some deficit =>
                if PyFloat.truthy deficit && PrimFloat.ltb 0 deficit then
                  let weekly_loss := (deficit * 7 / 3500)%float in
                  if PyFloat.truthy pounds_to_goal && PrimFloat.ltb 0 pounds_to_goal then
                    let weeks := (pounds_to_goal / weekly_loss)%float in
                    do d <- goal_date week_end weeks ;;
                    Ok (Some pounds_to_goal, Some weekly_loss, Some weeks, Some d)
                  else Ok (Some pounds_to_goal, Some weekly_loss, None, None)
                else Ok (Some pounds_to_goal, None, None, None)
            | None => Ok (Some pounds_to_goal, None, None, None)
            end
        end
      else Ok (None, None, None, None)
  | None => Ok (None, None, None, None)
  end.

Definition analyze
  (mf_data : BodyCompSheets) (week_start week_end : Timestamp)
  (avg_daily_deficit : option float) : result BodyCompAnalysis :=
  (* Scale weight *)
  let scale_week := week_of (scale_weight mf_data) week_start week_end in
  let w_series := weight_series scale_week in
  let weight_start_lbs := on_series _first_valid w_series in
  let weight_end_lbs := on_series _last_valid w_series in
  (* Trend weight *)
  let trend_week := week_of (weight_trend mf_data) week_start week_end in
  let t_series := trend_series trend_week in
  let trend_weight_start := on_series _first_valid t_series in
  let trend_weight_end := on_series _last_valid t_series in
  let trend_net_change_lbs := net_change trend_weight_start trend_weight_end in
  (* Trend direction *)
  let '(trend_direction, trend_stalled) := direction_of trend_net_change_lbs in
  (* Goal projection *)
  do goal <- goal_projection week_end trend_weight_end weight_end_lbs
               trend_net_change_lbs avg_daily_deficit ;;
  let '(pounds_to_goal, weekly_rate_lbs, weeks_to_goal, projected_goal_date) := goal in
  (* Flags *)
  Ok {| week_start := week_start;
        week_end := week_end;
        weight_start_lbs := weight_start_lbs;
        weight_end_lbs := weight_end_lbs;
        weight_avg_lbs :=
          on_series (fun v => match v with
                              | [] => None
                              | _ => Some (Pandas.mean v)
                              end) w_series;
        weight_net_change_lbs := net_change weight_start_lbs weight_end_lbs;
        body_fat_pct_latest := on_series _last_valid (fat_series scale_week);
        trend_weight_start := trend_weight_start;
        trend_weight_end := trend_weight_end;
        trend_net_change_lbs := trend_net_change_lbs;
        trend_direction := trend_direction;
        pounds_to_goal := pounds_to_goal;
        weekly_rate_lbs := weekly_rate_lbs;
        weeks_to_goal := weeks_to_goal;
        projected_goal_date := projected_goal_date;
        weight_rising_despite_deficit :=
          match avg_daily_deficit with
          | Some deficit =>
              PrimFloat.ltb 0 deficit && String.eqb trend_direction "up"
          | None => false
          end;
        trend_stalled := trend_stalled;
        algorithm_recalibrating :=
          Timestamp_date week_end - Config.TRACKING_RESTART <=? 21 |}.

(** The valid readings of the trend weight in the week. *)
Definition trend_readings
  (mf_data : BodyCompSheets) (week_start week_end : Timestamp) : Series :=
  match trend_series (week_of (weight_trend mf_data) week_start week_end) with
  | Some s => s
  | None => []
  end.

(** [(week_end.date() - TRACKING_RESTART).days] *)
Definition days_since_restart (week_end : Timestamp) : Z :=
  Timestamp_date week_end - Config.TRACKING_RESTART.

(** An export without weight sheets. *)
Definition no_sheets : BodyCompSheets :=
  {| scale_weight := empty_frame; weight_trend := empty_frame |}.

(** An export with scale readings in the week of Monday 2026-03-16 and a
    trend sheet whose readings of that week are all missing. *)
Definition scale_only_sheets : BodyCompSheets :=
  {| scale_weight :=
       {| columns := ["Weight (lbs)"];
          rows := [ (Some (Timestamp_of_date (mkdate 2026 3 16)), [181.4%float]);
                    (Some (Timestamp_of_date (mkdate 2026 3 20)), [180.6%float]) ] |};
     weight_trend :=
       {| columns := ["Trend Weight (lbs)"];
          rows := [ (Some (Timestamp_of_date (mkdate 2026 3 9)), [181.9%float]);
                    (Some (Timestamp_of_date (mkdate 2026 3 16)), [PyFloat.nan]) ] |} |}.

(** [BodyCompAnalysis(week_start=..., week_end=...)]: the defaults. *)
Definition default_analysis (week_start week_end : Timestamp) : BodyCompAnalysis :=
  {| week_start := week_start;
     week_end := week_end;
     weight_start_lbs := None;
     weight_end_lbs := None;
     weight_avg_lbs := None;
     weight_net_change_lbs := None;
     body_fat_pct_latest := None;
     trend_weight_start := None;
     trend_weight_end := None;
     trend_net_change_lbs := None;
     trend_direction := "flat";
     pounds_to_goal := None;
     weekly_rate_lbs := None;
     weeks_to_goal := None;
     projected_goal_date := None;
     weight_rising_despite_deficit := false;
     trend_stalled := false;
     algorithm_recalibrating := false |}.

(** The analysis of an export, or the defaults if the projection of the
    goal date overflows. *)
Definition analysis_or_default
  (mf_data : BodyCompSheets) (week_start week_end : Timestamp)
  (avg_daily_deficit : option float) : BodyCompAnalysis :=
  match analyze mf_data week_start week_end avg_daily_deficit with
  | Ok r => r
  | Raise _ => default_analysis week_start week_end
  end.

End BodyComp.

(* ------------------------------------------------------------------ *)
(** * analyzers/signals.py *)
(* ------------------------------------------------------------------ *)

Module Signals.

Import PyConv Utf8.

Record Signal : Type := {
  icon : string;
  category : string;
  message : string
}.

Definition good (cat msg : string) : Signal :=
  {| icon := check_mark; category := cat; message := msg |}.

Definition warning (cat msg : string) : Signal :=
  {| icon := warning_sign; category := cat; message := msg |}.

(** ** The signals, one per condition, with their templated messages *)

Definition aerobic_signal (rolling_pace cur_pace : string) (cur_hr : float) : Signal :=
  good "Running"
    ("Pace improving (" ++ rolling_pace ++ " " ++ arrow ++ " " ++ cur_pace
     ++ "/mi) " ++ "with HR holding steady at " ++ format_f 0 cur_hr ++ " "
     ++ em_dash ++ " aerobic adaptation confirmed.").

Definition fatigue_signal (rolling_pace cur_pace : string) (roll_hr cur_hr : float)
  : Signal :=
  warning "Running"
    ("Pace slower + HR higher than 4-week avg " ++ "(" ++ rolling_pace ++ " "
     ++ arrow ++ " " ++ cur_pace ++ "/mi, HR " ++ format_f 0 roll_hr ++ " "
     ++ arrow ++ " " ++ format_f 0 cur_hr ++ ") " ++ em_dash ++ " "
     ++ "potential fatigue or overtraining.").

Definition overreach_signal (mileage_change_pct roll_miles cur_miles : float) : Signal :=
  let pct := (mileage_change_pct * 100)%float in
  warning "Running"
    ("Weekly mileage is " ++ format_f 0 pct ++ "% above 4-week average " ++ "("
     ++ format_f 1 roll_miles ++ " " ++ arrow ++ " " ++ format_f 1 cur_miles
     ++ " mi) " ++ em_dash ++ " injury risk threshold exceeded.").

Definition recovery_debt_signal (bbd : float) : Signal :=
  warning "Running"
    ("Average Body Battery drain per run is " ++ format_f 0 bbd ++ " "
     ++ "(threshold: 15) " ++ em_dash ++ " recovery debt accumulating.").

Definition ground_contact_signal (roll_gct cur_gct change : float) : Signal :=
  warning "Running"
    ("Ground contact time rising (" ++ format_f 0 roll_gct ++ " " ++ arrow ++ " "
     ++ format_f 0 cur_gct ++ " ms, " ++ "+" ++ format_f 0 change ++ " ms) "
     ++ em_dash ++ " " ++ "possible glute/hip fatigue or form breakdown.").

Definition overload_signal (count : Z) : Signal :=
  good "Strength"
    ("Progressive overload confirmed: " ++ PyStr.of_int count
     ++ " exercise(s) hit new max weight this week.").

Definition missed_groups_signal (missed : list string) : Signal :=
  let groups := PyStr.join ", " missed in
  warning "Strength"
    ("Zero sets logged for priority muscle group(s): " ++ groups ++ ".").

Definition volume_drop_signal (item : string * float) : Signal :=
  let '(mg, drop_pct) := item in
  warning "Strength"
    (mg ++ " volume dropped " ++ format_f 0 drop_pct ++ "% vs. 4-week average.").

Definition low_protein_signal (avg_p : float) : Signal :=
  warning "Nutrition"
    ("Avg daily protein " ++ format_f 0 avg_p
     ++ "g is below the 140g muscle-preservation " ++ "threshold " ++ em_dash
     ++ " risk of muscle loss during caloric deficit.").

Definition low_carb_signal (avg_c miles : float) : Signal :=
  warning "Nutrition"
    ("Avg carbs " ++ format_f 0 avg_c ++ "g/day while running "
     ++ format_f 1 miles ++ " mi/week " ++ em_dash ++ " "
     ++ "underfueling risk for performance and recovery.").

Definition calorie_variance_signal (stdev : float) : Signal :=
  warning "Nutrition"
    ("Calorie intake std deviation is " ++ format_f 0 stdev ++ " kcal "
     ++ "(threshold: 300) " ++ em_dash
     ++ " inconsistent adherence may slow fat loss.").

Definition micronutrient_signal (item : string * float) : Signal :=
  let '(nutrient, pct) := item in
  let display := PyStr.title (PyStr.replace_char "_" " " nutrient) in
  warning "Nutrition"
    (display ++ " averaging " ++ format_f 0 pct ++ "% of daily target "
     ++ em_dash ++ " consider food sources or supplementation.").

Definition weight_rising_signal : Signal :=
  warning "Body Comp"
    ("Trend weight rising despite a logged caloric deficit " ++ em_dash ++ " "
     ++ "MacroFactor is still recalibrating from the tracking gap. "
     ++ "Maintain consistent logging; the algorithm needs 2" ++ en_dash
     ++ "3 more weeks of data.").

Definition recalibrating_signal : Signal :=
  warning "Body Comp"
    ("Still within the first 3 weeks post-tracking restart. "
     ++ "MacroFactor expenditure estimate (currently ~2,009 kcal) "
     ++ "is likely underestimating true TDEE given run volume. "
     ++ "Consistency now = faster recalibration.").

(** ** [detect] *)

(** [signals.append(s)] *)
Definition append (signals : list Signal) (s : Signal) : list Signal :=
  List.app signals [s].

Definition detect
  (running : Running.RunningAnalysis)
  (strength : Strength.StrengthAnalysis)
  (nutrition : Nutrition.NutritionAnalysis)
  (body_comp : BodyComp.BodyCompAnalysis) : result (list Signal) :=
  let cur := Running.current running in
  let roll := Running.rolling_4wk running in
  let signals : list Signal := [] in
  (* Aerobic adaptation *)
  do signals <-
    (if Running.aerobic_adaptation_signal running then
       do cur_pace <- Garmin.format_pace (Running.flat_avg_pace_dec cur) ;;
       do rolling_pace <- Garmin.format_pace (Running.flat_avg_pace_dec roll) ;;
       let cur_hr := or_zero (Running.flat_avg_hr cur) in
       Ok (append signals (aerobic_signal rolling_pace cur_pace cur_hr))
     else Ok signals) ;;
  (* Fatigue signal *)
  do signals <-
    (if Running.fatigue_signal running then
       do cur_pace <- Garmin.format_pace (Running.flat_avg_pace_dec cur) ;;
       do rolling_pace <- Garmin.format_pace (Running.flat_avg_pace_dec roll) ;;
       let cur_hr := or_zero (Running.flat_avg_hr cur) in
       let roll_hr := or_zero (Running.flat_avg_hr roll) in
       Ok (append signals (fatigue_signal rolling_pace cur_pace roll_hr cur_hr))
     else Ok signals) ;;
  (* Overreach flag *)
  let signals :=
    match Running.mileage_change_pct running with
    | Some change =>
        if Running.overreach_flag running
        then append signals
               (overreach_signal change (Running.total_miles roll)
                  (Running.total_miles cur))
        else signals
    | None => signals
    end in
  (* Recovery debt *)
  let signals :=
    if Running.recovery_debt_flag running
    then append signals
           (recovery_debt_signal (or_zero (Running.avg_body_battery_drain cur)))
    else signals in
  (* Ground contact time trending up *)
  let signals :=
    match Running.ground_contact_change_ms running with
    | Some change =>
        if PrimFloat.ltb Config.GROUND_CONTACT_CONCERN_MS change
        then append signals
               (ground_contact_signal
                  (or_zero (Running.flat_avg_ground_contact_ms roll))
                  (or_zero (Running.flat_avg_ground_contact_ms cur)) change)
        else signals
    | None => signals
    end in
  (* Strength volume improvement *)
  let signals :=
    match Strength.pr_exercises strength with
    | [] => signals
    | prs => append signals (overload_signal (Z.of_nat (List.length prs)))
    end in
  (* Missed muscle groups *)
  let signals :=
    match Strength.missed_muscle_groups strength with
    | [] => signals
    | missed => append signals (missed_groups_signal missed)
    end in
  (* Volume drops *)
  let signals :=
    fold_left (fun signals item => append signals (volume_drop_signal item))
              (Strength.volume_drop_flags strength) signals in
  (* Nutrition signals *)
  let stats := Nutrition.current nutrition in
  let signals :=
    if Nutrition.low_protein_flag nutrition
    then append signals (low_protein_signal (or_zero (Nutrition.avg_protein_g stats)))
    else signals in
  let signals :=
    if Nutrition.low_carb_underfuel_flag nutrition
    then append signals
           (low_carb_signal (or_zero (Nutrition.avg_carbs_g stats))
              (Nutrition.weekly_mileage nutrition))
    else signals in
  let signals :=
    if Nutrition.high_calorie_variance_flag nutrition
    then append signals
           (calorie_variance_signal (or_zero (Nutrition.calorie_stdev stats)))
    else signals in
  (* Micronutrient flags *)
  let signals :=
    fold_left (fun signals item => append signals (micronutrient_signal item))
              (Nutrition.micronutrient_flags nutrition) signals in
  (* Body composition signals *)
  let signals :=
    if BodyComp.weight_rising_despite_deficit body_comp
    then append signals weight_rising_signal
    else signals in
  let signals :=
    if BodyComp.algorithm_recalibrating body_comp
    then append signals recalibrating_signal
    else signals in
  Ok signals.

(** ** The conditions, group by group *)

Definition b2n (b : bool) : nat := if b then 1%nat else 0%nat.

Definition nonempty {A : Type} (l : list A) : bool :=
  match l with
  | [] => false
  | _ => true
  end.

Definition is_some {A : Type} (o : option A) : bool :=
  match o with
  | Some _ => true
  | None => false
  end.

(** The ground-contact condition. *)
Definition ground_contact_rising (running : Running.RunningAnalysis) : bool :=
  match Running.ground_contact_change_ms running with
  | Some change => PrimFloat.ltb Config.GROUND_CONTACT_CONCERN_MS change
  | None => false
  end.

(** The number of conditions that are triggered, per group: a flag counts
    for one, each volume drop and each flagged micronutrient for one. *)
Definition running_triggered (running : Running.RunningAnalysis) : nat :=
  (b2n (Running.aerobic_adaptation_signal running)
   + b2n (Running.fatigue_signal running)
   + b2n (Running.overreach_flag running
          && is_some (Running.mileage_change_pct running))
   + b2n (Running.recovery_debt_flag running)
   + b2n (ground_contact_rising running))%nat.

Definition strength_triggered (strength : Strength.StrengthAnalysis) : nat :=
  (b2n (nonempty (Strength.pr_exercises strength))
   + b2n (nonempty (Strength.missed_muscle_groups strength))
   + List.length (Strength.volume_drop_flags strength))%nat.

Definition nutrition_triggered (nutrition : Nutrition.NutritionAnalysis) : nat :=
  (b2n (Nutrition.low_protein_flag nutrition)
   + b2n (Nutrition.low_carb_underfuel_flag nutrition)
   + b2n (Nutrition.high_calorie_variance_flag nutrition)
   + List.length (Nutrition.micronutrient_flags nutrition))%nat.

Definition body_comp_triggered (body_comp : BodyComp.BodyCompAnalysis) : nat :=
  (b2n (BodyComp.weight_rising_despite_deficit body_comp)
   + b2n (BodyComp.algorithm_recalibrating body_comp))%nat.

(** The signal of a condition, when it is triggered. *)
Definition when (c : bool) (s : Signal) : list Signal := if c then [s] else [].

(** The signals of each group, in the order of the specification. *)
Definition running_signals
  (running : Running.RunningAnalysis) (rolling_pace cur_pace : string)
  : list Signal :=
  let cur := Running.current running in
  let roll := Running.rolling_4wk running in
  let cur_hr := or_zero (Running.flat_avg_hr cur) in
  let roll_hr := or_zero (Running.flat_avg_hr roll) in
  (when (Running.aerobic_adaptation_signal running)
        (aerobic_signal rolling_pace cur_pace cur_hr)
   ++ when (Running.fatigue_signal running)
        (fatigue_signal rolling_pace cur_pace roll_hr cur_hr)
   ++ match Running.mileage_change_pct running with
      | Some change =>
          when (Running.overreach_flag running)
               (overreach_signal change (Running.total_miles roll)
                  (Running.total_miles cur))
      | None => []
      end
   ++ when (Running.recovery_debt_flag running)
        (recovery_debt_signal (or_zero (Running.avg_body_battery_drain cur)))
   ++ match Running.ground_contact_change_ms running with
      | Some change =>
          when (PrimFloat.ltb Config.GROUND_CONTACT_CONCERN_MS change)
               (ground_contact_signal
                  (or_zero (Running.flat_avg_ground_contact_ms roll))
                  (or_zero (Running.flat_avg_ground_contact_ms cur)) change)
      | None => []
      end)%list.

Definition strength_signals (strength : Strength.StrengthAnalysis) : list Signal :=
  (when (nonempty (Strength.pr_exercises strength))
        (overload_signal (Z.of_nat (List.length (Strength.pr_exercises strength))))
   ++ when (nonempty (Strength.missed_muscle_groups strength))
        (missed_groups_signal (Strength.missed_muscle_groups strength))
   ++ map volume_drop_signal (Strength.volume_drop_flags strength))%list.

Definition nutrition_signals (nutrition : Nutrition.NutritionAnalysis) : list Signal :=
  let stats := Nutrition.current nutrition in
  (when (Nutrition.low_protein_flag nutrition)
        (low_protein_signal (or_zero (Nutrition.avg_protein_g stats)))
   ++ when (Nutrition.low_carb_underfuel_flag nutrition)
        (low_carb_signal (or_zero (Nutrition.avg_carbs_g stats))
           (Nutrition.weekly_mileage nutrition))
   ++ when (Nutrition.high_calorie_variance_flag nutrition)
        (calorie_variance_signal (or_zero (Nutrition.calorie_stdev stats)))
   ++ map micronutrient_signal (Nutrition.micronutrient_flags nutrition))%list.

Definition body_comp_signals (body_comp : BodyComp.BodyCompAnalysis) : list Signal :=
  (when (BodyComp.weight_rising_despite_deficit body_comp) weight_rising_signal
   ++ when (BodyComp.algorithm_recalibrating body_comp) recalibrating_signal)%list.

(** The paces the running messages show can be displayed: [format_pace]
    returns on the current and on the rolling flat pace. *)
Definition paces_display (running : Running.RunningAnalysis)
  : option (string * string) :=
  match Garmin.format_pace (Running.flat_avg_pace_dec (Running.rolling_4wk running)),
        Garmin.format_pace (Running.flat_avg_pace_dec (Running.current running)) with
  | Ok rolling_pace, Ok cur_pace => Some (rolling_pace, cur_pace)
  | _, _ => None
  end.

(** The outputs of the four analyzers on small exports: a faster week at a
    steady heart rate, no strength sheets, two days of low carbohydrates at
    35 miles a week, and the week of the tracking restart. *)
Definition example_running : Running.RunningAnalysis :=
  Running.compare_stats (Running.flat_stats 8 150) (Running.flat_stats 8.25 151).

Definition example_strength : Strength.StrengthAnalysis :=
  Strength.analyze Strength.no_sheets
    (PyDate.Timestamp_of_date (PyDate.mkdate 2026 2 16))
    (PyDate.Timestamp_of_date (PyDate.mkdate 2026 2 22)).

Definition example_nutrition : Nutrition.NutritionAnalysis :=
  Nutrition.analyze (Nutrition.carb_sheets [60; 70]%float)
    (PyDate.Timestamp_of_date (PyDate.mkdate 2026 3 16))
    (PyDate.Timestamp_of_date (PyDate.mkdate 2026 3 22)) 35.

Definition example_body_comp : BodyComp.BodyCompAnalysis :=
  BodyComp.analysis_or_default BodyComp.no_sheets
    (PyDate.Timestamp_of_date (PyDate.mkdate 2026 2 16))
    (PyDate.Timestamp_of_date (PyDate.mkdate 2026 2 22)) None.

End Signals.

(* ------------------------------------------------------------------ *)
(** * Further inputs for the cell converters *)
(* ------------------------------------------------------------------ *)

Module GarminInputs.

(** [n] copies of a character. *)
Fixpoint chars (n : nat) (c : ascii) : string :=
  match n with
  | O => EmptyString
  | S n' => String c (chars n' c)
  end.

(** A pace whose minutes, 1 followed by 400 zeros, exceed every double. *)
Definition huge_pace : string := String "1" (chars 400 "0") ++ ":00".

(** A pace whose minutes, 1 followed by 4300 zeros, have one digit more
    than [int()] converts. *)
Definition long_pace : string := String "1" (chars 4300 "0") ++ ":00".

End GarminInputs.

(* ------------------------------------------------------------------ *)
(** * Further exports for the analyzers *)
(* ------------------------------------------------------------------ *)

Module Exports.

Import PyDate Pandas.

(** A first week of running: one flat run of 5 miles on Wednesday
    2026-03-18 and nothing before. *)
Definition first_week_runs : Running.RunFrame :=
  {| Running.has_ground_contact := true;
     Running.has_body_battery := true;
     Running.runs := [ Running.run_on (mkdate 2026 3 18) 5 ] |}.


(** An export whose trend falls from 183 lb on Monday 2026-03-16 to
    182 lb on Sunday 2026-03-22. *)
Definition falling_trend_sheets : BodyComp.BodyCompSheets :=
  {| BodyComp.scale_weight := empty_frame;
     BodyComp.weight_trend :=
       {| columns := ["Trend Weight (lbs)"];
          rows := [ (Some (Timestamp_of_date (mkdate 2026 3 16)), [183%float]);
                    (Some (Timestamp_of_date (mkdate 2026 3 22)), [182%float]) ] |} |}.

(** A single week of history: one flat run of 20 miles at 8.5 min/mi
    on Wednesday 2026-03-11, the week before that of Monday 2026-03-16,
    and nothing earlier. *)
Definition one_week_history : Running.RunFrame :=
  {| Running.has_ground_contact := true;
     Running.has_body_battery := true;
     Running.runs :=
       [ {| Running.date := Some (Timestamp_of_date (mkdate 2026 3 11));
            Running.distance_mi := 20;
            Running.total_ascent_ft := 0;
            Running.is_trail := false;
            Running.avg_pace := 8.5;
            Running.avg_hr := 150;
            Running.avg_cadence := PyFloat.nan;
            Running.aerobic_te := PyFloat.nan;
            Running.avg_ground_contact_ms := PyFloat.nan;
            Running.body_battery_drain := PyFloat.nan |} ] |}.

End Exports.

(* ------------------------------------------------------------------ *)
(** * The sign of a float *)
(* ------------------------------------------------------------------ *)

Module FloatSign.

(** The sign bit is clear: a positive number, plus zero or plus infinity
    (NaN passes). *)
Definition sign_clear (x : spec_float) : bool :=
  match x with
  | S754_zero s | S754_infinity s | S754_finite s _ _ => negb s
  | S754_nan => true
  end.

End FloatSign.

(* ------------------------------------------------------------------ *)
(** * parsers/garmin.py: the loaded activities and their views *)
(* ------------------------------------------------------------------ *)

Module GarminData.

Import PyDate.

(** config.py: the activity types, as the export writes them. *)
Definition RUNNING_ACTIVITY_TYPES : list string :=
  ["Running"; "Treadmill Running"; "Trail Running"].

Definition STRENGTH_ACTIVITY_TYPES : list string :=
  ["Strength Training"; "Gym"; "Indoor Rowing"; "Cycling"; "Indoor Cycling"].

(** A row of the loaded frame: its activity type ([None] for an empty
    cell) and the columns the running analyzer reads. *)
Record Activity : Type := {
  activity_type : option string;
  columns : Running.Run
}.

(** [series.isin(types)]: an empty cell is in no set. *)
Definition isin (t : option string) (types : list string) : bool :=
  match t with
  | Some s => existsb (String.eqb s) types
  | None => false
  end.

(** The columns [_load] derives once the cells are converted: the body
    battery drain becomes its absolute value, and [is_trail] is
    [total_ascent_ft > TRAIL_RUN_ASCENT_FT] (false without the column). *)
Definition derive (has_ascent has_drain : bool) (r : Running.Run) : Running.Run :=
  {| Running.date := Running.date r;
     Running.distance_mi := Running.distance_mi r;
     Running.total_ascent_ft := Running.total_ascent_ft r;
     Running.is_trail :=
       if has_ascent
       then PrimFloat.ltb Config.TRAIL_RUN_ASCENT_FT (Running.total_ascent_ft r)
       else false;
     Running.avg_pace := Running.avg_pace r;
     Running.avg_hr := Running.avg_hr r;
     Running.avg_cadence := Running.avg_cadence r;
     Running.aerobic_te := Running.aerobic_te r;
     Running.avg_ground_contact_ms := Running.avg_ground_contact_ms r;
     Running.body_battery_drain :=
       if has_drain then abs (Running.body_battery_drain r)
       else Running.body_battery_drain r |}.

(** ** The filtered views of [GarminData], over the rows of [_raw] *)

Definition runs (_raw : list Activity) : list Activity :=
  filter (fun a => isin (activity_type a) RUNNING_ACTIVITY_TYPES) _raw.

Definition flat_runs (_raw : list Activity) : list Activity :=
  filter (fun a => negb (Running.is_trail (columns a))) (runs _raw).

Definition trail_runs (_raw : list Activity) : list Activity :=
  filter (fun a => Running.is_trail (columns a)) (runs _raw).

Definition strength_sessions (_raw : list Activity) : list Activity :=
  filter (fun a => isin (activity_type a) STRENGTH_ACTIVITY_TYPES) _raw.

Definition week_window (_raw : list Activity) (start end_ : Timestamp)
  : list Activity :=
  filter (fun a => Pandas.in_window start end_ (Running.date (columns a))) _raw.

Definition runs_in_window
  (_raw : list Activity) (start end_ : Timestamp) (trail_only : bool)
  : list Activity :=
  let df :=
    filter (fun a => Pandas.in_window start end_ (Running.date (columns a)))
           (runs _raw) in
  if trail_only then filter (fun a => Running.is_trail (columns a)) df else df.

(** [garmin_data.runs] as the running analyzer receives it. *)
Definition run_frame (has_ground_contact has_body_battery : bool)
  (_raw : list Activity) : Running.RunFrame :=
  {| Running.has_ground_contact := has_ground_contact;
     Running.has_body_battery := has_body_battery;
     Running.runs := map columns (runs _raw) |}.

(** A run with the given ascent and body battery drain, the other
    readings missing. *)
Definition climb (ascent drain : float) : Running.Run :=
  {| Running.date := None;
     Running.distance_mi := PyFloat.nan;
     Running.total_ascent_ft := ascent;
     Running.is_trail := false;
     Running.avg_pace := PyFloat.nan;
     Running.avg_hr := PyFloat.nan;
     Running.avg_cadence := PyFloat.nan;
     Running.aerobic_te := PyFloat.nan;
     Running.avg_ground_contact_ms := PyFloat.nan;
     Running.body_battery_drain := drain |}.

End GarminData.

(* ------------------------------------------------------------------ *)
(** * The characters of a number *)
(* ------------------------------------------------------------------ *)

Module CellAlphabet.

Import PyStr Garmin.

Fixpoint string_forall (p : ascii -> bool) (s : string) : bool :=
  match s with
  | String c s' => p c && string_forall p s'
  | EmptyString => true
  end.

Fixpoint string_mem (c : ascii) (s : string) : bool :=
  match s with
  | String a s' => Ascii.eqb a c || string_mem c s'
  | EmptyString => false
  end.

(** A character of ASCII, and a text of such characters.  [is_digit]
    and [is_space] are the digits and the white space of ASCII, while
    Python's [float()], [int()], [\d] and [str.strip()] also read the
    decimal digits and the white space of the rest of Unicode (the
    fullwidth digits, the no-break space): what is stated of every
    character of a cell is stated of the ASCII texts. *)
Definition ascii_char (c : ascii) : bool := (N_of_ascii c <? 128)%N.

Definition ascii_text (s : string) : bool := string_forall ascii_char s.

(** The characters a text that [float()] or [int()] accepts can hold
    between its white space: digits, signs, the point, the underscore,
    the exponent mark and the letters of [inf], [infinity] and [nan]. *)
Definition float_char (c : ascii) : bool :=
  is_digit c || string_mem c "+-._eEiInNfFtTyYaA".

(** The characters a cell of each kind of column can hold without being
    unparsable for that reason: those of a number and white space, the
    comma of a comma-formatted column, the colon of a pace or a
    duration. *)
Definition cell_char (k : CellKind) (c : ascii) : bool :=
  float_char c || is_space c
  || match k with
     | Generic => false
     | CommaNumeric => Ascii.eqb c ","
     | Pace | Duration => Ascii.eqb c ":"
     end.

End CellAlphabet.

(* ------------------------------------------------------------------ *)
(** * parsers/garmin.py: the ground contact column in [_load] *)
(* ------------------------------------------------------------------ *)

Module GroundContact.

Import PyStr Garmin.

(** [s.replace("ms", "")] *)
Fixpoint replace_ms (s : string) : string :=
  match s with
  | String "m" (String "s" r) => replace_ms r
  | String c r => String c (replace_ms r)
  | EmptyString => EmptyString
  end.

Section Load.

(** The text [astype(str)] writes for a float; the model only relies on
    what it writes for NaN. *)
Variable float_str : float -> string.

(** What [_load] makes of a cell of the ground contact column: the
    column is not among the skipped ones, so the generic pass converts it
    first; then comes
    [astype(str).str.replace("ms", "").str.strip().apply(_clean_generic)]. *)
Definition load_ground_contact (cell : PyValue) : result float :=
  do x <- _clean_generic cell ;;
  _clean_generic (PyText (strip (replace_ms (float_str x)))).

End Load.

End GroundContact.

(* ------------------------------------------------------------------ *)
(** * Facts on the order of floats *)
(* ------------------------------------------------------------------ *)

Module FloatOrderFacts.

Import FloatOrder.

Lemma SFcompare_key x y :
  x <> S754_nan -> y <> S754_nan ->
  SFcompare x y = Some (lex_compare (sf_key x) (sf_key y)).
Proof.
  intros Hx Hy.
  destruct x as [sx|sx| |sx mx ex], y as [sy|sy| |sy my ey];
    try congruence; try destruct sx; try destruct sy; try reflexivity.
  - (* both negative *)
    cbn. rewrite Z.compare_opp, (Z.compare_antisym ex ey).
    destruct (ex ?= ey); reflexivity.
Qed.

Lemma lex_compare_Lt a b : lex_compare a b = Lt <-> lex_lt a b.
Proof.
  destruct a as [[a1 a2] a3], b as [[b1 b2] b3]. unfold lex_compare, lex_lt.
  destruct (Z.compare_spec a1 b1); [destruct (Z.compare_spec a2 b2);
    [destruct (Z.compare_spec a3 b3)|..]|..];
    split; intros G; try discriminate G; try reflexivity; try lia.
Qed.

Lemma lex_compare_Eq a b : lex_compare a b = Eq <-> a = b.
Proof.
  destruct a as [[a1 a2] a3], b as [[b1 b2] b3]. unfold lex_compare.
  destruct (Z.compare_spec a1 b1); [destruct (Z.compare_spec a2 b2);
    [destruct (Z.compare_spec a3 b3)|..]|..];
    split; intros G; try discriminate G; try reflexivity;
    try (injection G; lia); subst; reflexivity.
Qed.

Lemma isnan_spec x : PyFloat.isnan x = true <-> Prim2SF x = S754_nan.
Proof.
  unfold PyFloat.isnan, is_nan. rewrite eqb_spec. unfold SFeqb.
  destruct (Prim2SF x) as [s|s| |s m e] eqn:E.
  - split; [discriminate|discriminate].
  - destruct s; split; discriminate.
  - split; reflexivity.
  - rewrite SFcompare_key by discriminate.
    assert (lex_compare (sf_key (S754_finite s m e)) (sf_key (S754_finite s m e)) = Eq)
      as -> by now apply lex_compare_Eq.
    split; discriminate.
Qed.

Lemma isnan_false x : PyFloat.isnan x = false <-> Prim2SF x <> S754_nan.
Proof.
  rewrite <- isnan_spec. destruct (PyFloat.isnan x); split; congruence.
Qed.

Lemma SFcompare_None x y :
  SFcompare x y = None <-> x = S754_nan \/ y = S754_nan.
Proof.
  split.
  - destruct x as [sx|sx| |sx mx ex], y as [sy|sy| |sy my ey]; cbn; auto;
      discriminate.
  - intros [-> | ->]; [reflexivity | now destruct x].
Qed.

(** [x < y] *)
Lemma ltb_true x y :
  PrimFloat.ltb x y = true <->
  PyFloat.isnan x = false /\ PyFloat.isnan y = false /\ lex_lt (key x) (key y).
Proof.
  rewrite ltb_spec, !isnan_false. unfold SFltb, key.
  destruct (SFcompare (Prim2SF x) (Prim2SF y)) as [c|] eqn:E.
  - assert (Hx : Prim2SF x <> S754_nan)
      by (intros H; rewrite H in E; discriminate E).
    assert (Hy : Prim2SF y <> S754_nan)
      by (intros H; rewrite H in E; destruct (Prim2SF x); discriminate E).
    rewrite SFcompare_key in E by assumption. injection E as <-.
    rewrite <- lex_compare_Lt.
    destruct (lex_compare _ _); intuition congruence.
  - apply SFcompare_None in E. intuition congruence.
Qed.

(** [x <= y] *)
Lemma leb_true x y :
  PrimFloat.leb x y = true <->
  PyFloat.isnan x = false /\ PyFloat.isnan y = false /\ lex_le (key x) (key y).
Proof.
  rewrite leb_spec, !isnan_false. unfold SFleb, key, lex_le.
  destruct (SFcompare (Prim2SF x) (Prim2SF y)) as [c|] eqn:E.
  - assert (Hx : Prim2SF x <> S754_nan)
      by (intros H; rewrite H in E; discriminate E).
    assert (Hy : Prim2SF y <> S754_nan)
      by (intros H; rewrite H in E; destruct (Prim2SF x); discriminate E).
    rewrite SFcompare_key in E by assumption. injection E as <-.
    rewrite <- lex_compare_Lt, <- lex_compare_Eq.
    destruct (lex_compare _ _); intuition congruence.
  - apply SFcompare_None in E. intuition congruence.
Qed.

(** [x == y] *)
Lemma eqb_true x y :
  PrimFloat.eqb x y = true <->
  PyFloat.isnan x = false /\ PyFloat.isnan y = false /\ key x = key y.
Proof.
  rewrite eqb_spec, !isnan_false. unfold SFeqb, key.
  destruct (SFcompare (Prim2SF x) (Prim2SF y)) as [c|] eqn:E.
  - assert (Hx : Prim2SF x <> S754_nan)
      by (intros H; rewrite H in E; discriminate E).
    assert (Hy : Prim2SF y <> S754_nan)
      by (intros H; rewrite H in E; destruct (Prim2SF x); discriminate E).
    rewrite SFcompare_key in E by assumption. injection E as <-.
    rewrite <- lex_compare_Eq.
    destruct (lex_compare _ _); intuition congruence.
  - apply SFcompare_None in E. intuition congruence.
Qed.

Lemma key_zero : key 0 = (0, 0, 0).
Proof. reflexivity. Qed.

(** Turn the comparisons of the context into facts on keys. *)
Ltac float_keys :=
  repeat match goal with
         | H : PrimFloat.ltb _ _ = true |- _ => apply ltb_true in H; destruct H as (? & ? & H)
         | H : PrimFloat.leb _ _ = true |- _ => apply leb_true in H; destruct H as (? & ? & H)
         | H : PrimFloat.eqb _ _ = true |- _ => apply eqb_true in H; destruct H as (? & ? & H)
         end.

(** A positive float is a true value. *)
Lemma positive_truthy x : PrimFloat.ltb 0 x = true -> PyFloat.truthy x = true.
Proof.
  intros H. unfold PyFloat.truthy.
  destruct (PrimFloat.eqb x 0) eqn:E; [|reflexivity].
  float_keys. rewrite E, key_zero in H. unfold lex_lt in H. lia.
Qed.

(** [x <= y] and [y < x] exclude each other. *)
Lemma leb_not_ltb x y : PrimFloat.leb x y = true -> PrimFloat.ltb y x = false.
Proof.
  intros H. destruct (PrimFloat.ltb y x) eqn:E; [|reflexivity].
  float_keys. unfold lex_le, lex_lt in *.
  destruct (key x) as [[x1 x2] x3], (key y) as [[y1 y2] y3].
  destruct H as [H|H]; [|injection H as -> -> ->]; lia.
Qed.

Lemma ltb_irrefl x : PrimFloat.ltb x x = false.
Proof.
  destruct (PrimFloat.ltb x x) eqn:E; [|reflexivity].
  float_keys. unfold lex_lt in E.
  destruct (key x) as [[x1 x2] x3]. lia.
Qed.

Lemma ltb_trans x y z :
  PrimFloat.ltb x y = true -> PrimFloat.ltb y z = true -> PrimFloat.ltb x z = true.
Proof.
  intros H1 H2. apply ltb_true. float_keys. repeat split; try assumption.
  unfold lex_lt in *.
  destruct (key x) as [[x1 x2] x3], (key y) as [[y1 y2] y3],
    (key z) as [[z1 z2] z3]. lia.
Qed.

(** The order is total on the floats that are not NaN. *)
Lemma not_ltb_leb x y :
  PyFloat.isnan x = false -> PyFloat.isnan y = false ->
  PrimFloat.ltb x y = false -> PrimFloat.leb y x = true.
Proof.
  intros Hx Hy H. apply leb_true. repeat split; try assumption.
  assert (N : ~ lex_lt (key x) (key y)).
  { intros L. rewrite (proj2 (ltb_true x y)) in H by auto. discriminate H. }
  unfold lex_le, lex_lt in *.
  destruct (key x) as [[x1 x2] x3], (key y) as [[y1 y2] y3].
  destruct (Z.eq_dec y1 x1) as [->|]; [|left; lia].
  destruct (Z.eq_dec y2 x2) as [->|]; [|left; lia].
  destruct (Z.eq_dec y3 x3) as [->|]; [now right|left; lia].
Qed.

End FloatOrderFacts.


(* ------------------------------------------------------------------ *)
(** * Properties of the cell converters *)
(* ------------------------------------------------------------------ *)

Module GarminFacts.

Import PyStr PyConv Garmin.

Lemma is_digit_cases c :
  is_digit c = true ->
  In c ["0"; "1"; "2"; "3"; "4"; "5"; "6"; "7"; "8"; "9"]%char.
Proof.
  destruct c as [[|] [|] [|] [|] [|] [|] [|] [|]]; cbn; intros H;
    try discriminate H; tauto.
Qed.

Ltac each_digit H :=
  apply is_digit_cases in H; cbn in H;
  repeat (destruct H as [<- | H]; [|]); [..| contradiction].

Lemma is_digit_not_space c : is_digit c = true -> is_space c = false.
Proof. intros H. each_digit H; reflexivity. Qed.

Lemma take_digits_app s d r :
  take_digits s = (d, r) -> s = d ++ r.
Proof.
  revert d r. induction s as [|c s IH]; cbn; intros d r H.
  - injection H as <- <-. reflexivity.
  - destruct (is_digit c).
    + destruct (take_digits s) as [d' r']. injection H as <- <-.
      cbn. f_equal. now apply IH.
    + injection H as <- <-. reflexivity.
Qed.

Lemma take_digits_head s c d r :
  take_digits s = (String c d, r) -> is_digit c = true.
Proof.
  destruct s as [|a s]; cbn; [discriminate|].
  destruct (is_digit a) eqn:Ha; [|discriminate].
  destruct (take_digits s). now intros [= <- _ _].
Qed.

(** What a successful match of the pace pattern says of the text. *)
Lemma match_pace_inv s g1 g2 :
  match_pace s = Some (g1, g2) ->
  exists c d a b,
    g1 = String c d /\ g2 = String a (String b EmptyString) /\
    s = g1 ++ ":" ++ g2 /\
    is_digit c = true /\ is_digit a = true /\ is_digit b = true.
Proof.
  unfold match_pace. destruct (take_digits s) as [d r] eqn:E.
  destruct d as [|c d]; [discriminate|].
  destruct r as [|colon r]; [discriminate|].
  destruct (Ascii.eqb_spec colon ":") as [->|Hne].
  2:{ destruct colon as [[|] [|] [|] [|] [|] [|] [|] [|]];
      try discriminate; exfalso; now apply Hne. }
  destruct r as [|a [|b [|x r]]]; try discriminate.
  destruct (is_digit a) eqn:Ha; [|discriminate].
  destruct (is_digit b) eqn:Hb; [|discriminate].
  cbn. intros [= <- <-]. exists c, d, a, b.
  repeat split; auto.
  - now apply take_digits_app in E.
  - now apply take_digits_head in E.
Qed.

(** Stripping leaves a text alone that starts and ends with digits. *)
Lemma rstrip_app_digit t b :
  is_digit b = true ->
  rstrip (t ++ String b EmptyString) = t ++ String b EmptyString.
Proof.
  intros Hb. induction t as [|c t IH]; cbn.
  - now rewrite (is_digit_not_space _ Hb).
  - rewrite IH. destruct t; reflexivity.
Qed.

Lemma strip_pace c d a b :
  is_digit c = true -> is_digit b = true ->
  let s := String c d ++ ":" ++ String a (String b EmptyString) in
  strip s = s.
Proof.
  intros Hc Hb s. unfold strip. subst s. cbn [append lstrip].
  rewrite (is_digit_not_space _ Hc).
  assert (E : String c (d ++ String ":" (String a (String b "")))
              = String c (d ++ String ":" (String a "")) ++ String b "").
  { cbn. f_equal. induction d; cbn; congruence. }
  rewrite E. now apply rstrip_app_digit.
Qed.

Lemma pace_not_sentinel c s :
  is_digit c = true -> is_sentinel (String c s) = false.
Proof.
  intros Hc. unfold is_sentinel. each_digit Hc; reflexivity.
Qed.

(** Writing the value of a canonical run of digits gives it back. *)
Lemma of_int_digits_value g n :
  digits_value g = Some n -> canonical g = true -> of_int n = g.
Proof.
  unfold digits_value. destruct g as [|c g]; [discriminate|].
  destruct (NilEmpty.uint_of_string (String c g)) as [u|] eqn:E;
    [|discriminate].
  cbn [option_map]. intros [= <-] Hcan.
  apply NilEmpty.sus in E. unfold of_int.
  change (Z.of_uint u) with (Z.of_int (Decimal.Pos u)).
  rewrite DecimalZ.to_of. cbn [Decimal.norm NilEmpty.string_of_int].
  assert (Hu : Decimal.unorm u = u).
  { destruct u as [|u|u|u|u|u|u|u|u|u|u]; try reflexivity.
    - discriminate E.
    - cbn in E. injection E as <- E. cbn in Hcan.
      destruct u; cbn in E; subst g; try discriminate Hcan; reflexivity. }
  rewrite Hu. exact E.
Qed.

Lemma digits_value_nonneg g n : digits_value g = Some n -> 0 <= n.
Proof.
  unfold digits_value. destruct g; [discriminate|].
  destruct (NilEmpty.uint_of_string _) as [u|]; [|discriminate].
  cbn. intros [= <-]. unfold Z.of_uint. apply N2Z.is_nonneg.
Qed.

(** Two digits are the zero-padded writing of their value. *)
Lemma of_int_02d_digits a b n :
  is_digit a = true -> is_digit b = true ->
  digits_value (String a (String b EmptyString)) = Some n ->
  of_int_02d n = String a (String b EmptyString).
Proof.
  intros Ha Hb. each_digit Ha; each_digit Hb; cbn; intros [= <-]; reflexivity.
Qed.

(** The float arithmetic of the round trip, checked on every pace below
    1000 minutes. *)
Lemma pace_float_table :
  forallb (fun m => forallb (fun s => pace_float_ok (Z.of_nat m) (Z.of_nat s))
                            (seq 0 60))
          (seq 0 1000) = true.
Proof. vm_cast_no_check (eq_refl true). Qed.

Lemma pace_float_ok_range m s :
  0 <= m < 1000 -> 0 <= s <= 59 -> pace_float_ok m s = true.
Proof.
  intros Hm Hs. pose proof pace_float_table as T.
  rewrite forallb_forall in T.
  specialize (T (Z.to_nat m)). rewrite forallb_forall in T.
  specialize (fun H => T H (Z.to_nat s)).
  rewrite !Z2Nat.id in T by lia.
  apply T; apply in_seq; lia.
Qed.

(** [int()] of a group of digits within the limit of
    [int_max_str_digits] is the value of the digits. *)
Lemma int_of_group_short g n :
  digits_value g = Some n -> Z.of_nat (String.length g) <= int_max_str_digits ->
  int_of_group g = Ok n.
Proof.
  intros E L. unfold int_of_group, int_of_digits.
  apply Z.ltb_ge in L. now rewrite L, E.
Qed.

Lemma of_int_length_table :
  forallb (fun m => Z.of_nat (String.length (of_int (Z.of_nat m))) <=? 3)
          (seq 0 1000) = true.
Proof. vm_compute. reflexivity. Qed.

(** A number of minutes below 1000 is written with at most three
    digits. *)
Lemma of_int_length m :
  0 <= m < 1000 -> Z.of_nat (String.length (of_int m)) <= 3.
Proof.
  intros Hm. pose proof of_int_length_table as T.
  rewrite forallb_forall in T. specialize (T (Z.to_nat m)).
  rewrite Z2Nat.id in T by lia. apply Z.leb_le, T, in_seq. lia.
Qed.

(** The claimed round trip fails on minutes written with a leading
    zero, and on minutes too large for a double. *)
Example pace_roundtrip_0815 : pace_roundtrip "08:15" = Ok "8:15".
Proof. vm_compute. reflexivity. Qed.

Example pace_roundtrip_large_minutes :
  pace_roundtrip "9007199254740993:00" = Ok "9007199254740992:00".
Proof. vm_compute. reflexivity. Qed.

End GarminFacts.

(* ------------------------------------------------------------------ *)
(** * Pace round trip *)
(* ------------------------------------------------------------------ *)

Section PaceRoundTrip.

Import PyStr PyConv Garmin GarminFacts.

(** C1, as stated: every [MM:SS] text with seconds in [0,59] is displayed
    back unchanged after parsing.  This fails: the pace ["08:15"] parses to
    8.25 minutes, which is displayed as ["8:15"]. *)
Lemma C1_pace_roundtrip_counterexample :
  ~ (forall s, is_mmss s = true -> pace_roundtrip s = Ok s).
Proof.
  intros H. specialize (H "08:15" eq_refl).
  rewrite pace_roundtrip_0815 in H. discriminate H.
Qed.

(** C1, amended: for every [MM:SS] text with seconds in [0,59] whose minutes
    are written without leading zeros and are below 1000, parsing it with
    [_pace_to_decimal_minutes] and formatting the result with
    [_decimal_minutes_to_mmss] yields the original text. *)
Theorem C1_pace_roundtrip s :
  is_display_pace s = true -> pace_roundtrip s = Ok s.
Proof.
  unfold is_display_pace, is_mmss.
  destruct (match_pace s) as [[g1 g2]|] eqn:M; [|discriminate].
  destruct (digits_value g2) as [sec|] eqn:E2; [|discriminate].
  destruct (digits_value g1) as [m|] eqn:E1;
    [|rewrite !andb_false_r; discriminate].
  intros H. apply andb_prop in H as [Hsec H].
  apply andb_prop in H as [Hcan Hm].
  apply Z.leb_le in Hsec. apply Z.ltb_lt in Hm.
  pose proof (digits_value_nonneg _ _ E1) as Hm0.
  pose proof (digits_value_nonneg _ _ E2) as Hs0.
  destruct (match_pace_inv _ _ _ M) as (c & d & a & b & -> & -> & Hs & Hc & Ha & Hb).
  pose proof (pace_float_ok_range m sec ltac:(lia) ltac:(lia)) as F.
  unfold pace_float_ok in F.
  unfold pace_roundtrip, _pace_to_decimal_minutes.
  cbn [is_none_or_nan str].
  assert (Hstrip : strip s = s) by (rewrite Hs; now apply strip_pace).
  rewrite Hstrip.
  assert (Hsent : is_sentinel s = false) by (rewrite Hs; now apply pace_not_sentinel).
  assert (L1 : Z.of_nat (String.length (String c d)) <= int_max_str_digits).
  { rewrite <- (of_int_digits_value _ _ E1 Hcan).
    pose proof (of_int_length m ltac:(lia)). unfold int_max_str_digits. lia. }
  assert (L2 : Z.of_nat (String.length (String a (String b EmptyString)))
               <= int_max_str_digits) by (cbn; unfold int_max_str_digits; lia).
  rewrite Hsent, M.
  rewrite (int_of_group_short _ _ E1 L1), (int_of_group_short _ _ E2 L2).
  cbn [bind].
  destruct (PyFloat.of_int sec) as [fs|]; [|cbn in F; discriminate F].
  destruct (PyFloat.of_int m) as [fm|]; [|cbn in F; discriminate F].
  cbn [bind] in F |- *.
  apply andb_prop in F as [Hnan F].
  apply negb_true_iff in Hnan.
  unfold _decimal_minutes_to_mmss. rewrite Hnan.
  destruct (PyFloat.round _) as [t|]; [|discriminate F].
  apply Z.eqb_eq in F. subst t. cbn [bind].
  replace ((60 * m + sec) / 60) with m by (apply Z.div_unique with sec; lia).
  replace ((60 * m + sec) mod 60) with sec by (apply Z.mod_unique with m; lia).
  rewrite (of_int_digits_value _ _ E1 Hcan).
  rewrite (of_int_02d_digits _ _ _ Ha Hb E2).
  now rewrite Hs.
Qed.

Lemma C1_pace_roundtrip_witness :
  is_display_pace "8:15" = true /\ pace_roundtrip "8:15" = Ok "8:15".
Proof.
  split; [reflexivity | apply (C1_pace_roundtrip "8:15"); reflexivity].
Defined.

End PaceRoundTrip.

(* ------------------------------------------------------------------ *)
(** * Sentinels and unparsable cells *)
(* ------------------------------------------------------------------ *)

Section MissingMarker.

Import PyStr PyConv Garmin.

Lemma except_raises_ValueError (r : result float) :
  raises_ValueError r = true ->
  except_ValueError r PyFloat.nan = Ok PyFloat.nan.
Proof. destruct r as [x|[|]]; cbn; intros H; try discriminate H; reflexivity. Qed.

(** [float()] of a text raises nothing but [ValueError]: the generic and
    the comma converters always return. *)
Lemma float_of_str_raise s e : float_of_str s = Raise e -> e = ValueError.
Proof.
  unfold float_of_str. destruct (take_sign (strip s)) as [neg body].
  destruct (_ || _); [discriminate|].
  destruct (String.eqb _ _); [discriminate|].
  destruct (floatnumber body) as [[[ip fp] ex]|]; [|now intros [= <-]].
  destruct (digits_value _); [discriminate|now intros [= <-]].
Qed.

Lemma except_float_of_str_ok s :
  exists x, except_ValueError (float_of_str s) PyFloat.nan = Ok x.
Proof.
  destruct (float_of_str s) as [x|e] eqn:E; cbn; [now exists x|].
  apply float_of_str_raise in E as ->. now exists PyFloat.nan.
Qed.

Lemma clean_generic_total v : exists x, _clean_generic v = Ok x.
Proof.
  unfold _clean_generic. destruct (is_none_or_nan v); [now eexists|].
  destruct (is_sentinel _); [now eexists|]. apply except_float_of_str_ok.
Qed.

Lemma strip_comma_numeric_total v : exists x, _strip_comma_numeric v = Ok x.
Proof.
  unfold _strip_comma_numeric. destruct (is_none_or_nan v); [now eexists|].
  destruct (is_sentinel _); [now eexists|]. apply except_float_of_str_ok.
Qed.

(** An absent cell is missing for every kind. *)
Lemma convert_absent k v :
  is_none_or_nan v = true -> convert k v = Ok PyFloat.nan.
Proof. destruct k, v; cbn; intros H; try discriminate H; reflexivity. Qed.


Lemma to_int_raise s e : to_int s = Raise e -> e = ValueError.
Proof.
  unfold to_int. destruct (take_sign (strip s)) as [neg body].
  destruct (digitpart body) as [[d [|c r]]|]; try now intros [= <-].
  unfold int_of_digits. destruct (_ <? _); [now intros [= <-]|].
  destruct (digits_value d); [discriminate|now intros [= <-]].
Qed.

Ltac only_ValueError E :=
  first [apply to_int_raise in E | apply float_of_str_raise in E]; subst.

Lemma parse_duration_unparsable s :
  unparsable Duration s = true ->
  _parse_duration (PyText s) = Ok PyFloat.nan.
Proof.
  unfold unparsable, _parse_duration. cbn [str].
  destruct (is_sentinel (strip s)); [reflexivity|].
  destruct (split_char ":" (strip s)) as [|p0 [|p1 [|p2 [|p3 ps]]]];
    try apply except_raises_ValueError.
  - destruct (to_int p0) as [m|e] eqn:E0; [|only_ValueError E0; reflexivity].
    destruct (float_of_str p1) as [x|e] eqn:E1;
      [discriminate|only_ValueError E1; reflexivity].
  - destruct (to_int p0) as [h|e] eqn:E0; [|only_ValueError E0; reflexivity].
    destruct (to_int p1) as [m|e] eqn:E1; [|only_ValueError E1; reflexivity].
    destruct (float_of_str p2) as [x|e] eqn:E2;
      [discriminate|only_ValueError E2; reflexivity].
Qed.



Example unparsable_cells :
  unparsable Generic "abc" = true /\ unparsable CommaNumeric "1,2x" = true
  /\ unparsable Pace "8:5" = true /\ unparsable Duration "1:xx:03" = true.
Proof. vm_compute. auto. Qed.

End MissingMarker.

(* ------------------------------------------------------------------ *)
(** * The windows of the rolling baselines *)
(* ------------------------------------------------------------------ *)

Section PriorWindows.

Import PyDate.

Ltac window_inv H :=
  cbn [nth_error] in H;
  lazymatch type of H with
  | Some ?p = Some ?w => assert (p = w) by congruence; subst w; clear H
  | None = Some _ => discriminate H
  | nth_error [] ?i = Some _ => destruct i; discriminate H
  end.

Lemma prior_windows_eq week_start :
  Running.prior_windows week_start 4 =
  [ (week_start - 7 * ns_per_day, week_start - 1 * ns_per_day);
    (week_start - 14 * ns_per_day, week_start - 8 * ns_per_day);
    (week_start - 21 * ns_per_day, week_start - 15 * ns_per_day);
    (week_start - 28 * ns_per_day, week_start - 22 * ns_per_day) ].
Proof.
  unfold Running.prior_windows, range_from_1, prior_window, Timedelta_days.
  change (map Z.of_nat (seq 1 4)) with [1; 2; 3; 4]. cbn [map].
  repeat (apply f_equal2; [apply f_equal2; lia|]). reflexivity.
Qed.

(** C4: for every week start, the four prior windows of the rolling
    baselines (the running and the strength analyzer build the same ones)
    each span six days from start to end, so seven calendar days, and end
    before the week start; the first ends the day before the week start and
    each next one the day before the previous window's start; no instant
    lies in two of them. *)
Theorem C4_prior_windows (week_start : Timestamp) :
  let W := Running.prior_windows week_start 4 in
  Strength.prior_windows week_start = W
  /\ List.length W = 4%nat
  /\ (forall w, In w W ->
        snd w - fst w = Timedelta_days 6 /\ days_covered w = 7
        /\ snd w < week_start)
  /\ (forall w, nth_error W 0 = Some w -> snd w = week_start - Timedelta_days 1)
  /\ (forall i w w',
        nth_error W i = Some w -> nth_error W (S i) = Some w' ->
        snd w' = fst w - Timedelta_days 1)
  /\ (forall i j w w' t,
        i <> j -> nth_error W i = Some w -> nth_error W j = Some w' ->
        ~ (inside w t = true /\ inside w' t = true)).
Proof.
  intros W. subst W. rewrite prior_windows_eq.
  unfold Strength.prior_windows, prior_window, Timedelta_days, days_covered,
    Timestamp_date, inside, Pandas.in_window.
  assert (HD : 0 < ns_per_day) by reflexivity.
  set (D := ns_per_day) in *. clearbody D.
  split; [|split; [|split; [|split; [|split]]]].
  - cbn [map]. repeat (apply f_equal2; [apply f_equal2; lia|]). reflexivity.
  - reflexivity.
  - intros w H. cbn [In] in H.
    repeat (destruct H as [<- | H]; [cbn [fst snd]|]); try contradiction.
    all: repeat split; try lia.
    all: match goal with
         | |- _ + (?ws - ?a * ?d) / _ - (_ + (?ws - ?b * ?d) / _) + 1 = 7 =>
             replace (ws - a * d) with (ws - b * d + 6 * d) by lia;
             rewrite Z.div_add by lia; lia
         end.
  - intros w H. window_inv H. cbn [snd]. lia.
  - intros i w w' H H0.
    destruct i as [|[|[|[|i]]]]; window_inv H; window_inv H0;
      cbn [fst snd]; lia.
  - intros i j w w' t H H0 H1 [Hi Hj].
    apply andb_prop in Hi as [Hi1 Hi2]. apply andb_prop in Hj as [Hj1 Hj2].
    apply Z.leb_le in Hi1, Hi2, Hj1, Hj2.
    destruct i as [|[|[|[|i]]]]; window_inv H0;
      destruct j as [|[|[|[|j]]]]; window_inv H1;
      cbn [fst snd] in *; try lia; now apply H.
Qed.

End PriorWindows.

(* ------------------------------------------------------------------ *)
(** * Running: mileage change and the adaptation and fatigue signals *)
(* ------------------------------------------------------------------ *)

Section RunningComparisons.

Import PyDate Running FloatOrder FloatOrderFacts.

(** C7: with a positive rolling total, [mileage_change_pct] is
    [(current - rolling) / rolling] of the total miles and the overreach
    flag says whether it exceeds 0.10; with a rolling total of zero the
    change stays undefined and the flag false; a rolling total of 20.0 and
    a current total of 23.0 give a change of 0.15 and raise the flag. *)
Theorem C7_mileage_change (current rolling : RunWeekStats) :
  let r := compare_stats current rolling in
  let cur := total_miles current in
  let roll := total_miles rolling in
  (PrimFloat.ltb 0 roll = true ->
     mileage_change_pct r = Some ((cur - roll) / roll)%float
     /\ overreach_flag r
        = PrimFloat.ltb Config.MILEAGE_OVERREACH_PCT ((cur - roll) / roll))
  /\ (PrimFloat.eqb roll 0 = true ->
        mileage_change_pct r = None /\ overreach_flag r = false)
  /\ (roll = 20%float -> cur = 23%float ->
        mileage_change_pct r = Some 0.15%float /\ overreach_flag r = true).
Proof.
  cbv zeta. unfold compare_stats. cbn [mileage_change_pct overreach_flag].
  split; [|split].
  - intros H. rewrite (positive_truthy _ H), H. cbn [andb]. split; reflexivity.
  - intros H. unfold PyFloat.truthy. rewrite H. cbn [negb andb]. split; reflexivity.
  - intros -> ->. split; reflexivity.
Qed.

Lemma C7_mileage_change_witness :
  exists rolling,
    _compute_rolling_avg_stats overreach_scenario
      (Timestamp_of_date (mkdate 2026 3 16)) 4 = Ok rolling
    /\ total_miles rolling = 20%float
    /\ total_miles (_compute_week_stats overreach_scenario
                      (Timestamp_of_date (mkdate 2026 3 16))
                      (Timestamp_of_date (mkdate 2026 3 22))) = 23%float
    /\ mileage_change_pct
         (compare_stats (_compute_week_stats overreach_scenario
                           (Timestamp_of_date (mkdate 2026 3 16))
                           (Timestamp_of_date (mkdate 2026 3 22))) rolling)
       = Some 0.15%float
    /\ overreach_flag
         (compare_stats (_compute_week_stats overreach_scenario
                           (Timestamp_of_date (mkdate 2026 3 16))
                           (Timestamp_of_date (mkdate 2026 3 22))) rolling)
       = true.
Proof.
  eexists. split; [vm_compute; reflexivity|].
  split; [reflexivity|]. split; [vm_compute; reflexivity|].
  match goal with
  | |- mileage_change_pct (compare_stats ?c ?r) = _ /\ _ =>
      apply (proj2 (proj2 (C7_mileage_change c r)));
      vm_compute; reflexivity
  end.
Defined.

Lemma change_inv cur roll d :
  change cur roll = Some d ->
  exists c b, cur = Some c /\ roll = Some b /\ d = (c - b)%float.
Proof.
  unfold change. destruct cur as [c|], roll as [b|]; try discriminate.
  destruct (_ && _); [|discriminate]. intros [= <-]. now exists c, b.
Qed.

(** C5: when the pace delta and the heart-rate delta (current minus
    rolling flat averages) are both present, the aerobic-adaptation signal
    says whether the pace delta is below -0.05 and the heart-rate delta at
    most 2, and the fatigue signal whether the pace delta is above 0.05
    and the heart-rate delta above 2; when either delta is absent both
    signals are false; the two signals are never both true. *)
Theorem C5_adaptation_and_fatigue (current rolling : RunWeekStats) :
  let r := compare_stats current rolling in
  (forall p h,
      pace_change_dec r = Some p -> hr_change r = Some h ->
      aerobic_adaptation_signal r
      = PrimFloat.ltb p (-0.05) && PrimFloat.leb h 2
      /\ fatigue_signal r = PrimFloat.ltb 0.05 p && PrimFloat.ltb 2 h)
  /\ (pace_change_dec r = None \/ hr_change r = None ->
        aerobic_adaptation_signal r = false /\ fatigue_signal r = false)
  /\ ~ (aerobic_adaptation_signal r = true /\ fatigue_signal r = true)
  /\ (forall p, pace_change_dec r = Some p ->
        exists c b, flat_avg_pace_dec current = Some c
                    /\ flat_avg_pace_dec rolling = Some b
                    /\ p = (c - b)%float)
  /\ (forall h, hr_change r = Some h ->
        exists c b, flat_avg_hr current = Some c
                    /\ flat_avg_hr rolling = Some b
                    /\ h = (c - b)%float).
Proof.
  cbv zeta. unfold compare_stats.
  cbn [pace_change_dec hr_change aerobic_adaptation_signal fatigue_signal].
  split; [|split; [|split; [|split]]].
  - intros p h -> ->. split; reflexivity.
  - intros [-> | ->]; [split; reflexivity|].
    destruct (change (flat_avg_pace_dec current) (flat_avg_pace_dec rolling));
      split; reflexivity.
  - intros [Ha Hf].
    destruct (change (flat_avg_pace_dec current) (flat_avg_pace_dec rolling))
      as [p|]; [|discriminate Ha].
    destruct (change (flat_avg_hr current) (flat_avg_hr rolling))
      as [h|]; [|discriminate Ha].
    apply andb_prop in Ha as [_ Ha]. apply andb_prop in Hf as [_ Hf].
    apply leb_not_ltb in Ha. congruence.
  - intros p. apply change_inv.
  - intros h. apply change_inv.
Qed.

Lemma C5_adaptation_and_fatigue_witness :
  pace_change_dec (compare_stats (flat_stats 8 150) (flat_stats 8.25 151))
  = Some (-0.25)%float
  /\ hr_change (compare_stats (flat_stats 8 150) (flat_stats 8.25 151))
     = Some (-1)%float
  /\ aerobic_adaptation_signal
       (compare_stats (flat_stats 8 150) (flat_stats 8.25 151)) = true
  /\ fatigue_signal
       (compare_stats (flat_stats 8 150) (flat_stats 8.25 151)) = false.
Proof.
  split; [reflexivity|]. split; [reflexivity|].
  destruct (proj1 (C5_adaptation_and_fatigue (flat_stats 8 150) (flat_stats 8.25 151))
              (-0.25)%float (-1)%float eq_refl eq_refl) as [Ha Hf].
  rewrite Ha, Hf. split; reflexivity.
Defined.

End RunningComparisons.

(* ------------------------------------------------------------------ *)
(** * Nutrition: the carb-underfuel flag *)
(* ------------------------------------------------------------------ *)

Section CarbUnderfuel.

Import PyDate Pandas Nutrition FloatOrderFacts.

Lemma dropna_present s : Forall (fun x => PyFloat.isnan x = false) (dropna s).
Proof.
  apply Forall_forall. intros x H. apply filter_In in H as [_ H].
  now apply negb_true_iff in H.
Qed.

Lemma found_values_present df cands :
  Forall (fun x => PyFloat.isnan x = false) (found_values df cands).
Proof.
  unfold found_values. destruct (_find_col df cands); [|constructor].
  apply dropna_present.
Qed.

Lemma found_values_no_rows df cands : rows df = [] -> found_values df cands = [].
Proof.
  intros H. unfold found_values, column.
  destruct (_find_col df cands); [|reflexivity].
  destruct (index_of _ _); [rewrite H|]; reflexivity.
Qed.

Lemma empty_no_rows df : empty df = true -> rows df = [].
Proof. unfold empty. destruct (rows df); [reflexivity|discriminate]. Qed.

(** The weekly average of the carbohydrates is the mean of the present
    readings of the week. *)
Lemma avg_carbs_is_week_mean mf_data week_start week_end :
  avg_carbs_g (week_stats mf_data week_start week_end)
  = mean_if_any (week_carbs mf_data week_start week_end).
Proof.
  unfold week_stats, week_carbs. cbn [avg_carbs_g].
  destruct (empty (calories_macros mf_data)) eqn:E.
  - cbn. rewrite found_values_no_rows; [reflexivity|].
    cbn. now rewrite (empty_no_rows _ E).
  - destruct (empty (week_slice _ _ _)) eqn:E'; cbn [negb]; [|reflexivity].
    now rewrite (found_values_no_rows _ _ (empty_no_rows _ E')).
Qed.

(** C3: the average of the carbohydrates is the mean of the readings
    present in the week, and the carb-underfuel flag is true exactly when
    that average exists, is strictly below 80 g, and the weekly mileage is
    strictly above 30; a mileage of exactly 30 does not raise it, nor does
    an average of exactly 80. *)
Theorem C3_carb_underfuel
  (mf_data : NutritionSheets) (week_start week_end : Timestamp)
  (weekly_mileage : float) :
  let a := analyze mf_data week_start week_end weekly_mileage in
  let carbs := week_carbs mf_data week_start week_end in
  avg_carbs_g (current a) = mean_if_any carbs
  /\ Forall (fun c => PyFloat.isnan c = false) carbs
  /\ (low_carb_underfuel_flag a = true <->
      exists avg, avg_carbs_g (current a) = Some avg
                  /\ PrimFloat.ltb avg 80 = true
                  /\ PrimFloat.ltb 30 weekly_mileage = true)
  /\ (weekly_mileage = 30%float -> low_carb_underfuel_flag a = false)
  /\ (avg_carbs_g (current a) = Some 80%float ->
      low_carb_underfuel_flag a = false).
Proof.
  cbv zeta. unfold analyze. cbn [current low_carb_underfuel_flag].
  split; [apply avg_carbs_is_week_mean|].
  split; [apply found_values_present|].
  destruct (avg_carbs_g (week_stats mf_data week_start week_end)) as [c|].
  - split; [|split].
    + split.
      * intros H. apply andb_prop in H as [H1 H2]. now exists c.
      * intros (avg & [= <-] & H1 & H2). unfold Config.CARBS_UNDERFUEL_MIN_G.
        now rewrite H1, H2.
    + intros ->. change (PrimFloat.ltb 30 30) with false. apply andb_false_r.
    + intros [= ->]. reflexivity.
  - split; [|split].
    + split; [discriminate|]. intros (avg & H & _). discriminate H.
    + reflexivity.
    + discriminate.
Qed.

Lemma C3_carb_underfuel_witness :
  avg_carbs_g (current (analyze (carb_sheets [60; PyFloat.nan; 70]%float)
                          (Timestamp_of_date (mkdate 2026 3 16))
                          (Timestamp_of_date (mkdate 2026 3 22)) 35))
  = Some 65%float
  /\ low_carb_underfuel_flag
       (analyze (carb_sheets [60; PyFloat.nan; 70]%float)
          (Timestamp_of_date (mkdate 2026 3 16))
          (Timestamp_of_date (mkdate 2026 3 22)) 35) = true.
Proof.
  split; [vm_compute; reflexivity|].
  apply (proj1 (proj2 (proj2 (C3_carb_underfuel
           (carb_sheets [60; PyFloat.nan; 70]%float)
           (Timestamp_of_date (mkdate 2026 3 16))
           (Timestamp_of_date (mkdate 2026 3 22)) 35)))).
  exists 65%float. repeat split; vm_compute; reflexivity.
Defined.

Example carb_underfuel_boundaries :
  low_carb_underfuel_flag
    (analyze (carb_sheets [60; 70]%float) (Timestamp_of_date (mkdate 2026 3 16))
       (Timestamp_of_date (mkdate 2026 3 22)) 30) = false
  /\ low_carb_underfuel_flag
       (analyze (carb_sheets [70; 90]%float) (Timestamp_of_date (mkdate 2026 3 16))
          (Timestamp_of_date (mkdate 2026 3 22)) 35) = false
  /\ low_carb_underfuel_flag
       (analyze (carb_sheets []) (Timestamp_of_date (mkdate 2026 3 16))
          (Timestamp_of_date (mkdate 2026 3 22)) 35) = false.
Proof. vm_compute. auto. Qed.

End CarbUnderfuel.

(* ------------------------------------------------------------------ *)
(** * Body composition: trend direction and the recalibration flag *)
(* ------------------------------------------------------------------ *)

Section BodyCompFlags.

Import PyDate Pandas BodyComp FloatOrder FloatOrderFacts.

(** What a returned analysis holds in the fields of the trend and in the
    recalibration flag. *)
Lemma analyze_fields mf_data week_start week_end deficit r :
  analyze mf_data week_start week_end deficit = Ok r ->
  let t_series := trend_series (week_of (weight_trend mf_data) week_start week_end) in
  trend_net_change_lbs r
  = net_change (on_series _first_valid t_series) (on_series _last_valid t_series)
  /\ (trend_direction r, trend_stalled r) = direction_of (trend_net_change_lbs r)
  /\ algorithm_recalibrating r = (days_since_restart week_end <=? 21).
Proof.
  unfold analyze, days_since_restart. cbv zeta.
  destruct (direction_of _) as [dir stalled] eqn:D.
  destruct (goal_projection _ _ _ _ _) as [[[[p w] k] g]|e]; cbn [bind];
    [|discriminate].
  intros [= <-].
  cbn [trend_net_change_lbs trend_direction trend_stalled algorithm_recalibrating].
  split; [reflexivity|]. split; [now rewrite D | reflexivity].
Qed.

(** Without a trend reading and without a deficit the analysis returns. *)
Lemma analyze_returns_without_trend mf_data week_start week_end :
  trend_readings mf_data week_start week_end = [] ->
  exists r, analyze mf_data week_start week_end None = Ok r.
Proof.
  unfold trend_readings, analyze. cbv zeta. intros H.
  destruct (trend_series _) as [s|]; [subst s|]; cbn [on_series _first_valid
    _last_valid dropna filter hd_error rev net_change direction_of];
    unfold goal_projection, opt_or; cbn [opt_truthy];
    destruct (on_series _last_valid _) as [w|]; cbn [opt_truthy];
    try destruct (PyFloat.truthy w); cbn [bind]; eexists; reflexivity.
Qed.

(** C10: when the trend sheet has no valid reading in the week, no net
    change is computed and an analysis that is returned has the direction
    ["flat"] with the stalled flag false; the stalled flag is true only for
    a computed net change that is neither below -0.1 nor above 0.1 (within
    [-0.1, 0.1] when it is a number).  So ["flat"] alone does not imply
    the stalled flag. *)
Theorem C10_flat_without_stall
  (mf_data : BodyCompSheets) (week_start week_end : Timestamp)
  (deficit : option float) (r : BodyCompAnalysis) :
  analyze mf_data week_start week_end deficit = Ok r ->
  (trend_readings mf_data week_start week_end = [] ->
     trend_net_change_lbs r = None
     /\ trend_direction r = "flat" /\ trend_stalled r = false)
  /\ (trend_stalled r = true ->
      trend_direction r = "flat"
      /\ exists c, trend_net_change_lbs r = Some c
                   /\ PrimFloat.ltb c (-0.1) = false
                   /\ PrimFloat.ltb 0.1 c = false
                   /\ (PyFloat.isnan c = false ->
                       PrimFloat.leb (-0.1) c = true
                       /\ PrimFloat.leb c 0.1 = true)).
Proof.
  intros H. apply analyze_fields in H. cbv zeta in H.
  destruct H as (Hnet & Hdir & _). split.
  - intros Hnone. unfold trend_readings in Hnone.
    assert (N : trend_net_change_lbs r = None).
    { rewrite Hnet. destruct (trend_series _) as [s|]; [subst s|]; reflexivity. }
    rewrite N in Hdir. cbn in Hdir. injection Hdir as -> ->. auto.
  - intros Hst. destruct (trend_net_change_lbs r) as [c|]; cbn in Hdir.
    + destruct (PrimFloat.ltb c (-0.1)) eqn:E1.
      { injection Hdir as _ Hd. congruence. }
      destruct (PrimFloat.ltb 0.1 c) eqn:E2.
      { injection Hdir as _ Hd. congruence. }
      injection Hdir as -> _. split; [reflexivity|].
      exists c. repeat split; try assumption.
      * now apply not_ltb_leb.
      * now apply not_ltb_leb.
    + injection Hdir as _ Hd. congruence.
Qed.

Lemma C10_flat_without_stall_witness :
  exists r,
    analyze scale_only_sheets (Timestamp_of_date (mkdate 2026 3 16))
            (Timestamp_of_date (mkdate 2026 3 22)) None = Ok r
    /\ trend_readings scale_only_sheets (Timestamp_of_date (mkdate 2026 3 16))
         (Timestamp_of_date (mkdate 2026 3 22)) = []
    /\ trend_net_change_lbs r = None
    /\ trend_direction r = "flat" /\ trend_stalled r = false.
Proof.
  destruct (analyze_returns_without_trend scale_only_sheets
              (Timestamp_of_date (mkdate 2026 3 16))
              (Timestamp_of_date (mkdate 2026 3 22)) eq_refl) as [r Hr].
  exists r. split; [exact Hr|]. split; [reflexivity|].
  exact (proj1 (C10_flat_without_stall _ _ _ _ _ Hr) eq_refl).
Defined.

(** What the recalibration flag is: the days since the restart are at most
    21, however many days before the restart the week ends. *)
Lemma recalibrating_iff mf_data week_start week_end deficit r :
  analyze mf_data week_start week_end deficit = Ok r ->
  (algorithm_recalibrating r = true <-> days_since_restart week_end <= 21).
Proof.
  intros H. apply analyze_fields in H. cbv zeta in H.
  destruct H as (_ & _ & ->). apply Z.leb_le.
Qed.

(** C2 fails on the code: the week ending Sunday 2025-11-02 ends 106 days
    before the tracking restart of 2026-02-16, which is not within 21 days
    of it, yet the analyzer sets [algorithm_recalibrating]. *)
Theorem C2_recalibrating_before_restart :
  exists r,
    analyze no_sheets (Timestamp_of_date (mkdate 2025 10 27))
            (Timestamp_of_date (mkdate 2025 11 2)) None = Ok r
    /\ days_since_restart (Timestamp_of_date (mkdate 2025 11 2)) = -106
    /\ algorithm_recalibrating r = true.
Proof.
  eexists. split; [vm_compute; reflexivity|]. split; reflexivity.
Qed.

End BodyCompFlags.

(* ------------------------------------------------------------------ *)
(** * The signal detector *)
(* ------------------------------------------------------------------ *)

Section SignalOrder.

Import Signals.

Lemma if_append (c : bool) (l : list Signal) (x : Signal) :
  (if c then append l x else l) = (l ++ when c x)%list.
Proof. destruct c; cbn; [reflexivity | now rewrite app_nil_r]. Qed.

Lemma fold_append {A : Type} (f : A -> Signal) (items : list A) (l : list Signal) :
  fold_left (fun signals item => append signals (f item)) items l
  = (l ++ map f items)%list.
Proof.
  revert l. induction items as [|a items IH]; intros l; cbn.
  - now rewrite app_nil_r.
  - rewrite IH. unfold append. now rewrite <- app_assoc.
Qed.








(** The imperative accumulation of [detect] is the concatenation of the
    groups, whenever the paces of the two running messages that show them
    can be displayed. *)
Lemma detect_groups r s n b rolling_pace cur_pace :
  (Running.aerobic_adaptation_signal r || Running.fatigue_signal r = true ->
   paces_display r = Some (rolling_pace, cur_pace)) ->
  detect r s n b
  = Ok (running_signals r rolling_pace cur_pace ++ strength_signals s
        ++ nutrition_signals n ++ body_comp_signals b)%list.
Proof.
  intros H.
  assert (P : Running.aerobic_adaptation_signal r || Running.fatigue_signal r = true ->
              Garmin.format_pace
                (Running.flat_avg_pace_dec (Running.rolling_4wk r)) = Ok rolling_pace
              /\ Garmin.format_pace
                   (Running.flat_avg_pace_dec (Running.current r)) = Ok cur_pace).
  { intros T. specialize (H T). unfold paces_display in H.
    destruct (Garmin.format_pace _) as [a|]; [|discriminate H].
    destruct (Garmin.format_pace _) as [c|]; [|discriminate H].
    now injection H as -> ->. }
  clear H.
  unfold detect, running_signals, strength_signals, nutrition_signals,
    body_comp_signals.
  destruct (Running.aerobic_adaptation_signal r) eqn:A;
    destruct (Running.fatigue_signal r) eqn:F;
    try (destruct (P eq_refl) as [-> ->]); clear P;
    destruct (Running.mileage_change_pct r);
    destruct (Running.ground_contact_change_ms r);
    destruct (Strength.pr_exercises s) eqn:PR;
    destruct (Strength.missed_muscle_groups s) eqn:MI;
    repeat (first
      [ progress cbv beta iota delta [bind]
      | lazymatch goal with
        | |- (let x := ?E in @?K x) = _ => change (K E)
        end
      | rewrite if_append
      | rewrite fold_append ]);
    cbv beta iota zeta delta [nonempty when];
    unfold append; rewrite ?app_nil_r, <- ?app_assoc; reflexivity.
Qed.




Example detect_example :
  option_map (map message)
    (match detect example_running example_strength example_nutrition
             example_body_comp with
     | Ok l => Some l
     | Raise _ => None
     end)
  = Some
      [ "Pace improving (8:15 " ++ Utf8.arrow ++ " 8:00/mi) with HR holding steady at 150 "
        ++ Utf8.em_dash ++ " aerobic adaptation confirmed.";
        "Zero sets logged for priority muscle group(s): Glutes, Hips, Core, Hamstrings.";
        "Avg carbs 65g/day while running 35.0 mi/week " ++ Utf8.em_dash
        ++ " underfueling risk for performance and recovery.";
        "Still within the first 3 weeks post-tracking restart. MacroFactor expenditure estimate (currently ~2,009 kcal) is likely underestimating true TDEE given run volume. Consistency now = faster recalibration." ].
Proof. vm_compute. reflexivity. Qed.

End SignalOrder.

(* ------------------------------------------------------------------ *)
(** * Rounding a product below a float *)
(* ------------------------------------------------------------------ *)

Module RoundingFacts.



Lemma shr_1_m r : 0 <= shr_m r -> shr_m (shr_1 r) = shr_m r / 2.
Proof.
  destruct r as [m rb sb]. cbn [shr_m shr_1]. intros H.
  destruct m as [|[p|p|]|p]; cbn [shr_m]; try lia.
  - reflexivity.
  - apply Z.div_unique with 1; lia.
  - apply Z.div_unique with 0; lia.
  - reflexivity.
Qed.

Lemma pow2_xO p : 2 ^ Zpos p~0 = 2 ^ Zpos p * 2 ^ Zpos p.
Proof.
  replace (Zpos p~0) with (Zpos p + Zpos p) by lia. apply Z.pow_add_r; lia.
Qed.

Lemma pow2_xI p : 2 ^ Zpos p~1 = 2 * (2 ^ Zpos p * 2 ^ Zpos p).
Proof.
  replace (Zpos p~1) with (1 + (Zpos p + Zpos p)) by lia.
  rewrite !Z.pow_add_r by lia. reflexivity.
Qed.

Lemma iter_shr_1_m p r :
  0 <= shr_m r -> shr_m (iter_pos shr_1 p r) = shr_m r / 2 ^ Zpos p.
Proof.
  revert r. induction p as [p IH|p IH|]; intros r H; cbn [iter_pos].
  - assert (H1 : 0 <= shr_m (shr_1 r)).
    { rewrite shr_1_m by assumption. apply Z.div_pos; lia. }
    assert (H2 : 0 <= shr_m (iter_pos shr_1 p (shr_1 r))).
    { rewrite IH by assumption. apply Z.div_pos; lia. }
    rewrite IH, IH, shr_1_m by assumption.
    rewrite !Z.div_div by lia. now rewrite pow2_xI, Z.mul_assoc.
  - assert (H2 : 0 <= shr_m (iter_pos shr_1 p r)).
    { rewrite IH by assumption. apply Z.div_pos; lia. }
    rewrite IH, IH by assumption.
    rewrite Z.div_div by lia. now rewrite pow2_xO.
  - rewrite shr_1_m by assumption. reflexivity.
Qed.

Lemma round_nearest_even_bounds a l :
  a <= round_nearest_even a l <= a + 1.
Proof.
  destruct l as [|[| |]]; cbn [round_nearest_even]; try lia.
  destruct (Z.even a); lia.
Qed.

Lemma shr_spec r e n :
  0 <= shr_m r ->
  shr_m (fst (shr r e n)) = shr_m r / 2 ^ Z.max n 0
  /\ snd (shr r e n) = e + Z.max n 0.
Proof.
  intros H. destruct n as [|p|p]; cbn [shr fst snd].
  - change (Z.max 0 0) with 0. rewrite Z.div_1_r. lia.
  - replace (Z.max (Zpos p) 0) with (Zpos p) by lia.
    now rewrite iter_shr_1_m.
  - replace (Z.max (Zneg p) 0) with 0 by lia. rewrite Z.div_1_r. lia.
Qed.



End RoundingFacts.

Module MulFacts.

Import FloatOrder FloatOrderFacts RoundingFacts.


End MulFacts.

(* ------------------------------------------------------------------ *)
(** * Strength: the best prior maximum, new maxima and regressions *)
(* ------------------------------------------------------------------ *)

Section StrengthRecords.

Import PyDate Pandas Strength Overload FloatOrder FloatOrderFacts MulFacts.




Lemma positive_present x : PrimFloat.ltb 0 x = true -> PyFloat.isnan x = false.
Proof. intros H. now apply ltb_true in H. Qed.











Example bench_press_scenarios :
  let week a := analyze (bench_sheets a) (Timestamp_of_date (mkdate 2026 3 16))
                  (Timestamp_of_date (mkdate 2026 3 22)) in
  pr_exercises (week 140%float)
  = ["Bench Press: 135 " ++ Utf8.arrow ++ " 140 lbs"]
  /\ regression_exercises (week 140%float) = []
  /\ pr_exercises (week 128%float) = []
  /\ regression_exercises (week 128%float)
     = ["Bench Press: 135 " ++ Utf8.arrow ++ " 128 lbs"]
  /\ pr_exercises (week 135%float) = []
  /\ regression_exercises (week 135%float) = []
  /\ pr_exercises (week 130%float) = []
  /\ regression_exercises (week 130%float) = [].
Proof. vm_compute. repeat split. Qed.

End StrengthRecords.

(* ------------------------------------------------------------------ *)
(** * What the cell converters raise *)
(* ------------------------------------------------------------------ *)

Section ConverterErrors.

Import PyStr PyConv Garmin GarminFacts.

Lemma take_digits_value s c d r :
  take_digits s = (String c d, r) -> exists n, digits_value (String c d) = Some n.
Proof.
  intros H. unfold digits_value.
  assert (G : forall s d r, take_digits s = (d, r) ->
                exists u, NilEmpty.uint_of_string d = Some u).
  { clear. induction s as [|a s IH]; cbn; intros d r H.
    - injection H as <- <-. now exists Decimal.Nil.
    - destruct (is_digit a) eqn:Ha.
      + destruct (take_digits s) as [d' r'] eqn:E. injection H as <- <-.
        destruct (IH _ _ eq_refl) as [u Hu]. cbn. rewrite Hu.
        each_digit Ha; cbn; eauto.
      + injection H as <- <-. now exists Decimal.Nil. }
  destruct (G _ _ _ H) as [u ->]. cbn. eauto.
Qed.

Lemma two_digits_to_float a b :
  is_digit a = true -> is_digit b = true ->
  exists n f, digits_value (String a (String b EmptyString)) = Some n
              /\ PyFloat.of_int n = Ok f.
Proof.
  intros Ha Hb. each_digit Ha; each_digit Hb; eexists; eexists;
    (split; [reflexivity | vm_compute; reflexivity]).
Qed.

Lemma of_int_raise n e : PyFloat.of_int n = Raise e -> e = OverflowError.
Proof.
  unfold PyFloat.of_int. destruct (is_infinity _); [|discriminate].
  now intros [= <-].
Qed.

Lemma int_add_float_raise a b e :
  int_add_float a b = Raise e -> e = OverflowError.
Proof.
  unfold int_add_float. destruct (PyFloat.of_int a) eqn:E; cbn; [discriminate|].
  intros [= <-]. now apply of_int_raise in E.
Qed.

Lemma except_only_overflow (r : result float) e :
  (forall e', r = Raise e' -> e' = ValueError \/ e' = OverflowError) ->
  except_ValueError r PyFloat.nan = Raise e -> e = OverflowError.
Proof.
  intros H. destruct r as [x|[|]]; cbn; try discriminate. now intros [= <-].
Qed.

(** What the pace converter raises: [ValueError] from [int()] when the
    minutes have more digits than [int_max_str_digits], [OverflowError]
    when they are within the limit and too large for a double. *)
Lemma pace_raise v e :
  _pace_to_decimal_minutes v = Raise e ->
  exists g1 g2,
    match_pace (strip (str v)) = Some (g1, g2)
    /\ if int_max_str_digits <? Z.of_nat (String.length g1)
       then e = ValueError
       else e = OverflowError
            /\ exists minutes,
                 digits_value g1 = Some minutes
                 /\ PyFloat.of_int minutes = Raise OverflowError.
Proof.
  unfold _pace_to_decimal_minutes.
  destruct (is_none_or_nan v); [discriminate|].
  destruct (is_sentinel _); [discriminate|].
  destruct (match_pace (strip (str v))) as [[g1 g2]|] eqn:M.
  - destruct (match_pace_inv _ _ _ M) as (c & d & a & b & -> & -> & _ & _ & Ha & Hb).
    assert (T : exists r, take_digits (strip (str v)) = (String c d, r)).
    { unfold match_pace in M. destruct (take_digits _) as [x r].
      destruct x as [|c' d']; [discriminate|].
      destruct r as [|colon [|a' [|b' [|? ?]]]]; try discriminate;
        try (destruct colon as [[|] [|] [|] [|] [|] [|] [|] [|]]; discriminate).
      destruct colon as [[|] [|] [|] [|] [|] [|] [|] [|]]; try discriminate.
      destruct (_ && _); [|discriminate]. injection M as <- <- _ _. eauto. }
    destruct T as [r T]. destruct (take_digits_value _ _ _ _ T) as [m Hm].
    destruct (two_digits_to_float a b Ha Hb) as (n & f & Hn & Hf).
    assert (L2 : Z.of_nat (String.length (String a (String b EmptyString)))
                 <= int_max_str_digits) by (cbn; unfold int_max_str_digits; lia).
    rewrite (int_of_group_short _ _ Hn L2).
    unfold int_of_group, int_of_digits. intros H.
    exists (String c d), (String a (String b "")). split; [reflexivity|].
    destruct (int_max_str_digits <? Z.of_nat (String.length (String c d)));
      [cbn [bind] in H; now injection H as <-|].
    rewrite Hm in H. cbn [bind] in H. rewrite Hf in H. cbn [bind] in H.
    destruct (PyFloat.of_int m) as [fm|e'] eqn:E; cbn [bind] in H;
      [discriminate|].
    injection H as <-. pose proof (of_int_raise _ _ E) as ->.
    split; [reflexivity|]. now exists m.
  - intros H. destruct (float_of_str _) as [x|e'] eqn:E; cbn in H; [discriminate|].
    apply float_of_str_raise in E as ->. discriminate.
Qed.

(** A pace whose minutes are longer than [int()] converts raises
    [ValueError]: the conversion of the group is outside the [try]. *)
Lemma pace_too_long v g1 g2 :
  match_pace (strip (str v)) = Some (g1, g2) ->
  int_max_str_digits < Z.of_nat (String.length g1) ->
  _pace_to_decimal_minutes v = Raise ValueError.
Proof.
  intros M L. destruct v as [| |s]; try discriminate M.
  unfold _pace_to_decimal_minutes. cbn [is_none_or_nan str] in M |- *.
  destruct (match_pace_inv _ _ _ M) as (c & d & a & b & E1 & E2 & Hs & Hc & _).
  assert (Hsent : is_sentinel (strip s) = false).
  { rewrite Hs, E1. cbn [append]. now apply pace_not_sentinel. }
  rewrite Hsent, M. unfold int_of_group, int_of_digits.
  apply Z.ltb_lt in L. now rewrite L.
Qed.

Lemma duration_parts_raise s e :
  except_ValueError
    (match split_char ":" s with
     | [p0; p1; p2] =>
         do h <- to_int p0 ;;
         do m <- to_int p1 ;;
         do sec <- float_of_str p2 ;;
         int_add_float (h * 3600 + m * 60) sec
     | [p0; p1] =>
         do m <- to_int p0 ;;
         do sec <- float_of_str p1 ;;
         int_add_float (m * 60) sec
     | _ => float_of_str s
     end) PyFloat.nan = Raise e ->
  e = OverflowError.
Proof.
  apply except_only_overflow. intros e'.
  destruct (split_char ":" s) as [|p0 [|p1 [|p2 [|p3 ps]]]];
    try (intros H; left; now apply float_of_str_raise in H).
  - destruct (to_int p0) as [m|x] eqn:E0; cbn [bind];
      [|intros [= <-]; left; now apply to_int_raise in E0].
    destruct (float_of_str p1) as [y|x] eqn:E1; cbn [bind];
      [|intros [= <-]; left; now apply float_of_str_raise in E1].
    intros H. right. now apply int_add_float_raise in H.
  - destruct (to_int p0) as [h|x] eqn:E0; cbn [bind];
      [|intros [= <-]; left; now apply to_int_raise in E0].
    destruct (to_int p1) as [m|x] eqn:E1; cbn [bind];
      [|intros [= <-]; left; now apply to_int_raise in E1].
    destruct (float_of_str p2) as [y|x] eqn:E2; cbn [bind];
      [|intros [= <-]; left; now apply float_of_str_raise in E2].
    intros H. right. now apply int_add_float_raise in H.
Qed.

Lemma duration_raise v e : _parse_duration v = Raise e -> e = OverflowError.
Proof.
  unfold _parse_duration. destruct v as [| |s]; [discriminate| |];
    cbv zeta; (destruct (is_sentinel _); [discriminate|]);
    apply duration_parts_raise.
Qed.

(** X1: what the cell converters raise.  The generic and the comma
    converter return for every cell.  The pace converter calls [int()] on
    the minutes outside its [try]: it raises [ValueError] exactly on a cell
    the pace pattern matches whose minutes have more than 4300 digits, and
    this is the only [ValueError] a converter lets escape (in the duration
    converter the same error is caught and gives NaN).  [OverflowError]
    comes only from the pace converter, on minutes within the digit limit
    that are too large for a double, and from the duration converter. *)
Theorem X1_what_converters_raise (k : CellKind) (v : PyValue) :
  (convert k v = Raise ValueError <->
   k = Pace
   /\ exists g1 g2,
        match_pace (strip (str v)) = Some (g1, g2)
        /\ int_max_str_digits < Z.of_nat (String.length g1))
  /\ (convert k v = Raise OverflowError ->
      k = Duration
      \/ (k = Pace
          /\ exists g1 g2 minutes,
               match_pace (strip (str v)) = Some (g1, g2)
               /\ Z.of_nat (String.length g1) <= int_max_str_digits
               /\ digits_value g1 = Some minutes
               /\ PyFloat.of_int minutes = Raise OverflowError))
  /\ (k = Generic \/ k = CommaNumeric -> exists x, convert k v = Ok x).
Proof.
  split; [split|split].
  - destruct k; cbn [convert]; intros H.
    + destruct (clean_generic_total v) as [x Hx]. congruence.
    + destruct (strip_comma_numeric_total v) as [x Hx]. congruence.
    + split; [reflexivity|].
      apply pace_raise in H as (g1 & g2 & M & H). exists g1, g2.
      split; [exact M|].
      destruct (int_max_str_digits <? Z.of_nat (String.length g1)) eqn:L.
      * now apply Z.ltb_lt in L.
      * destruct H as [H _]. discriminate H.
    + apply duration_raise in H. discriminate H.
  - intros (-> & g1 & g2 & M & L). exact (pace_too_long v g1 g2 M L).
  - destruct k; cbn [convert]; intros H.
    + destruct (clean_generic_total v) as [x Hx]. congruence.
    + destruct (strip_comma_numeric_total v) as [x Hx]. congruence.
    + right. split; [reflexivity|].
      apply pace_raise in H as (g1 & g2 & M & H). exists g1, g2.
      destruct (int_max_str_digits <? Z.of_nat (String.length g1)) eqn:L;
        [discriminate H|].
      destruct H as (_ & minutes & D & O). exists minutes.
      apply Z.ltb_ge in L. auto.
    + now left.
  - intros [->| ->]; cbn [convert];
      [apply clean_generic_total | apply strip_comma_numeric_total].
Qed.

(** The same text of 401 digits, a colon and two zeros overflows as a pace
    and as a duration; with 4301 digits the pace converter raises
    [ValueError] and the duration converter gives NaN. *)
Example cells_with_long_numbers :
  convert Pace (PyText GarminInputs.huge_pace) = Raise OverflowError
  /\ convert Duration (PyText GarminInputs.huge_pace) = Raise OverflowError
  /\ convert Pace (PyText GarminInputs.long_pace) = Raise ValueError
  /\ convert Duration (PyText GarminInputs.long_pace) = Ok PyFloat.nan.
Proof. vm_compute. repeat split. Qed.

End ConverterErrors.

(* ------------------------------------------------------------------ *)
(** * The shape of a displayed pace *)
(* ------------------------------------------------------------------ *)

Section DisplayedPace.

Import PyStr PyConv Garmin GarminFacts.

Lemma string_of_uint_digits u :
  forall r, take_digits (NilEmpty.string_of_uint u ++ String ":" r)
            = (NilEmpty.string_of_uint u, String ":" r).
Proof.
  induction u; intros r; cbn [NilEmpty.string_of_uint append];
    try reflexivity; cbn [take_digits]; rewrite IHu;
    match goal with |- context [is_digit ?c] =>
      change (is_digit c) with true end; reflexivity.
Qed.

Lemma to_uint_unorm p : Decimal.unorm (Pos.to_uint p) = Pos.to_uint p.
Proof.
  pose proof (DecimalZ.to_of (Z.to_int (Zpos p))) as H.
  rewrite DecimalZ.of_to in H. cbn in H. now injection H as H.
Qed.

Lemma unorm_canonical u :
  u <> Decimal.Nil -> Decimal.unorm u = u ->
  canonical (NilEmpty.string_of_uint u) = true.
Proof.
  intros Hnil Hu. destruct u as [|u'| | | | | | | | |]; try reflexivity.
  destruct u' as [|u''| | | | | | | | |]; try reflexivity; exfalso;
    rewrite DecimalFacts.unorm_D0 in Hu;
    match type of Hu with Decimal.unorm ?v = _ =>
      assert (N : v <> Decimal.Nil) by discriminate;
      pose proof (DecimalFacts.nb_digits_unorm v N) as L;
      rewrite Hu in L; cbn in L; lia
    end.
Qed.

(** The decimal writing of a natural number: digits only, not empty, no
    zero in front, and it reads back as the number. *)
Lemma of_int_nonneg n :
  0 <= n ->
  exists c d,
    of_int n = String c d
    /\ (forall r, take_digits (of_int n ++ String ":" r) = (of_int n, String ":" r))
    /\ canonical (of_int n) = true
    /\ digits_value (of_int n) = Some n.
Proof.
  intros Hn. unfold of_int.
  assert (E : exists u, Z.to_int n = Decimal.Pos u /\ u <> Decimal.Nil
                        /\ Decimal.unorm u = u /\ Z.of_uint u = n).
  { destruct n as [|p|p]; [| |lia].
    - exists (Decimal.D0 Decimal.Nil). repeat split; discriminate.
    - exists (Pos.to_uint p). repeat split.
      + apply DecimalPos.Unsigned.to_uint_nonnil.
      + apply to_uint_unorm.
      + change (Z.of_int (Z.to_int (Zpos p)) = Zpos p). apply DecimalZ.of_to. }
  destruct E as (u & -> & Hnil & Hu & Hv). cbn [NilEmpty.string_of_int].
  assert (S : exists c d, NilEmpty.string_of_uint u = String c d).
  { destruct u; try (now elim Hnil); cbn; eauto. }
  destruct S as (c & d & S). exists c, d. repeat split.
  - exact S.
  - apply string_of_uint_digits.
  - now apply unorm_canonical.
  - unfold digits_value. rewrite S, <- S, NilEmpty.usu. cbn. now rewrite Hv.
Qed.

Lemma of_int_02d_seconds s :
  0 <= s < 60 ->
  exists a b,
    of_int_02d s = String a (String b EmptyString)
    /\ is_digit a = true /\ is_digit b = true
    /\ digits_value (of_int_02d s) = Some s.
Proof.
  intros H.
  assert (C : s = 0 \/ s = 1 \/ s = 2 \/ s = 3 \/ s = 4 \/ s = 5 \/ s = 6 \/ s = 7
    \/ s = 8 \/ s = 9 \/ s = 10 \/ s = 11 \/ s = 12 \/ s = 13 \/ s = 14 \/ s = 15
    \/ s = 16 \/ s = 17 \/ s = 18 \/ s = 19 \/ s = 20 \/ s = 21 \/ s = 22 \/ s = 23
    \/ s = 24 \/ s = 25 \/ s = 26 \/ s = 27 \/ s = 28 \/ s = 29 \/ s = 30 \/ s = 31
    \/ s = 32 \/ s = 33 \/ s = 34 \/ s = 35 \/ s = 36 \/ s = 37 \/ s = 38 \/ s = 39
    \/ s = 40 \/ s = 41 \/ s = 42 \/ s = 43 \/ s = 44 \/ s = 45 \/ s = 46 \/ s = 47
    \/ s = 48 \/ s = 49 \/ s = 50 \/ s = 51 \/ s = 52 \/ s = 53 \/ s = 54 \/ s = 55
    \/ s = 56 \/ s = 57 \/ s = 58 \/ s = 59) by lia.
  repeat (destruct C as [->|C];
          [eexists; eexists; repeat split; reflexivity|]).
  subst s. eexists; eexists; repeat split; reflexivity.
Qed.

(** X2: a pace that is not missing and rounds to a non-negative number of
    seconds [t] is displayed as minutes, a colon and two digits: the text
    matches the pace pattern, its minutes are the decimal writing of
    [t / 60] without a leading zero, and its seconds are [t mod 60], never
    above 59. *)
Theorem X2_displayed_pace_shape (x : float) (t : Z) :
  PyFloat.isnan x = false ->
  PyFloat.round (x * 60)%float = Ok t ->
  0 <= t ->
  exists text g1 g2,
    _decimal_minutes_to_mmss (Some x) = Ok text
    /\ match_pace text = Some (g1, g2)
    /\ canonical g1 = true
    /\ digits_value g1 = Some (t / 60)
    /\ digits_value g2 = Some (t mod 60)
    /\ is_mmss text = true.
Proof.
  intros Hnan Hround Ht.
  assert (Hm : 0 <= t / 60) by (apply Z.div_pos; lia).
  assert (Hs : 0 <= t mod 60 < 60) by (apply Z.mod_pos_bound; lia).
  destruct (of_int_nonneg _ Hm) as (c & d & Hc & Htake & Hcan & Hval).
  destruct (of_int_02d_seconds _ Hs) as (a & b & Hab & Ha & Hb & Hsec).
  assert (M : match_pace (of_int (t / 60) ++ ":" ++ of_int_02d (t mod 60))
              = Some (of_int (t / 60), of_int_02d (t mod 60))).
  { unfold match_pace. change (":" ++ ?r) with (String ":" r).
    rewrite Htake, Hab, Hc, Ha, Hb. reflexivity. }
  exists (of_int (t / 60) ++ ":" ++ of_int_02d (t mod 60)),
         (of_int (t / 60)), (of_int_02d (t mod 60)).
  repeat split; try assumption.
  - unfold _decimal_minutes_to_mmss. rewrite Hnan, Hround. reflexivity.
  - unfold is_mmss. rewrite M, Hsec. apply Z.leb_le. lia.
Qed.

Lemma X2_displayed_pace_shape_witness :
  exists text g1 g2,
    _decimal_minutes_to_mmss (Some 8.25%float) = Ok text
    /\ match_pace text = Some (g1, g2)
    /\ canonical g1 = true
    /\ digits_value g1 = Some (495 / 60)
    /\ digits_value g2 = Some (495 mod 60)
    /\ is_mmss text = true.
Proof.
  apply (X2_displayed_pace_shape 8.25%float 495);
    [reflexivity | vm_compute; reflexivity | lia].
Defined.

End DisplayedPace.

(* ------------------------------------------------------------------ *)
(** * What the prior windows select *)
(* ------------------------------------------------------------------ *)

Section PriorWindowCoverage.

Import PyDate.

(** X3: the four prior windows are closed intervals from midnight to
    midnight.  Every midnight of the 28 days before the week start lies in
    one of them, but an instant after 00:00 on the last day of a window,
    and before the next midnight, lies in none: a row stamped with a time
    of day on that day is left out of every baseline week. *)
Theorem X3_prior_windows_coverage (week_start : Timestamp) :
  let W := Running.prior_windows week_start 4 in
  (forall k, 1 <= k <= 28 ->
     exists w, In w W /\ inside w (week_start - Timedelta_days k) = true)
  /\ (forall w t, In w W ->
        snd w < t < snd w + Timedelta_days 1 ->
        forall w', In w' W -> inside w' t = false).
Proof.
  intros W. subst W. rewrite prior_windows_eq.
  unfold Timedelta_days, inside, Pandas.in_window.
  assert (HD : 0 < ns_per_day) by reflexivity.
  set (D := ns_per_day) in *. clearbody D. split.
  - intros k Hk.
    assert (C : k <= 7 \/ 8 <= k <= 14 \/ 15 <= k <= 21 \/ 22 <= k) by lia.
    destruct C as [C|[C|[C|C]]];
      [exists (week_start - 7 * D, week_start - 1 * D)
      |exists (week_start - 14 * D, week_start - 8 * D)
      |exists (week_start - 21 * D, week_start - 15 * D)
      |exists (week_start - 28 * D, week_start - 22 * D)];
      (split; [cbn [In]; tauto|]); cbn [fst snd];
      apply andb_true_intro; split; apply Z.leb_le; nia.
  - intros w t Hw Ht w' Hw'. cbn [In] in Hw, Hw'.
    apply andb_false_iff. rewrite !Z.leb_gt.
    repeat (destruct Hw as [<-|Hw]; [|]); try contradiction;
      repeat (destruct Hw' as [<-|Hw']; [|]); try contradiction;
      cbn [fst snd] in *; lia.
Qed.

End PriorWindowCoverage.

(* ------------------------------------------------------------------ *)
(** * The weekly running statistics *)
(* ------------------------------------------------------------------ *)

Section RunningWeeks.

Import PyDate Running.

Lemma filter_partition_length {A : Type} (p : A -> bool) (l : list A) :
  List.length l
  = (List.length (filter (fun x => negb (p x)) l) + List.length (filter p l))%nat.
Proof.
  induction l as [|a l IH]; [reflexivity|]. cbn [filter].
  destruct (p a); cbn [negb List.length]; lia.
Qed.

Lemma empty_window_stats all_runs ws we :
  filter (fun r => Pandas.in_window ws we (date r)) (runs all_runs) = [] ->
  _compute_week_stats all_runs ws we = default_stats ws we.
Proof.
  unfold _compute_week_stats. intros H. cbv zeta. rewrite H.
  now destruct (runs all_runs).
Qed.

Lemma no_run_in_window all_runs ws we :
  (forall r, In r (runs all_runs) -> Pandas.in_window ws we (date r) = false) ->
  _compute_week_stats all_runs ws we = default_stats ws we.
Proof.
  intros H. apply empty_window_stats.
  induction (runs all_runs) as [|r l IH]; [reflexivity|]. cbn [filter].
  rewrite (H r) by now left. apply IH. intros r' Hr'. apply H. now right.
Qed.

(** X4: the statistics of a window count the runs dated in it (a run
    without a date is in no window); every counted run is either a flat or
    a trail run; and when no run is counted the statistics are the
    defaults: zero totals and no average. *)
Theorem X4_run_counts (all_runs : RunFrame) (week_start week_end : Timestamp) :
  let stats := _compute_week_stats all_runs week_start week_end in
  let window :=
    filter (fun r => Pandas.in_window week_start week_end (date r))
           (runs all_runs) in
  run_count stats = Z.of_nat (List.length window)
  /\ run_count stats = flat_run_count stats + trail_run_count stats
  /\ (forall r, In r window -> exists t, date r = Some t /\ week_start <= t <= week_end)
  /\ (window = [] -> stats = default_stats week_start week_end).
Proof.
  cbv zeta. split; [|split; [|split]].
  - unfold _compute_week_stats. cbv zeta.
    destruct (runs all_runs) as [|r0 rs]; [reflexivity|].
    now destruct (filter _ (r0 :: rs)).
  - unfold _compute_week_stats. cbv zeta.
    destruct (runs all_runs) as [|r0 rs]; [reflexivity|].
    destruct (filter _ (r0 :: rs)) as [|r w]; [reflexivity|].
    cbn [run_count flat_run_count trail_run_count].
    rewrite (filter_partition_length is_trail (r :: w)). lia.
  - intros r Hr. apply filter_In in Hr as [_ Hr].
    destruct (date r) as [t|]; [|discriminate Hr].
    apply andb_prop in Hr as [H1 H2]. apply Z.leb_le in H1, H2. eauto.
  - apply empty_window_stats.
Qed.

End RunningWeeks.

(* ------------------------------------------------------------------ *)
(** * A week without history *)
(* ------------------------------------------------------------------ *)

Section RunningWithoutHistory.

Import PyDate Running.

Lemma rolling_without_history all_runs ws :
  (forall r w, In r (runs all_runs) -> In w (prior_windows ws 4) ->
               Pandas.in_window (fst w) (snd w) (date r) = false) ->
  _compute_rolling_avg_stats all_runs ws 4 = Ok (default_stats ws ws).
Proof.
  intros H. unfold _compute_rolling_avg_stats.
  assert (E : map (fun w => _compute_week_stats all_runs (fst w) (snd w))
                  (prior_windows ws 4)
              = map (fun w => default_stats (fst w) (snd w)) (prior_windows ws 4)).
  { apply map_ext_in. intros w Hw. apply no_run_in_window.
    intros r Hr. now apply H. }
  rewrite E, prior_windows_eq. reflexivity.
Qed.

(** X5: when no run of the export is dated in one of the four prior
    windows, the analysis returns with a baseline of zero miles and zero
    runs and no average; it then makes no comparison: no mileage change,
    no pace, heart-rate, cadence or ground-contact change, and neither the
    overreach flag nor the adaptation or the fatigue signal. *)
Theorem X5_no_history_no_comparison
  (all_runs : RunFrame) (week_start week_end : Timestamp) :
  (forall r w, In r (runs all_runs) -> In w (prior_windows week_start 4) ->
               Pandas.in_window (fst w) (snd w) (date r) = false) ->
  exists a,
    analyze all_runs week_start week_end = Ok a
    /\ current a = _compute_week_stats all_runs week_start week_end
    /\ rolling_4wk a = default_stats week_start week_start
    /\ mileage_change_pct a = None
    /\ pace_change_dec a = None /\ hr_change a = None
    /\ cadence_change a = None /\ ground_contact_change_ms a = None
    /\ overreach_flag a = false
    /\ aerobic_adaptation_signal a = false /\ fatigue_signal a = false.
Proof.
  intros H. unfold analyze. cbv zeta.
  rewrite (rolling_without_history _ _ H). cbn [bind]. eexists.
  split; [reflexivity|].
  set (cur := _compute_week_stats all_runs week_start week_end).
  unfold compare_stats, change. cbn.
  destruct (flat_avg_pace_dec cur), (flat_avg_hr cur), (flat_avg_cadence cur),
    (flat_avg_ground_contact_ms cur); repeat split.
Qed.

Lemma X5_no_history_no_comparison_witness :
  exists a,
    analyze Exports.first_week_runs (Timestamp_of_date (mkdate 2026 3 16))
            (Timestamp_of_date (mkdate 2026 3 22)) = Ok a
    /\ current a = _compute_week_stats Exports.first_week_runs
                     (Timestamp_of_date (mkdate 2026 3 16))
                     (Timestamp_of_date (mkdate 2026 3 22))
    /\ rolling_4wk a = default_stats (Timestamp_of_date (mkdate 2026 3 16))
                                     (Timestamp_of_date (mkdate 2026 3 16))
    /\ mileage_change_pct a = None
    /\ pace_change_dec a = None /\ hr_change a = None
    /\ cadence_change a = None /\ ground_contact_change_ms a = None
    /\ overreach_flag a = false
    /\ aerobic_adaptation_signal a = false /\ fatigue_signal a = false.
Proof.
  apply X5_no_history_no_comparison.
  intros r w [<-|[]] Hw. rewrite prior_windows_eq in Hw. cbn [In] in Hw.
  repeat (destruct Hw as [<-|Hw]; [reflexivity|]). contradiction.
Defined.

End RunningWithoutHistory.

(* ------------------------------------------------------------------ *)
(** * What the strength analyzer reports, and what it leaves out *)
(* ------------------------------------------------------------------ *)

Section StrengthReports.

Import PyDate Pandas Strength FloatOrderFacts.

Lemma positive_by_column_In agg window k v :
  In (k, v) (positive_by_column agg window) ->
  In k (columns window) /\ PrimFloat.ltb 0 v = true.
Proof.
  unfold positive_by_column. intros H. apply in_flat_map in H as (col & Hc & H).
  cbv zeta in H. destruct (PrimFloat.ltb 0 (agg (column window col))) eqn:E;
    [|contradiction].
  destruct H as [[= <- <-]|[]]. auto.
Qed.

Lemma week_sets_In df s e k v :
  In (k, v) (_week_sets df s e) -> In k (columns df) /\ PrimFloat.ltb 0 v = true.
Proof.
  unfold _week_sets. destruct (empty df); [contradiction|]. cbv zeta.
  destruct (empty (week_slice df s e)); [contradiction|].
  intros H. apply positive_by_column_In in H. exact H.
Qed.

Lemma week_volume_In df s e k v :
  In (k, v) (_week_volume df s e) -> In k (columns df) /\ PrimFloat.ltb 0 v = true.
Proof.
  unfold _week_volume. destruct (empty df); [contradiction|]. cbv zeta.
  destruct (empty (week_slice df s e)); [contradiction|].
  intros H. apply positive_by_column_In in H. exact H.
Qed.

Lemma week_heaviest_In df s e k v :
  In (k, v) (_week_heaviest df s e) -> In k (columns df) /\ PrimFloat.ltb 0 v = true.
Proof.
  unfold _week_heaviest. destruct (empty df); [contradiction|]. cbv zeta.
  destruct (empty (week_slice df s e)); [contradiction|].
  intros H. apply in_flat_map in H as (col & Hc & H). cbv zeta in H.
  destruct (negb _ && PrimFloat.ltb 0 _) eqn:E; [|contradiction].
  destruct H as [[= <- <-]|[]]. apply andb_prop in E as [_ E]. auto.
Qed.

(** X6: the dictionaries of a week (sets by muscle group, heaviest weight
    and volume by exercise) only have columns of their sheet as keys, and
    only values above zero: no zero, no negative number and no missing
    value is ever stored. *)
Theorem X6_week_dictionaries_positive
  (mf_data : StrengthSheets) (week_start week_end : Timestamp) :
  let stats := current (analyze mf_data week_start week_end) in
  (forall k v, In (k, v) (sets_by_muscle stats) ->
     In k (columns (muscle_groups mf_data))
     /\ PrimFloat.ltb 0 v = true /\ PyFloat.isnan v = false)
  /\ (forall k v, In (k, v) (heaviest_by_exercise stats) ->
        In k (columns (exercises_heaviest mf_data))
        /\ PrimFloat.ltb 0 v = true /\ PyFloat.isnan v = false)
  /\ (forall k v, In (k, v) (volume_by_exercise stats) ->
        In k (columns (exercises_volume mf_data))
        /\ PrimFloat.ltb 0 v = true /\ PyFloat.isnan v = false).
Proof.
  cbv zeta. cbn [analyze current sets_by_muscle heaviest_by_exercise
                 volume_by_exercise].
  split; [|split]; intros k v H;
    [apply week_sets_In in H | apply week_heaviest_In in H
    | apply week_volume_In in H];
    destruct H as [Hk Hv]; (split; [exact Hk|]); (split; [exact Hv|]);
    now apply positive_present.
Qed.

Lemma pr_entry_inv cur prior e :
  In e (pr_exercises_of cur prior) ->
  exists ex cur_max prior_max,
    In (ex, cur_max) cur /\ dict_get prior ex = Some prior_max
    /\ PrimFloat.ltb prior_max cur_max = true
    /\ e = entry ex prior_max cur_max.
Proof.
  unfold pr_exercises_of. intros H.
  apply in_flat_map in H as ([ex cur_max] & Hin & H).
  destruct (dict_get prior ex) as [prior_max|] eqn:G; [|contradiction].
  destruct (PrimFloat.ltb prior_max cur_max) eqn:L; [|contradiction].
  destruct H as [<-|[]]. now exists ex, cur_max, prior_max.
Qed.

Lemma regression_entry_inv cur prior e :
  In e (regression_exercises_of cur prior) ->
  exists ex cur_max prior_max,
    In (ex, cur_max) cur /\ dict_get prior ex = Some prior_max
    /\ PrimFloat.ltb prior_max cur_max = false
    /\ PrimFloat.ltb cur_max (prior_max * 0.95) = true
    /\ e = entry ex prior_max cur_max.
Proof.
  unfold regression_exercises_of. intros H.
  apply in_flat_map in H as ([ex cur_max] & Hin & H).
  destruct (dict_get prior ex) as [prior_max|] eqn:G; [|contradiction].
  destruct (PrimFloat.ltb prior_max cur_max) eqn:L; [contradiction|].
  destruct (PrimFloat.ltb cur_max (prior_max * 0.95)) eqn:R; [|contradiction].
  destruct H as [<-|[]]. now exists ex, cur_max, prior_max.
Qed.

Lemma report_count cur prior :
  (List.length (pr_exercises_of cur prior)
   + List.length (regression_exercises_of cur prior) <= List.length cur)%nat.
Proof.
  induction cur as [|[ex cur_max] cur IH]; [apply Nat.le_refl|].
  unfold pr_exercises_of, regression_exercises_of in *. cbn [flat_map].
  rewrite !length_app. cbn [List.length].
  destruct (dict_get prior ex) as [prior_max|]; [|cbn [List.length]; lia].
  destruct (PrimFloat.ltb prior_max cur_max); [cbn [List.length]; lia|].
  destruct (PrimFloat.ltb cur_max (prior_max * 0.95)); cbn [List.length]; lia.
Qed.

(** X7: nothing is reported without cause.  An entry of the PR list comes
    from an exercise of the week whose weight is above its baseline, an
    entry of the regression list from one whose weight is not above the
    baseline and below 0.95 times it; an exercise without a baseline is in
    neither list, and the two lists together have at most one entry for
    each exercise of the week. *)
Theorem X7_reports_have_a_cause
  (mf_data : StrengthSheets) (week_start week_end : Timestamp) :
  let a := analyze mf_data week_start week_end in
  (forall e, In e (pr_exercises a) ->
     exists ex cur_max baseline,
       In (ex, cur_max) (heaviest_by_exercise (current a))
       /\ dict_get (baseline_of a) ex = Some baseline
       /\ PrimFloat.ltb baseline cur_max = true
       /\ e = entry ex baseline cur_max)
  /\ (forall e, In e (regression_exercises a) ->
        exists ex cur_max baseline,
          In (ex, cur_max) (heaviest_by_exercise (current a))
          /\ dict_get (baseline_of a) ex = Some baseline
          /\ PrimFloat.ltb baseline cur_max = false
          /\ PrimFloat.ltb cur_max (baseline * 0.95) = true
          /\ e = entry ex baseline cur_max)
  /\ (List.length (pr_exercises a) + List.length (regression_exercises a)
      <= List.length (heaviest_by_exercise (current a)))%nat.
Proof.
  cbv zeta. unfold baseline_of.
  cbn [analyze current pr_exercises regression_exercises prior_4wk_avg
       heaviest_by_exercise].
  split; [|split].
  - apply pr_entry_inv.
  - apply regression_entry_inv.
  - apply report_count.
Qed.

End StrengthReports.

(* ------------------------------------------------------------------ *)
(** * Strength weeks without rows *)
(* ------------------------------------------------------------------ *)

Section StrengthEmptyWeeks.

Import PyDate Pandas Strength.

Lemma slice_without_rows df s e :
  (forall r, In r (rows df) -> in_window s e (fst r) = false) ->
  empty df = true \/ empty (week_slice df s e) = true.
Proof.
  intros H. right. unfold empty, week_slice. cbn [rows].
  induction (rows df) as [|r l IH]; [reflexivity|]. cbn [filter].
  rewrite (H r) by now left. apply IH. intros r' Hr'. apply H. now right.
Qed.

Lemma week_sets_without_rows df s e :
  (forall r, In r (rows df) -> in_window s e (fst r) = false) ->
  _week_sets df s e = [].
Proof.
  intros H. unfold _week_sets. destruct (empty df) eqn:D; [reflexivity|].
  cbv zeta. destruct (slice_without_rows df s e H) as [E|E];
    [congruence | now rewrite E].
Qed.

Lemma week_heaviest_without_rows df s e :
  (forall r, In r (rows df) -> in_window s e (fst r) = false) ->
  _week_heaviest df s e = [].
Proof.
  intros H. unfold _week_heaviest. destruct (empty df) eqn:D; [reflexivity|].
  cbv zeta. destruct (slice_without_rows df s e H) as [E|E];
    [congruence | now rewrite E].
Qed.

Lemma week_volume_without_rows df s e :
  (forall r, In r (rows df) -> in_window s e (fst r) = false) ->
  _week_volume df s e = [].
Proof.
  intros H. unfold _week_volume. destruct (empty df) eqn:D; [reflexivity|].
  cbv zeta. destruct (slice_without_rows df s e H) as [E|E];
    [congruence | now rewrite E].
Qed.

Lemma workout_days_without_rows df s e :
  (forall r, In r (rows df) -> in_window s e (fst r) = false) ->
  _workout_days df s e = 0.
Proof.
  intros H. unfold _workout_days. destruct (empty df) eqn:D; [reflexivity|].
  cbv zeta. destruct (slice_without_rows df s e H) as [E|E];
    [congruence | now rewrite E].
Qed.

(** X8: a week in which none of the three strength sheets has a row gives
    zero workout days and empty dictionaries; no PR and no regression is
    reported, and all four priority muscle groups are listed as missed. *)
Theorem X8_strength_week_without_rows
  (mf_data : StrengthSheets) (week_start week_end : Timestamp) :
  (forall r, In r (rows (muscle_groups mf_data)) ->
             in_window week_start week_end (fst r) = false) ->
  (forall r, In r (rows (exercises_heaviest mf_data)) ->
             in_window week_start week_end (fst r) = false) ->
  (forall r, In r (rows (exercises_volume mf_data)) ->
             in_window week_start week_end (fst r) = false) ->
  let a := analyze mf_data week_start week_end in
  workout_days (current a) = 0
  /\ sets_by_muscle (current a) = []
  /\ heaviest_by_exercise (current a) = []
  /\ volume_by_exercise (current a) = []
  /\ pr_exercises a = [] /\ regression_exercises a = []
  /\ missed_muscle_groups a = ["Glutes"; "Hips"; "Core"; "Hamstrings"].
Proof.
  intros Hm Hh Hv. cbv zeta.
  cbn [analyze current workout_days sets_by_muscle heaviest_by_exercise
       volume_by_exercise pr_exercises regression_exercises missed_muscle_groups].
  rewrite (workout_days_without_rows _ _ _ Hm), (week_sets_without_rows _ _ _ Hm),
    (week_heaviest_without_rows _ _ _ Hh), (week_volume_without_rows _ _ _ Hv).
  repeat split.
Qed.

Lemma X8_strength_week_without_rows_witness :
  exists a,
    a = analyze (bench_sheets 140) (Timestamp_of_date (mkdate 2026 4 6))
          (Timestamp_of_date (mkdate 2026 4 12))
    /\ workout_days (current a) = 0
    /\ sets_by_muscle (current a) = []
    /\ heaviest_by_exercise (current a) = []
    /\ volume_by_exercise (current a) = []
    /\ pr_exercises a = [] /\ regression_exercises a = []
    /\ missed_muscle_groups a = ["Glutes"; "Hips"; "Core"; "Hamstrings"].
Proof.
  eexists. split; [reflexivity|].
  apply X8_strength_week_without_rows; intros r H; cbn [bench_sheets
    muscle_groups exercises_heaviest exercises_volume rows empty_frame In] in H;
    repeat (destruct H as [<-|H]; [reflexivity|]); contradiction.
Defined.

(** X9: when the heaviest-weight sheet has no row in the four prior
    windows there is no baseline, and no PR and no regression is reported
    whatever is lifted in the week; when the muscle-group sheet has none,
    no volume drop is flagged. *)
Theorem X9_strength_without_history
  (mf_data : StrengthSheets) (week_start week_end : Timestamp) :
  let a := analyze mf_data week_start week_end in
  ((forall r w, In r (rows (exercises_heaviest mf_data)) ->
                In w (prior_windows week_start) ->
                in_window (fst w) (snd w) (fst r) = false) ->
   baseline_of a = [] /\ pr_exercises a = [] /\ regression_exercises a = [])
  /\ ((forall r w, In r (rows (muscle_groups mf_data)) ->
                   In w (prior_windows week_start) ->
                   in_window (fst w) (snd w) (fst r) = false) ->
      volume_drop_flags a = []).
Proof.
  cbv zeta. unfold baseline_of.
  cbn [analyze prior_4wk_avg heaviest_by_exercise sets_by_muscle current
       pr_exercises regression_exercises volume_drop_flags].
  split; intros H.
  - assert (E : map (fun w => _week_heaviest (exercises_heaviest mf_data)
                                (fst w) (snd w)) (prior_windows week_start)
                = map (fun _ => []) (prior_windows week_start)).
    { apply map_ext_in. intros w Hw. apply week_heaviest_without_rows.
      intros r Hr. now apply H. }
    rewrite E. change (prior_heaviest _) with (@nil (string * float)).
    split; [reflexivity|].
    unfold pr_exercises_of, regression_exercises_of.
    split; (induction (_week_heaviest _ _ _) as [|[ex c] l IH];
            [reflexivity | cbn [flat_map dict_get app]; exact IH]).
  - assert (E : map (fun w => _week_sets (muscle_groups mf_data)
                                (fst w) (snd w)) (prior_windows week_start)
                = map (fun _ => []) (prior_windows week_start)).
    { apply map_ext_in. intros w Hw. apply week_sets_without_rows.
      intros r Hr. now apply H. }
    rewrite E. reflexivity.
Qed.

End StrengthEmptyWeeks.

(* ------------------------------------------------------------------ *)
(** * The counts of the nutrition week *)
(* ------------------------------------------------------------------ *)

Section NutritionCounts.

Import PyDate Pandas Nutrition.

Lemma count_bounds p vals : 0 <= count p vals <= Z.of_nat (List.length vals).
Proof.
  unfold count. split; [lia|]. apply inj_le.
  induction vals as [|x l IH]; [apply Nat.le_refl|]. cbn [filter List.length].
  destruct (p x); cbn [List.length]; lia.
Qed.

Lemma dropna_length s : (List.length (dropna s) <= List.length s)%nat.
Proof.
  unfold dropna. induction s as [|x l IH]; [apply Nat.le_refl|].
  cbn [filter List.length]. destruct (negb _); cbn [List.length]; lia.
Qed.

Lemma column_length df name :
  (List.length (column df name) <= List.length (rows df))%nat.
Proof.
  unfold column. destruct (index_of name (columns df)).
  - rewrite length_map. apply Nat.le_refl.
  - cbn. lia.
Qed.

Lemma found_values_length week cands :
  (List.length (found_values week cands) <= List.length (rows week))%nat.
Proof.
  unfold found_values. destruct (_find_col week cands) as [col|]; [|cbn; lia].
  etransitivity; [apply dropna_length | apply column_length].
Qed.

Lemma logged_days_rows mf_data ws we :
  logged_days (week_stats mf_data ws we)
  = Z.of_nat (List.length
      (filter (fun r => in_window ws we (fst r)) (rows (calories_macros mf_data)))).
Proof.
  unfold week_stats. cbv zeta. cbn [logged_days].
  destruct (empty (calories_macros mf_data)) eqn:E.
  - apply empty_no_rows in E. rewrite E. reflexivity.
  - unfold empty at 1. cbn [week_slice rows].
    now destruct (filter _ (rows (calories_macros mf_data))).
Qed.

(** X10: the logged days of a week are the rows of the calories sheet
    dated in the window, whether or not they hold a value; the days that
    hit the protein target and the days within the calorie window are
    counted among them, so neither count is negative or above the logged
    days; and the week is flagged incomplete exactly when it has fewer
    than five such rows. *)
Theorem X10_nutrition_day_counts
  (mf_data : NutritionSheets) (week_start week_end : Timestamp) (mileage : float) :
  let a := analyze mf_data week_start week_end mileage in
  let days :=
    Z.of_nat (List.length
      (filter (fun r => in_window week_start week_end (fst r))
              (rows (calories_macros mf_data)))) in
  logged_days (current a) = days
  /\ 0 <= protein_hit_days (current a) <= days
  /\ 0 <= calorie_target_days (current a) <= days
  /\ (incomplete_week_flag a = true <-> days < 5).
Proof.
  cbv zeta. cbn [analyze current incomplete_week_flag].
  rewrite <- (logged_days_rows mf_data week_start week_end).
  split; [reflexivity|].
  assert (B : forall p cands,
    0 <= (if negb (empty (if empty (calories_macros mf_data) then empty_frame
                          else week_slice (calories_macros mf_data) week_start week_end))
          then count p (found_values
                 (if empty (calories_macros mf_data) then empty_frame
                  else week_slice (calories_macros mf_data) week_start week_end) cands)
          else 0)
      <= logged_days (week_stats mf_data week_start week_end)).
  { intros p cands. unfold week_stats. cbv zeta. cbn [logged_days].
    destruct (negb _); [|lia].
    pose proof (count_bounds p (found_values
      (if empty (calories_macros mf_data) then empty_frame
       else week_slice (calories_macros mf_data) week_start week_end) cands)) as C.
    pose proof (found_values_length
      (if empty (calories_macros mf_data) then empty_frame
       else week_slice (calories_macros mf_data) week_start week_end) cands) as L.
    lia. }
  split; [|split].
  - unfold week_stats at 1 2. cbv zeta. cbn [protein_hit_days]. apply B.
  - unfold week_stats at 1 2. cbv zeta. cbn [calorie_target_days].
    destruct (calories (current_targets mf_data)) as [t|].
    + destruct (PyFloat.truthy t).
      * rewrite andb_true_r. apply B.
      * rewrite andb_false_r. rewrite logged_days_rows. lia.
    + rewrite logged_days_rows. lia.
  - apply Z.ltb_lt.
Qed.

End NutritionCounts.

Section NutritionEmptyWeek.

Import PyDate Pandas Nutrition.

Lemma week_without_rows_not_logged mf_data ws we :
  (forall r, In r (rows (calories_macros mf_data)) ->
             in_window ws we (fst r) = false) ->
  negb (empty (if empty (calories_macros mf_data) then empty_frame
               else week_slice (calories_macros mf_data) ws we)) = false.
Proof.
  intros H. destruct (empty (calories_macros mf_data)) eqn:D; [reflexivity|].
  destruct (slice_without_rows _ ws we H) as [E|E]; [congruence|].
  now rewrite E.
Qed.

(** X11: a week in which the calories sheet has no row has zero logged
    days and no average; the adherence rates, the deficit and the
    percentages of the targets are left undefined rather than computed
    from zero days; the low-protein, the carb-underfuel and the
    calorie-variance flag stay off whatever the mileage, and only the
    incomplete-week flag is raised. *)
Theorem X11_nutrition_week_without_rows
  (mf_data : NutritionSheets) (week_start week_end : Timestamp) (mileage : float) :
  (forall r, In r (rows (calories_macros mf_data)) ->
             in_window week_start week_end (fst r) = false) ->
  let a := analyze mf_data week_start week_end mileage in
  logged_days (current a) = 0
  /\ (avg_calories (current a) = None /\ avg_protein_g (current a) = None
      /\ avg_carbs_g (current a) = None /\ avg_fat_g (current a) = None
      /\ calorie_stdev (current a) = None)
  /\ (protein_hit_days (current a) = 0 /\ calorie_target_days (current a) = 0)
  /\ (protein_hit_rate a = None /\ calorie_target_rate a = None)
  /\ avg_daily_deficit a = None
  /\ (calories_pct_target a = None /\ protein_pct_target a = None
      /\ carbs_pct_target a = None /\ fat_pct_target a = None)
  /\ (low_protein_flag a = false /\ low_carb_underfuel_flag a = false
      /\ high_calorie_variance_flag a = false)
  /\ incomplete_week_flag a = true.
Proof.
  intros H. pose proof (week_without_rows_not_logged _ _ _ H) as L.
  cbv zeta. unfold analyze, week_stats. cbv zeta.
  cbn [current logged_days avg_calories avg_protein_g avg_carbs_g avg_fat_g
       calorie_stdev protein_hit_days calorie_target_days protein_hit_rate
       calorie_target_rate avg_daily_deficit calories_pct_target
       protein_pct_target carbs_pct_target fat_pct_target low_protein_flag
       low_carb_underfuel_flag high_calorie_variance_flag incomplete_week_flag
       target_calories target_protein_g target_carbs_g target_fat_g
       avg_expenditure].
  rewrite !L. cbn [andb Z.ltb Z.compare pct_of].
  repeat split.
  destruct (calories (current_targets mf_data)); reflexivity.
Qed.

Lemma X11_nutrition_week_without_rows_witness :
  exists a,
    a = analyze (carb_sheets [70%float; 75%float])
          (Timestamp_of_date (mkdate 2026 4 6))
          (Timestamp_of_date (mkdate 2026 4 12)) 35
    /\ logged_days (current a) = 0
    /\ (avg_calories (current a) = None /\ avg_protein_g (current a) = None
        /\ avg_carbs_g (current a) = None /\ avg_fat_g (current a) = None
        /\ calorie_stdev (current a) = None)
    /\ (protein_hit_days (current a) = 0 /\ calorie_target_days (current a) = 0)
    /\ (protein_hit_rate a = None /\ calorie_target_rate a = None)
    /\ avg_daily_deficit a = None
    /\ (calories_pct_target a = None /\ protein_pct_target a = None
        /\ carbs_pct_target a = None /\ fat_pct_target a = None)
    /\ (low_protein_flag a = false /\ low_carb_underfuel_flag a = false
        /\ high_calorie_variance_flag a = false)
    /\ incomplete_week_flag a = true.
Proof.
  eexists. split; [reflexivity|].
  apply X11_nutrition_week_without_rows. intros r Hr.
  cbn in Hr. repeat (destruct Hr as [<-|Hr]; [reflexivity|]). contradiction.
Defined.

End NutritionEmptyWeek.

(* ------------------------------------------------------------------ *)
(** * A trend that ends where it started *)
(* ------------------------------------------------------------------ *)

Section TrendWithoutChange.

Import PyDate Pandas BodyComp FloatOrder FloatOrderFacts.






(** What a returned analysis holds in the flag of a rising weight. *)
Lemma analyze_rising mf_data week_start week_end deficit r :
  analyze mf_data week_start week_end deficit = Ok r ->
  weight_rising_despite_deficit r
  = match deficit with
    | Some d => PrimFloat.ltb 0 d && String.eqb (trend_direction r) "up"
    | None => false
    end.
Proof.
  unfold analyze. cbv zeta.
  destruct (direction_of _) as [dir stalled] eqn:D.
  destruct (goal_projection _ _ _ _ _) as [[[[p w] k] g]|e]; cbn [bind];
    [|discriminate].
  intros [= <-]. reflexivity.
Qed.



End TrendWithoutChange.

(* ------------------------------------------------------------------ *)
(** * The projected goal date *)
(* ------------------------------------------------------------------ *)

Section GoalProjection.

Import PyDate Pandas BodyComp FloatOrder FloatOrderFacts FloatSign.

Lemma positive_sign_clear x :
  PrimFloat.ltb 0 x = true -> sign_clear (Prim2SF x) = true.
Proof.
  intros H. apply ltb_true in H as (_ & _ & H).
  unfold key in H. change (sf_key (Prim2SF 0)) with (0, 0, 0) in H.
  destruct (Prim2SF x) as [s|s| |s m e]; cbn in H; try destruct s;
    try reflexivity; lia.
Qed.

Lemma binary_round_aux_sign m e l :
  sign_clear (binary_round_aux prec emax false m e l) = true.
Proof.
  unfold binary_round_aux.
  destruct (shr_fexp prec emax m e l) as [mrs' e'].
  destruct (shr_fexp prec emax _ e' loc_Exact) as [mrs'' e''].
  destruct (shr_m mrs''); [reflexivity| |reflexivity].
  now destruct (e'' <=? emax - prec).
Qed.

(** The quotient and the product of two floats with a clear sign bit
    have a clear sign bit. *)
Lemma div_sign_clear x y :
  sign_clear (Prim2SF x) = true -> sign_clear (Prim2SF y) = true ->
  sign_clear (Prim2SF (x / y)) = true.
Proof.
  rewrite div_spec. unfold SF64div, SFdiv.
  destruct (Prim2SF x) as [a|a| |a mx ex], (Prim2SF y) as [b|b| |b my ey];
    try reflexivity; destruct a; try discriminate; destruct b;
    try discriminate; try reflexivity.
  intros _ _. destruct (SFdiv_core_binary _ _ _ _ _ _) as [[mz ez] lz].
  apply binary_round_aux_sign.
Qed.

Lemma mul_sign_clear x y :
  sign_clear (Prim2SF x) = true -> sign_clear (Prim2SF y) = true ->
  sign_clear (Prim2SF (x * y)) = true.
Proof.
  rewrite mul_spec. unfold SF64mul, SFmul.
  destruct (Prim2SF x) as [a|a| |a mx ex], (Prim2SF y) as [b|b| |b my ey];
    try reflexivity; destruct a; try discriminate; destruct b;
    try discriminate; try reflexivity.
  intros _ _. apply binary_round_aux_sign.
Qed.

Lemma to_int_sign_clear x n :
  sign_clear (Prim2SF x) = true -> PyFloat.to_int x = Ok n -> 0 <= n.
Proof.
  unfold PyFloat.to_int. destruct (Prim2SF x) as [a|a| |a m e]; try discriminate.
  - intros _ [= <-]. lia.
  - destruct a; [discriminate|]. intros _ [= <-].
    destruct (0 <=? e) eqn:E; cbv beta iota.
    + apply Z.leb_le in E.
      pose proof (Z.pow_nonneg 2 e ltac:(lia)) as P.
      set (q := 2 ^ e) in *. clearbody q. destruct q; lia.
    + apply Z.leb_gt in E.
      pose proof (Z.pow_pos_nonneg 2 (- e) ltac:(lia) ltac:(lia)) as P.
      set (q := 2 ^ (- e)) in *. clearbody q. apply Z.div_pos; lia.
Qed.

Lemma goal_date_not_before week_end pounds loss d :
  sign_clear (Prim2SF pounds) = true -> sign_clear (Prim2SF loss) = true ->
  goal_date week_end (pounds / loss) = Ok d ->
  Timestamp_date week_end <= d.
Proof.
  intros Hp Hl. unfold goal_date.
  destruct (PyFloat.to_int (pounds / loss * 7)) as [n|e] eqn:E; cbn [bind];
    [|discriminate].
  apply to_int_sign_clear in E;
    [|apply mul_sign_clear; [now apply div_sign_clear | reflexivity]].
  unfold date_add_days. destruct (Z.abs n >? 999999999); [discriminate|].
  cbv zeta. destruct (_ && _); [|discriminate]. intros [= <-]. lia.
Qed.

Lemma goal_projection_date week_end te wl tc deficit p w k d :
  goal_projection week_end te wl tc deficit = Ok (p, w, k, Some d) ->
  exists pounds loss,
    p = Some pounds /\ w = Some loss /\ k = Some (pounds / loss)%float
    /\ PrimFloat.ltb 0 pounds = true
    /\ sign_clear (Prim2SF loss) = true
    /\ goal_date week_end (pounds / loss) = Ok d.
Proof.
  unfold goal_projection. cbv zeta.
  destruct (opt_or te wl) as [cw|]; [|discriminate].
  destruct (PyFloat.truthy cw); [|discriminate].
  set (pounds := (cw - Config.GOAL_WEIGHT_LBS)%float).
  destruct (match tc with
            | Some c => if PyFloat.truthy c && PrimFloat.ltb 0.05 (abs c)
                        then Some c else None
            | None => None
            end) as [c|].
  - destruct (PrimFloat.ltb 0 (- c)) eqn:L; cbn [andb]; [|discriminate].
    destruct (PrimFloat.ltb 0 pounds) eqn:P; [|discriminate].
    destruct (goal_date week_end (pounds / - c)) as [d'|e] eqn:G; cbn [bind];
      [|discriminate].
    intros [= <- <- <- <-]. exists pounds, (- c)%float.
    repeat split; try assumption. now apply positive_sign_clear.
  - destruct deficit as [deficit|]; [|discriminate].
    destruct (PrimFloat.ltb 0 deficit) eqn:L;
      [|rewrite andb_false_r; discriminate].
    destruct (PyFloat.truthy deficit); cbn [andb]; [|discriminate].
    destruct (PrimFloat.ltb 0 pounds) eqn:P;
      [|rewrite andb_false_r; discriminate].
    destruct (PyFloat.truthy pounds); cbn [andb]; [|discriminate].
    destruct (goal_date week_end (pounds / (deficit * 7 / 3500))) as [d'|e] eqn:G;
      cbn [bind]; [|discriminate].
    intros [= <- <- <- <-]. exists pounds, (deficit * 7 / 3500)%float.
    repeat split; try assumption.
    apply div_sign_clear; [|reflexivity].
    apply mul_sign_clear; [|reflexivity]. now apply positive_sign_clear.
Qed.

(** What a returned analysis holds in the fields of the projection. *)
Lemma analyze_goal mf_data week_start week_end deficit r :
  analyze mf_data week_start week_end deficit = Ok r ->
  goal_projection week_end (trend_weight_end r) (weight_end_lbs r)
    (trend_net_change_lbs r) deficit
  = Ok (pounds_to_goal r, weekly_rate_lbs r, weeks_to_goal r, projected_goal_date r).
Proof.
  unfold analyze. cbv zeta.
  destruct (direction_of _) as [dir stalled].
  destruct (goal_projection _ _ _ _ _) as [[[[p w] k] g]|e] eqn:G; cbn [bind];
    [|discriminate].
  intros [= <-].
  cbn [trend_weight_end weight_end_lbs trend_net_change_lbs pounds_to_goal
       weekly_rate_lbs weeks_to_goal projected_goal_date].
  exact G.
Qed.

(** X13: an analysis that projects a goal date never projects it before
    the day the week ends, and it only projects one together with a
    weekly rate and a number of weeks, for a weight above the goal; the
    weeks are the pounds to the goal divided by the weekly rate. *)
Theorem X13_goal_date_not_in_the_past
  (mf_data : BodyCompSheets) (week_start week_end : Timestamp)
  (deficit : option float) (r : BodyCompAnalysis) (d : date) :
  analyze mf_data week_start week_end deficit = Ok r ->
  projected_goal_date r = Some d ->
  Timestamp_date week_end <= d
  /\ exists pounds rate,
       pounds_to_goal r = Some pounds /\ PrimFloat.ltb 0 pounds = true
       /\ weekly_rate_lbs r = Some rate
       /\ weeks_to_goal r = Some (pounds / rate)%float.
Proof.
  intros H Hd. apply analyze_goal in H. rewrite Hd in H.
  apply goal_projection_date in H
    as (pounds & loss & Hp & Hw & Hk & Ppos & Lsign & G).
  split.
  - apply (goal_date_not_before _ _ _ _ (positive_sign_clear _ Ppos) Lsign G).
  - now exists pounds, loss.
Qed.

Lemma X13_goal_date_not_in_the_past_witness :
  exists r d,
    analyze Exports.falling_trend_sheets (Timestamp_of_date (mkdate 2026 3 16))
            (Timestamp_of_date (mkdate 2026 3 22)) None = Ok r
    /\ projected_goal_date r = Some d
    /\ Timestamp_date (Timestamp_of_date (mkdate 2026 3 22)) <= d
    /\ exists pounds rate,
         pounds_to_goal r = Some pounds /\ PrimFloat.ltb 0 pounds = true
         /\ weekly_rate_lbs r = Some rate
         /\ weeks_to_goal r = Some (pounds / rate)%float.
Proof.
  assert (E : exists r d,
            analyze Exports.falling_trend_sheets
              (Timestamp_of_date (mkdate 2026 3 16))
              (Timestamp_of_date (mkdate 2026 3 22)) None = Ok r
            /\ projected_goal_date r = Some d)
    by (vm_compute; eexists; eexists; split; reflexivity).
  destruct E as (r & d & Hr & Hd). exists r, d.
  split; [exact Hr|]. split; [exact Hd|].
  exact (X13_goal_date_not_in_the_past _ _ _ _ _ _ Hr Hd).
Defined.

End GoalProjection.

(* ------------------------------------------------------------------ *)
(** * What [detect] raises *)
(* ------------------------------------------------------------------ *)

Section DetectErrors.

Import Signals FloatOrderFacts RoundingFacts.

(** Rounding a positive number never gives NaN. *)
Lemma binary_round_aux_not_nan s (M : positive) e l :
  binary_round_aux prec emax s (Zpos M) e l <> S754_nan.
Proof.
  unfold binary_round_aux, shr_fexp.
  assert (H0 : 0 <= shr_m (shr_record_of_loc (Zpos M) l))
    by (destruct l as [|[| |]]; cbn; lia).
  pose proof (shr_spec (shr_record_of_loc (Zpos M) l) e
                (fexp prec emax (Zdigits2 (Zpos M) + e) - e) H0) as [S1 _].
  destruct (shr _ e _) as [mrs1 e1]. cbn [fst] in S1.
  set (m1 := round_nearest_even (shr_m mrs1) (loc_of_shr_record mrs1)).
  assert (H1 : 0 <= m1).
  { pose proof (round_nearest_even_bounds (shr_m mrs1) (loc_of_shr_record mrs1)) as B.
    fold m1 in B. rewrite S1 in B.
    assert (0 <= shr_m (shr_record_of_loc (Zpos M) l)
                 / 2 ^ Z.max (fexp prec emax (Zdigits2 (Zpos M) + e) - e) 0).
    { apply Z.div_pos; [assumption|]. apply Z.pow_pos_nonneg; lia. }
    lia. }
  pose proof (shr_spec (shr_record_of_loc m1 loc_Exact) e1
                (fexp prec emax (Zdigits2 m1 + e1) - e1) H1) as [S2 _].
  destruct (shr _ e1 _) as [mrs2 e2]. cbn [fst] in S2.
  assert (H2 : 0 <= shr_m mrs2).
  { rewrite S2. apply Z.div_pos; [assumption|]. apply Z.pow_pos_nonneg; lia. }
  destruct (shr_m mrs2); [discriminate| |lia].
  destruct (e2 <=? emax - prec); discriminate.
Qed.

(** A product with a finite factor is NaN only if the other factor is. *)
Lemma mul_60_not_nan x :
  PyFloat.isnan x = false -> PyFloat.isnan (x * 60) = false.
Proof.
  rewrite !isnan_false, mul_spec.
  change (Prim2SF 60) with (S754_finite false 8444249301319680 (-47)).
  unfold SF64mul, SFmul. destruct (Prim2SF x) as [a|a| |a m e]; try discriminate.
  - congruence.
  - intros _. apply binary_round_aux_not_nan.
Qed.

Lemma round_raise x e :
  PyFloat.isnan x = false -> PyFloat.round x = Raise e -> e = OverflowError.
Proof.
  intros N. apply isnan_false in N. unfold PyFloat.round.
  destruct (Prim2SF x); try discriminate; [|congruence]. now intros [= <-].
Qed.

(** [format_pace] raises only on a pace whose seconds are infinite. *)
Lemma format_pace_raise p e :
  Garmin.format_pace p = Raise e ->
  e = OverflowError
  /\ exists x, p = Some x /\ PyFloat.isnan x = false
               /\ PyFloat.round (x * 60) = Raise OverflowError.
Proof.
  unfold Garmin.format_pace, Garmin._decimal_minutes_to_mmss.
  destruct p as [x|]; [|discriminate].
  destruct (PyFloat.isnan x) eqn:N; [discriminate|].
  destruct (PyFloat.round (x * 60)) as [t|e'] eqn:R; cbn [bind]; [discriminate|].
  intros [= <-]. pose proof (round_raise _ _ (mul_60_not_nan x N) R) as ->.
  split; [reflexivity|]. now exists x.
Qed.

Lemma detect_raise r s n b e :
  detect r s n b = Raise e ->
  Running.aerobic_adaptation_signal r || Running.fatigue_signal r = true
  /\ (Garmin.format_pace (Running.flat_avg_pace_dec (Running.current r)) = Raise e
      \/ Garmin.format_pace (Running.flat_avg_pace_dec (Running.rolling_4wk r))
         = Raise e).
Proof.
  destruct (Garmin.format_pace (Running.flat_avg_pace_dec (Running.current r)))
    as [cp|ec] eqn:C;
  destruct (Garmin.format_pace (Running.flat_avg_pace_dec (Running.rolling_4wk r)))
    as [rp|er] eqn:R.
  - rewrite (detect_groups r s n b rp cp); [discriminate|].
    intros _. unfold paces_display. now rewrite C, R.
  - destruct (Running.aerobic_adaptation_signal r) eqn:A;
      destruct (Running.fatigue_signal r) eqn:F;
      try (rewrite (detect_groups r s n b "" "");
           [discriminate | rewrite A, F; discriminate]);
      unfold detect; rewrite ?A, ?F, C, R; cbv beta iota delta [bind];
      intros [= <-]; auto.
  - destruct (Running.aerobic_adaptation_signal r) eqn:A;
      destruct (Running.fatigue_signal r) eqn:F;
      try (rewrite (detect_groups r s n b "" "");
           [discriminate | rewrite A, F; discriminate]);
      unfold detect; rewrite ?A, ?F, C; cbv beta iota delta [bind];
      intros [= <-]; auto.
  - destruct (Running.aerobic_adaptation_signal r) eqn:A;
      destruct (Running.fatigue_signal r) eqn:F;
      try (rewrite (detect_groups r s n b "" "");
           [discriminate | rewrite A, F; discriminate]);
      unfold detect; rewrite ?A, ?F, C; cbv beta iota delta [bind];
      intros [= <-]; auto.
Qed.

(** X14: [detect] can only fail while it writes the message of the
    aerobic-adaptation or of the fatigue signal, and only with an
    [OverflowError]: one of the two signals is set and the current or the
    rolling flat pace is a number whose seconds are infinite.  With neither
    signal set it always returns. *)
Theorem X14_detect_raises_only_overflow
  (r : Running.RunningAnalysis) (s : Strength.StrengthAnalysis)
  (n : Nutrition.NutritionAnalysis) (b : BodyComp.BodyCompAnalysis) :
  (forall e, detect r s n b = Raise e ->
     e = OverflowError
     /\ Running.aerobic_adaptation_signal r || Running.fatigue_signal r = true
     /\ exists x,
          (Running.flat_avg_pace_dec (Running.current r) = Some x
           \/ Running.flat_avg_pace_dec (Running.rolling_4wk r) = Some x)
          /\ PyFloat.isnan x = false
          /\ PyFloat.round (x * 60) = Raise OverflowError)
  /\ (Running.aerobic_adaptation_signal r || Running.fatigue_signal r = false ->
      exists signals, detect r s n b = Ok signals).
Proof.
  split.
  - intros e H. apply detect_raise in H as [F [H|H]];
      apply format_pace_raise in H as (-> & x & Hx & N & R);
      (split; [reflexivity|]); (split; [exact F|]); exists x; auto.
  - intros F. eexists. apply (detect_groups r s n b "" "").
    rewrite F. discriminate.
Qed.

(** A rolling pace of infinity sets the adaptation signal and makes
    [detect] fail. *)
Example detect_overflow :
  let r := Running.compare_stats (Running.flat_stats 8 150)
             (Running.flat_stats infinity 151) in
  Running.aerobic_adaptation_signal r = true
  /\ detect r example_strength example_nutrition example_body_comp
     = Raise OverflowError.
Proof. split; vm_compute; reflexivity. Qed.

End DetectErrors.

(* ------------------------------------------------------------------ *)
(** * The views of the loaded activities *)
(* ------------------------------------------------------------------ *)

Section GarminViews.

Import PyDate GarminData FloatOrder FloatOrderFacts.

Lemma filter_map_comm {A B : Type} (f : A -> B) (p : B -> bool) (l : list A) :
  filter p (map f l) = map f (filter (fun a => p (f a)) l).
Proof.
  induction l as [|a l IH]; [reflexivity|]. cbn [map filter].
  destruct (p (f a)); cbn [map]; now rewrite IH.
Qed.

Lemma filter_filter_comm {A : Type} (p q : A -> bool) (l : list A) :
  filter p (filter q l) = filter q (filter p l).
Proof.
  induction l as [|a l IH]; [reflexivity|]. cbn [filter].
  destruct (q a) eqn:Q, (p a) eqn:P; cbn [filter]; rewrite ?Q, ?P, IH; reflexivity.
Qed.

(** X15: the views split the activities consistently.  Every run is
    either a flat run or a trail run and never both, so the two views
    have as many rows together as [runs]; and no activity is both a run
    and a strength session, because the two sets of activity types share
    no name. *)
Theorem X15_views_partition (_raw : list Activity) :
  (forall a, In a (runs _raw) <-> In a (flat_runs _raw) \/ In a (trail_runs _raw))
  /\ (forall a, ~ (In a (flat_runs _raw) /\ In a (trail_runs _raw)))
  /\ List.length (runs _raw)
     = (List.length (flat_runs _raw) + List.length (trail_runs _raw))%nat
  /\ (forall a, ~ (In a (runs _raw) /\ In a (strength_sessions _raw))).
Proof.
  unfold flat_runs, trail_runs. split; [|split; [|split]].
  - intros a. rewrite !filter_In.
    destruct (Running.is_trail (columns a)); cbn [negb]; intuition congruence.
  - intros a [H1 H2]. apply filter_In in H1 as [_ H1], H2 as [_ H2].
    rewrite H2 in H1. discriminate H1.
  - apply (filter_partition_length (fun a => Running.is_trail (columns a))).
  - intros a [H1 H2]. unfold runs, strength_sessions in *.
    apply filter_In in H1 as [_ H1], H2 as [_ H2].
    destruct (activity_type a) as [t|]; [|discriminate H1]. cbn [isin] in *.
    unfold RUNNING_ACTIVITY_TYPES, STRENGTH_ACTIVITY_TYPES in *.
    cbn [existsb] in *. rewrite !orb_false_r in *.
    repeat match type of H1 with
           | (_ || _) = true => apply orb_prop in H1 as [H1|H1]
           end;
      apply String.eqb_eq in H1; subst t; discriminate H2.
Qed.

(** X16: the running analyzer, given the [runs] view, counts in a week
    the rows [runs_in_window] returns for it: all of them for [run_count],
    those it returns with [trail_only] for [trail_run_count], and the
    flat runs dated in the window for [flat_run_count]. *)
Theorem X16_analyzer_counts_the_window
  (gc bb : bool) (_raw : list Activity) (week_start week_end : Timestamp) :
  let stats := Running._compute_week_stats (run_frame gc bb _raw) week_start week_end in
  Running.run_count stats
  = Z.of_nat (List.length (runs_in_window _raw week_start week_end false))
  /\ Running.trail_run_count stats
     = Z.of_nat (List.length (runs_in_window _raw week_start week_end true))
  /\ Running.flat_run_count stats
     = Z.of_nat (List.length
         (filter (fun a => Pandas.in_window week_start week_end
                             (Running.date (columns a))) (flat_runs _raw))).
Proof.
  cbv zeta. unfold runs_in_window, flat_runs. cbv zeta.
  rewrite (filter_filter_comm
             (fun a => Pandas.in_window week_start week_end (Running.date (columns a)))
             (fun a => negb (Running.is_trail (columns a)))).
  set (window := filter (fun a => Pandas.in_window week_start week_end
                                    (Running.date (columns a))) (runs _raw)).
  assert (W : filter (fun r => Pandas.in_window week_start week_end (Running.date r))
                     (Running.runs (run_frame gc bb _raw))
              = map columns window).
  { unfold run_frame. cbn [Running.runs].
    exact (filter_map_comm columns
             (fun r => Pandas.in_window week_start week_end (Running.date r))
             (runs _raw)). }
  unfold Running._compute_week_stats. cbv zeta. rewrite W.
  destruct (Running.runs (run_frame gc bb _raw)) as [|r0 rs] eqn:R.
  - cbn [filter] in W. destruct window; [|discriminate W]. repeat split.
  - destruct window as [|a w]; [repeat split|].
    cbn [map]. rewrite <- (map_cons columns a w).
    cbn [Running.run_count Running.trail_run_count Running.flat_run_count].
    rewrite !filter_map_comm, !length_map. repeat split.
Qed.

End GarminViews.

Section GarminDerivedColumns.

Import GarminData FloatOrder FloatOrderFacts.

Lemma abs_not_negative x : PrimFloat.ltb (abs x) 0 = false.
Proof.
  destruct (PrimFloat.ltb (abs x) 0) eqn:E; [|reflexivity].
  apply ltb_true in E as (_ & _ & E). unfold key in E. rewrite abs_spec in E.
  change (sf_key (Prim2SF 0)) with (0, 0, 0) in E.
  destruct (Prim2SF x) as [s|s| |s m e]; cbn in E; lia.
Qed.

Lemma abs_opp x : abs (- x) = abs x.
Proof.
  rewrite <- (SF2Prim_Prim2SF (abs (- x))), <- (SF2Prim_Prim2SF (abs x)).
  rewrite !abs_spec, opp_spec. now destruct (Prim2SF x).
Qed.

(** X17: the columns [_load] derives.  A run is a trail run exactly when
    its total ascent is above 500 ft: an ascent of exactly 500 ft, a lower
    one and a missing one all give a flat run, and without the column no
    run is a trail run.  The body battery drain is stored as a magnitude:
    it is never negative, a reading and its opposite give the same value,
    and a missing reading stays missing. *)
Theorem X17_derived_columns (has_ascent has_drain : bool) (r : Running.Run) :
  (Running.is_trail (derive true has_drain r) = true
   <-> PrimFloat.ltb 500 (Running.total_ascent_ft r) = true)
  /\ (PyFloat.isnan (Running.total_ascent_ft r) = true
      \/ PrimFloat.leb (Running.total_ascent_ft r) 500 = true ->
      Running.is_trail (derive has_ascent has_drain r) = false)
  /\ Running.is_trail (derive false has_drain r) = false
  /\ PrimFloat.ltb (Running.body_battery_drain (derive has_ascent true r)) 0 = false
  /\ (forall d,
        Running.body_battery_drain r = (- d)%float ->
        Running.body_battery_drain (derive has_ascent true r) = abs d)
  /\ (PyFloat.isnan (Running.body_battery_drain r) = true ->
      PyFloat.isnan (Running.body_battery_drain (derive has_ascent true r)) = true).
Proof.
  cbn [derive Running.is_trail Running.body_battery_drain].
  split; [reflexivity|]. split; [|split; [reflexivity|split; [|split]]].
  - intros H. destruct has_ascent; [|reflexivity].
    change Config.TRAIL_RUN_ASCENT_FT with 500%float.
    destruct H as [H|H].
    + destruct (PrimFloat.ltb 500 (Running.total_ascent_ft r)) eqn:E;
        [|reflexivity].
      apply ltb_true in E as (_ & N & _). congruence.
    + now apply leb_not_ltb.
  - apply abs_not_negative.
  - intros d ->. apply abs_opp.
  - rewrite !isnan_spec, abs_spec. now intros ->.
Qed.

Example trail_boundary :
  Running.is_trail (derive true true (climb 500 (-12))) = false
  /\ Running.is_trail (derive true true (climb 500.5 (-12))) = true
  /\ Running.body_battery_drain (derive true true (climb 500 (-12))) = 12%float.
Proof. repeat split. Qed.

End GarminDerivedColumns.

(* ------------------------------------------------------------------ *)
(** * Characters that make a cell unparsable *)
(* ------------------------------------------------------------------ *)

Section CellAlphabetFacts.

Import PyStr PyConv Garmin CellAlphabet GarminFacts.

Lemma string_app_assoc (s t u : string) : (s ++ t) ++ u = s ++ (t ++ u).
Proof. induction s as [|c s IH]; [reflexivity|]. cbn. now rewrite IH. Qed.

Lemma string_forall_app p s t :
  string_forall p (s ++ t) = string_forall p s && string_forall p t.
Proof.
  induction s as [|c s IH]; [reflexivity|]. cbn. now rewrite IH, andb_assoc.
Qed.

Lemma string_forall_impl (p q : ascii -> bool) s :
  (forall c, p c = true -> q c = true) ->
  string_forall p s = true -> string_forall q s = true.
Proof.
  intros H. induction s as [|c s IH]; [reflexivity|]. cbn.
  intros E. apply andb_prop in E as [E1 E2]. now rewrite (H c E1), IH.
Qed.

(** A text fails a test on its characters through one of its characters. *)
Lemma string_forall_false p s :
  string_forall p s = false ->
  exists c, string_mem c s = true /\ p c = false.
Proof.
  induction s as [|a s IH]; [discriminate|]. cbn.
  destruct (p a) eqn:P; cbn.
  - intros H. destruct (IH H) as (c & M & Hc). exists c.
    now rewrite M, orb_true_r.
  - intros _. exists a. now rewrite Ascii.eqb_refl.
Qed.

Lemma string_forall_mem p s c :
  string_forall p s = true -> string_mem c s = true -> p c = true.
Proof.
  induction s as [|a s IH]; [discriminate|]. cbn.
  intros E M. apply andb_prop in E as [E1 E2].
  apply orb_prop in M as [M|M]; [|now apply IH].
  apply Ascii.eqb_eq in M. now subst.
Qed.

Lemma string_mem_app c s t :
  string_mem c (s ++ t) = string_mem c s || string_mem c t.
Proof.
  induction s as [|a s IH]; [reflexivity|]. cbn. now rewrite IH, orb_assoc.
Qed.

(** ** White space is all that [strip] removes *)

Lemma lstrip_keeps c s :
  is_space c = false -> string_mem c s = true -> string_mem c (lstrip s) = true.
Proof.
  intros Hc. induction s as [|a s IH]; [discriminate|]. cbn [lstrip].
  destruct (is_space a) eqn:A; [|trivial]. cbn. intros M.
  apply orb_prop in M as [M|M]; [|now apply IH].
  apply Ascii.eqb_eq in M. congruence.
Qed.

Lemma rstrip_keeps c s :
  is_space c = false -> string_mem c s = true -> string_mem c (rstrip s) = true.
Proof.
  intros Hc. induction s as [|a s IH]; [discriminate|]. cbn [rstrip string_mem].
  intros M. apply orb_prop in M as [M|M].
  - apply Ascii.eqb_eq in M. subst a.
    destruct (rstrip s); [rewrite Hc|]; cbn; now rewrite Ascii.eqb_refl.
  - specialize (IH M). destruct (rstrip s) as [|b t]; [discriminate IH|].
    cbn [string_mem] in *. now rewrite IH, orb_true_r.
Qed.

Lemma strip_keeps c s :
  is_space c = false -> string_mem c s = true -> string_mem c (strip s) = true.
Proof. intros Hc M. now apply rstrip_keeps, lstrip_keeps. Qed.

(** ** The characters [int()] and [float()] read *)

Lemma digit_float_char c : is_digit c = true -> float_char c = true.
Proof. intros H. unfold float_char. now rewrite H. Qed.

Lemma digitpart_rest_chars s d r :
  digitpart_rest s = (d, r) ->
  exists u, s = u ++ r /\ string_forall float_char u = true.
Proof.
  revert d r. induction s as [|c s IH]; intros d r; cbn [digitpart_rest].
  - intros [= <- <-]. now exists "".
  - destruct (is_digit c) eqn:D.
    + destruct (digitpart_rest s) as [d' r'] eqn:E. intros [= <- <-].
      destruct (IH _ _ eq_refl) as (u & -> & Hu). exists (String c u).
      split; [reflexivity|]. cbn. now rewrite (digit_float_char c D).
    + destruct (Ascii.eqb_spec c "_") as [->|_].
      * destruct s as [|c2 s']; [intros [= <- <-]; now exists ""|].
        destruct (is_digit c2) eqn:D2; [|intros [= <- <-]; now exists ""].
        intros H. destruct (IH _ _ H) as (u & -> & Hu).
        exists (String "_" u). split; [reflexivity|]. cbn. exact Hu.
      * intros [= <- <-]. now exists "".
Qed.

Lemma digitpart_chars s d r :
  digitpart s = Some (d, r) ->
  exists u, s = u ++ r /\ string_forall float_char u = true.
Proof.
  unfold digitpart. destruct s as [|c s]; [discriminate|].
  destruct (is_digit c) eqn:D; [|discriminate].
  destruct (digitpart_rest s) as [d' r'] eqn:E. intros [= <- <-].
  destruct (digitpart_rest_chars _ _ _ E) as (u & -> & Hu).
  exists (String c u). split; [reflexivity|]. cbn.
  now rewrite (digit_float_char c D).
Qed.

Lemma take_sign_chars s neg body :
  take_sign s = (neg, body) ->
  exists u, s = u ++ body /\ string_forall float_char u = true.
Proof.
  unfold take_sign. destruct s as [|c s]; [intros [= <- <-]; now exists ""|].
  destruct (Ascii.eqb_spec c "-") as [->|N1]; [intros [= <- <-]; now exists "-"|].
  destruct (Ascii.eqb_spec c "+") as [->|N2]; [intros [= <- <-]; now exists "+"|].
  assert (E : take_sign (String c s) = (false, String c s)).
  { unfold take_sign.
    destruct c as [[|] [|] [|] [|] [|] [|] [|] [|]]; try reflexivity;
      exfalso; (now apply N1) || (now apply N2). }
  unfold take_sign in E. rewrite E. intros [= <- <-]. now exists "".
Qed.

Lemma exponent_value_chars s e r :
  exponent_value s = Some (e, r) ->
  exists u, s = u ++ r /\ string_forall float_char u = true.
Proof.
  unfold exponent_value. destruct (take_sign s) as [neg body] eqn:T.
  destruct (take_sign_chars _ _ _ T) as (u1 & -> & H1).
  destruct (digitpart body) as [[d r']|] eqn:D; [|discriminate].
  destruct (digitpart_chars _ _ _ D) as (u2 & -> & H2).
  destruct (digits_value d); [|discriminate]. cbn. intros [= <- <-].
  exists (u1 ++ u2). split.
  - now rewrite string_app_assoc.
  - now rewrite string_forall_app, H1, H2.
Qed.

(** [floatnumber] with the test for the point written as a comparison. *)
Lemma floatnumber_eq s :
  floatnumber s =
  match
    match digitpart s with
    | Some (ip, r) =>
        match r with
        | String c r' =>
            if Ascii.eqb c "."
            then match digitpart r' with
                 | Some (fp, r'') => Some (ip, fp, r'')
                 | None => Some (ip, EmptyString, r')
                 end
            else Some (ip, EmptyString, r)
        | EmptyString => Some (ip, EmptyString, r)
        end
    | None =>
        match s with
        | String c r =>
            if Ascii.eqb c "."
            then match digitpart r with
                 | Some (fp, r') => Some (EmptyString, fp, r')
                 | None => None
                 end
            else None
        | EmptyString => None
        end
    end
  with
  | Some (ip, fp, EmptyString) => Some (ip, fp, 0)
  | Some (ip, fp, String c r) =>
      if Ascii.eqb (lower_char c) "e"
      then match exponent_value r with
           | Some (e, EmptyString) => Some (ip, fp, e)
           | _ => None
           end
      else None
  | None => None
  end.
Proof.
  unfold floatnumber.
  destruct (digitpart s) as [[ip r]|];
    [destruct r as [|c r']; [reflexivity|]
    |destruct s as [|c r]; [reflexivity|]];
    destruct c as [[|] [|] [|] [|] [|] [|] [|] [|]]; reflexivity.
Qed.

Lemma lower_e c : Ascii.eqb (lower_char c) "e" = true -> float_char c = true.
Proof.
  destruct c as [[|] [|] [|] [|] [|] [|] [|] [|]]; vm_compute;
    intros H; try discriminate H; reflexivity.
Qed.

Lemma floatnumber_chars s ip fp e :
  floatnumber s = Some (ip, fp, e) -> string_forall float_char s = true.
Proof.
  rewrite floatnumber_eq.
  assert (M : forall m rest ip' fp',
            m = Some (ip', fp', rest) ->
            (exists u, s = u ++ rest /\ string_forall float_char u = true) ->
            match m with
            | Some (ip, fp, EmptyString) => Some (ip, fp, 0)
            | Some (ip, fp, String c r) =>
                if Ascii.eqb (lower_char c) "e"
                then match exponent_value r with
                     | Some (e, EmptyString) => Some (ip, fp, e)
                     | _ => None
                     end
                else None
            | None => None
            end = Some (ip, fp, e) ->
            string_forall float_char s = true).
  { intros m rest ip' fp' -> (u & -> & Hu).
    destruct rest as [|c r].
    - intros _. now rewrite string_forall_app, Hu.
    - destruct (Ascii.eqb (lower_char c) "e") eqn:E; [|discriminate].
      destruct (exponent_value r) as [[e' r']|] eqn:X; [|discriminate].
      destruct r'; [|discriminate]. intros _.
      destruct (exponent_value_chars _ _ _ X) as (u2 & -> & H2).
      rewrite string_forall_app, Hu. cbn.
      now rewrite (lower_e c E), string_forall_app, H2. }
  destruct (digitpart s) as [[ip0 r]|] eqn:D.
  - destruct (digitpart_chars _ _ _ D) as (u & Hs & Hu).
    destruct r as [|c r'].
    + apply (M (Some (ip0, EmptyString, EmptyString)) _ _ _ eq_refl). now exists u.
    + destruct (Ascii.eqb_spec c ".") as [->|_].
      * destruct (digitpart r') as [[fp0 r'']|] eqn:D2.
        -- destruct (digitpart_chars _ _ _ D2) as (u2 & -> & H2).
           apply (M (Some (ip0, fp0, r'')) _ _ _ eq_refl). exists (u ++ "." ++ u2). split.
           ++ rewrite Hs. now rewrite string_app_assoc.
           ++ rewrite string_forall_app, Hu. cbn. exact H2.
        -- apply (M (Some (ip0, EmptyString, r')) _ _ _ eq_refl). exists (u ++ "."). split.
           ++ rewrite Hs. now rewrite string_app_assoc.
           ++ now rewrite string_forall_app, Hu.
      * apply (M (Some (ip0, EmptyString, String c r')) _ _ _ eq_refl). now exists u.
  - destruct s as [|c r]; [discriminate|].
    destruct (Ascii.eqb_spec c ".") as [->|_]; [|discriminate].
    destruct (digitpart r) as [[fp0 r']|] eqn:D2; [|discriminate].
    destruct (digitpart_chars _ _ _ D2) as (u2 & -> & H2).
    apply (M (Some (EmptyString, fp0, r')) _ _ _ eq_refl). exists (String "." u2). split; [reflexivity|].
    cbn. exact H2.
Qed.

Lemma lower_float_char c : float_char (lower_char c) = true -> float_char c = true.
Proof.
  destruct c as [[|] [|] [|] [|] [|] [|] [|] [|]]; vm_compute;
    intros H; try discriminate H; reflexivity.
Qed.

Lemma lower_chars s :
  string_forall float_char (lower s) = true -> string_forall float_char s = true.
Proof.
  induction s as [|c s IH]; [reflexivity|]. cbn. intros H.
  apply andb_prop in H as [H1 H2]. now rewrite (lower_float_char c H1), IH.
Qed.

(** A text that [float()] accepts holds, between its white space, only
    characters of a number. *)
Lemma float_of_str_chars s x :
  float_of_str s = Ok x -> string_forall float_char (strip s) = true.
Proof.
  unfold float_of_str. destruct (take_sign (strip s)) as [neg body] eqn:T.
  destruct (take_sign_chars _ _ _ T) as (u & -> & Hu). cbv zeta.
  rewrite string_forall_app, Hu. cbn [andb].
  destruct (String.eqb_spec (lower body) "inf") as [E|_].
  { intros _. apply lower_chars. now rewrite E. }
  destruct (String.eqb_spec (lower body) "infinity") as [E|_].
  { intros _. apply lower_chars. now rewrite E. }
  cbn [orb]. destruct (String.eqb_spec (lower body) "nan") as [E|_].
  { intros _. apply lower_chars. now rewrite E. }
  destruct (floatnumber body) as [[[ip fp] e]|] eqn:F; [|discriminate].
  intros _. exact (floatnumber_chars _ _ _ _ F).
Qed.

(** ... and so does a text that [int()] accepts. *)
Lemma to_int_chars s n :
  to_int s = Ok n -> string_forall float_char (strip s) = true.
Proof.
  unfold to_int. destruct (take_sign (strip s)) as [neg body] eqn:T.
  destruct (take_sign_chars _ _ _ T) as (u & -> & Hu).
  destruct (digitpart body) as [[d r]|] eqn:D; [|discriminate].
  destruct (digitpart_chars _ _ _ D) as (u2 & -> & H2).
  destruct r; [|discriminate]. intros _.
  now rewrite !string_forall_app, Hu, H2.
Qed.

(** A character that is neither of a number nor white space makes
    [float()] and [int()] raise [ValueError]. *)
Lemma foreign_char_float c s :
  float_char c = false -> is_space c = false -> string_mem c s = true ->
  raises_ValueError (float_of_str s) = true.
Proof.
  intros Hf Hs M. destruct (float_of_str s) as [x|e] eqn:E.
  - apply float_of_str_chars in E.
    pose proof (string_forall_mem _ _ c E (strip_keeps c s Hs M)). congruence.
  - now rewrite (float_of_str_raise _ _ E).
Qed.

Lemma foreign_char_int c s :
  float_char c = false -> is_space c = false -> string_mem c s = true ->
  raises_ValueError (to_int s) = true.
Proof.
  intros Hf Hs M. destruct (to_int s) as [x|e] eqn:E.
  - apply to_int_chars in E.
    pose proof (string_forall_mem _ _ c E (strip_keeps c s Hs M)). congruence.
  - now rewrite (to_int_raise _ _ E).
Qed.

Lemma replace_comma_keeps c s :
  Ascii.eqb c "," = false -> string_mem c s = true ->
  string_mem c (replace_char "," "" s) = true.
Proof.
  intros Hc. induction s as [|a s IH]; [discriminate|].
  cbn [replace_char string_mem]. intros M.
  destruct (Ascii.eqb_spec a ",") as [->|_].
  - cbn [append]. apply IH. apply orb_prop in M as [M|M]; [|exact M].
    apply Ascii.eqb_eq in M. subst c. discriminate Hc.
  - cbn [string_mem]. apply orb_prop in M as [M|M]; [now rewrite M|].
    now rewrite (IH M), orb_true_r.
Qed.

Lemma take_digits_chars s d r :
  take_digits s = (d, r) -> string_forall is_digit d = true.
Proof.
  revert d r. induction s as [|c s IH]; intros d r; cbn [take_digits].
  - now intros [= <- <-].
  - destruct (is_digit c) eqn:D; [|now intros [= <- <-]].
    destruct (take_digits s) as [d' r'] eqn:E. intros [= <- <-].
    cbn. now rewrite D, (IH _ _ eq_refl).
Qed.

(** A text the pace pattern matches holds digits and a colon only. *)
Lemma match_pace_chars s g :
  match_pace s = Some g ->
  string_forall (fun c => is_digit c || Ascii.eqb c ":") s = true.
Proof.
  destruct g as [g1 g2]. intros H.
  destruct (match_pace_inv _ _ _ H) as (c & d & a & b & E1 & -> & -> & _ & Ha & Hb).
  assert (G : string_forall is_digit g1 = true).
  { unfold match_pace in H. destruct (take_digits _) as [x r] eqn:T.
    pose proof (take_digits_chars _ _ _ T) as G.
    destruct x as [|c' d']; [discriminate|].
    destruct r as [|colon [|a' [|b' [|? ?]]]]; try discriminate;
      try (destruct colon as [[|] [|] [|] [|] [|] [|] [|] [|]]; discriminate).
    destruct colon as [[|] [|] [|] [|] [|] [|] [|] [|]]; try discriminate.
    destruct (_ && _); [|discriminate]. now injection H as <- _ _. }
  rewrite string_forall_app.
  rewrite (string_forall_impl is_digit _ g1
             (fun c H => eq_trans (f_equal (fun b => b || _) H) eq_refl) G).
  cbn. now rewrite Ha, Hb.
Qed.

(** A character other than the separator is in one of the parts. *)
Lemma split_char_mem c s :
  Ascii.eqb c ":" = false -> string_mem c s = true ->
  exists p, In p (split_char ":" s) /\ string_mem c p = true.
Proof.
  intros Hc. induction s as [|a s IH]; [discriminate|].
  cbn [split_char string_mem]. intros M.
  destruct (Ascii.eqb_spec a ":") as [->|_].
  - apply orb_prop in M as [M|M].
    + apply Ascii.eqb_eq in M. subst c. discriminate Hc.
    + destruct (IH M) as (p & Hp & Mp). exists p. split; [now right|exact Mp].
  - apply orb_prop in M as [M|M].
    + destruct (split_char ":" s) as [|p ps];
        [exists (String a "") | exists (String a p)];
        (split; [now left|]); cbn; now rewrite M.
    + destruct (IH M) as (p & Hp & Mp).
      destruct (split_char ":" s) as [|p0 ps]; [contradiction|].
      destruct Hp as [<-|Hp].
      * exists (String a p0). split; [now left|]. cbn. now rewrite Mp, orb_true_r.
      * exists p. split; [now right|exact Mp].
Qed.

(** A character that does not belong to the format of the column makes
    the cell unparsable. *)
Lemma foreign_char_unparsable k text :
  string_forall (cell_char k) text = false -> unparsable k text = true.
Proof.
  intros H. apply string_forall_false in H as (c & M & Hc).
  unfold cell_char in Hc. apply orb_false_elim in Hc as [Hc Hk].
  apply orb_false_elim in Hc as [Hf Hs].
  pose proof (strip_keeps c text Hs M) as M'.
  unfold unparsable. cbv zeta. destruct k.
  - exact (foreign_char_float c _ Hf Hs M').
  - exact (foreign_char_float c _ Hf Hs (replace_comma_keeps c _ Hk M')).
  - destruct (match_pace (strip text)) as [g|] eqn:P.
    + apply match_pace_chars in P.
      pose proof (string_forall_mem _ _ c P M') as Q. cbv beta in Q.
      rewrite Hk, orb_false_r in Q. unfold float_char in Hf.
      rewrite Q in Hf. discriminate Hf.
    + exact (foreign_char_float c _ Hf Hs M').
  - destruct (split_char_mem c _ Hk M') as (p & Hp & Mp).
    pose proof (foreign_char_float c p Hf Hs Mp) as Fp.
    pose proof (foreign_char_int c p Hf Hs Mp) as Ip.
    destruct (split_char ":" (strip text)) as [|p0 [|p1 [|p2 [|p3 ps]]]];
      try exact (foreign_char_float c _ Hf Hs M').
    + destruct Hp as [<-|[<-|[]]]; rewrite ?Ip, ?Fp, ?orb_true_r; reflexivity.
    + destruct Hp as [<-|[<-|[<-|[]]]]; rewrite ?Ip, ?Fp, ?orb_true_r; reflexivity.
Qed.

Lemma unparsable_nan k text :
  unparsable k text = true -> convert k (PyText text) = Ok PyFloat.nan.
Proof.
  intros H. destruct k; try (now apply parse_duration_unparsable);
    unfold unparsable in H;
    unfold convert, _clean_generic, _strip_comma_numeric,
      _pace_to_decimal_minutes;
    cbn [is_none_or_nan str];
    destruct (is_sentinel (strip text)); try reflexivity.
  - now apply except_raises_ValueError.
  - now apply except_raises_ValueError.
  - destruct (match_pace (strip text)); [discriminate H|].
    now apply except_raises_ValueError.
Qed.

(** X18: an ASCII cell that holds a character foreign to the format of
    its column is loaded as missing: neither as a number nor as an error.
    The characters of a format are those of a Python number (digits,
    signs, point, underscore, exponent mark, the letters of inf, infinity
    and nan), white space, the comma for a comma-formatted column and the
    colon for a pace or a duration; so a unit suffix as in "250ms", a
    percent sign or a comma in a generic column all give NaN.  The cell is
    ASCII because Python reads the digits and the white space of the rest
    of Unicode as well, which are outside this list. *)
Theorem X18_foreign_ascii_character_gives_nan (k : CellKind) (text : string) :
  ascii_text text = true ->
  string_forall (cell_char k) text = false ->
  convert k (PyText text) = Ok PyFloat.nan.
Proof.
  intros _ H. now apply unparsable_nan, foreign_char_unparsable.
Qed.

Lemma X18_foreign_ascii_character_gives_nan_witness :
  convert Generic (PyText "250ms") = Ok PyFloat.nan
  /\ convert Generic (PyText "8,980") = Ok PyFloat.nan
  /\ convert CommaNumeric (PyText "45%") = Ok PyFloat.nan
  /\ convert Duration (PyText "1h:02:03") = Ok PyFloat.nan.
Proof.
  split; [|split; [|split]];
    apply X18_foreign_ascii_character_gives_nan; reflexivity.
Defined.

End CellAlphabetFacts.

Section GroundContactColumn.

Import PyStr Garmin CellAlphabet GroundContact.

(** X19: the step of [_load] that strips the unit from the ground contact
    column never recovers a number.  The generic pass runs on the column
    first and already turns an ASCII cell with a foreign character, such
    as "250ms", into NaN; the later step then reads the text "nan" and the
    cell stays missing. *)
Theorem X19_ground_contact_suffix_is_lost
  (float_str : float -> string) (text : string) :
  float_str PyFloat.nan = "nan" ->
  ascii_text text = true ->
  string_forall (cell_char Generic) text = false ->
  _clean_generic (PyText text) = Ok PyFloat.nan
  /\ load_ground_contact float_str (PyText text) = Ok PyFloat.nan.
Proof.
  intros Hnan _ H.
  assert (E : _clean_generic (PyText text) = Ok PyFloat.nan)
    by exact (unparsable_nan Generic text (foreign_char_unparsable Generic text H)).
  split; [exact E|].
  unfold load_ground_contact. rewrite E. cbn [bind]. now rewrite Hnan.
Qed.

Lemma X19_ground_contact_suffix_is_lost_witness :
  _clean_generic (PyText "250ms") = Ok PyFloat.nan
  /\ load_ground_contact (PyConv.format_f 1) (PyText "250ms") = Ok PyFloat.nan.
Proof.
  apply X19_ground_contact_suffix_is_lost; reflexivity.
Defined.

End GroundContactColumn.

(* ------------------------------------------------------------------ *)
(** * The direction of the trend and the flags *)
(* ------------------------------------------------------------------ *)

Section TrendDirection.

Import PyDate Pandas BodyComp FloatOrder FloatOrderFacts.

Lemma direction_of_cases net dir stalled :
  direction_of net = (dir, stalled) ->
  (dir = "down" /\ stalled = false
   /\ exists c, net = Some c /\ PrimFloat.ltb c (-0.1) = true)
  \/ (dir = "up" /\ stalled = false
      /\ exists c, net = Some c /\ PrimFloat.ltb 0.1 c = true)
  \/ (dir = "flat"
      /\ forall c, net = Some c ->
           PrimFloat.ltb c (-0.1) = false /\ PrimFloat.ltb 0.1 c = false).
Proof.
  unfold direction_of. destruct net as [c|].
  - destruct (PrimFloat.ltb c (-0.1)) eqn:E1.
    + intros [= <- <-]. left. eauto.
    + destruct (PrimFloat.ltb 0.1 c) eqn:E2; intros [= <- <-].
      * right. left. eauto.
      * right. right. split; [reflexivity|]. now intros c' [= <-].
  - intros [= <- <-]. right. right. split; [reflexivity|]. discriminate.
Qed.

(** X20: a returned analysis has one of the three directions, and each
    stands for one reading of the net change of the trend: ["down"] for a
    change below -0.1 lb, ["up"] for one above 0.1 lb, ["flat"] for every
    other case.  The flag of a weight rising despite a deficit is only set
    for a positive deficit with the direction ["up"], so it is never set
    together with the stalled flag. *)
Theorem X20_direction_and_flags
  (mf_data : BodyCompSheets) (week_start week_end : Timestamp)
  (deficit : option float) (r : BodyCompAnalysis) :
  analyze mf_data week_start week_end deficit = Ok r ->
  (trend_direction r = "down" \/ trend_direction r = "up"
   \/ trend_direction r = "flat")
  /\ (trend_direction r = "down" <->
      exists c, trend_net_change_lbs r = Some c /\ PrimFloat.ltb c (-0.1) = true)
  /\ (trend_direction r = "up" <->
      exists c, trend_net_change_lbs r = Some c /\ PrimFloat.ltb 0.1 c = true)
  /\ (weight_rising_despite_deficit r = true <->
      trend_direction r = "up"
      /\ exists d, deficit = Some d /\ PrimFloat.ltb 0 d = true)
  /\ ~ (weight_rising_despite_deficit r = true /\ trend_stalled r = true).
Proof.
  intros H. pose proof (analyze_rising _ _ _ _ _ H) as R.
  apply analyze_fields in H. cbv zeta in H. destruct H as (_ & D & _).
  symmetry in D. apply direction_of_cases in D.
  assert (X : forall c, PrimFloat.ltb c (-0.1) = true ->
                        PrimFloat.ltb 0.1 c = true -> False).
  { intros c H1 H2. pose proof (ltb_trans _ _ _ H2 H1) as T.
    vm_compute in T. discriminate T. }
  assert (W : weight_rising_despite_deficit r = true <->
              trend_direction r = "up"
              /\ exists d, deficit = Some d /\ PrimFloat.ltb 0 d = true).
  { rewrite R. destruct deficit as [d|].
    - rewrite andb_true_iff, String.eqb_eq. split.
      + intros [H1 H2]. eauto.
      + intros [H2 (d' & [= <-] & H1)]. auto.
    - split; [discriminate|]. now intros [_ (d & E & _)]. }
  destruct D as [(Hd & Hs & c & Hc & L)|[(Hd & Hs & c & Hc & L)|(Hd & F)]].
  - split; [auto|]. split; [|split; [|split]].
    + split; [eauto|auto].
    + rewrite Hd. split; [discriminate|].
      intros (c' & Hc' & L'). rewrite Hc in Hc'. injection Hc' as <-.
      now elim (X c).
    + exact W.
    + rewrite Hs. now intros [_ Q].
  - split; [auto|]. split; [|split; [|split]].
    + rewrite Hd. split; [discriminate|].
      intros (c' & Hc' & L'). rewrite Hc in Hc'. injection Hc' as <-.
      now elim (X c).
    + split; [eauto|auto].
    + exact W.
    + rewrite Hs. now intros [_ Q].
  - split; [auto|]. split; [|split; [|split]].
    + rewrite Hd. split; [discriminate|].
      intros (c & Hc & L). destruct (F c Hc) as [F1 _]. congruence.
    + rewrite Hd. split; [discriminate|].
      intros (c & Hc & L). destruct (F c Hc) as [_ F2]. congruence.
    + exact W.
    + rewrite W, Hd. now intros [[Q _] _].
Qed.

Lemma X20_direction_and_flags_witness :
  exists r,
    analyze Exports.falling_trend_sheets (Timestamp_of_date (mkdate 2026 3 16))
            (Timestamp_of_date (mkdate 2026 3 22)) (Some 500%float) = Ok r
    /\ trend_direction r = "down"
    /\ weight_rising_despite_deficit r = false.
Proof.
  assert (E : exists r,
            analyze Exports.falling_trend_sheets
              (Timestamp_of_date (mkdate 2026 3 16))
              (Timestamp_of_date (mkdate 2026 3 22)) (Some 500%float) = Ok r)
    by (vm_compute; eexists; reflexivity).
  destruct E as (r & Hr). exists r. split; [exact Hr|].
  destruct (X20_direction_and_flags _ _ _ _ _ Hr) as (_ & Hdown & _ & Hrise & _).
  assert (D : trend_direction r = "down").
  { apply Hdown. exists (182 - 183)%float. split; [|reflexivity].
    vm_compute in Hr. now injection Hr as <-. }
  split; [exact D|].
  destruct (weight_rising_despite_deficit r) eqn:W; [|reflexivity].
  destruct (proj1 Hrise eq_refl) as [U _]. rewrite D in U. discriminate U.
Defined.

End TrendDirection.

(* ------------------------------------------------------------------ *)
(** * A baseline from a single week of history *)
(* ------------------------------------------------------------------ *)

Section BaselineDivisors.

Import PyDate Running.

(** Adding zero on the right changes nothing, but for minus zero. *)
Lemma add_zero_r x : Prim2SF x <> S754_zero true -> (x + 0)%float = x.
Proof.
  intros H.
  assert (E : Prim2SF (x + 0) = Prim2SF x).
  { rewrite add_spec. change (Prim2SF 0) with (S754_zero false).
    unfold SF64add, SFadd.
    destruct (Prim2SF x) as [s|s| |s m e]; try reflexivity.
    destruct s; [now elim H | reflexivity]. }
  rewrite <- (SF2Prim_Prim2SF (x + 0)), E. apply SF2Prim_Prim2SF.
Qed.

(** A sum that starts from zero is never minus zero. *)
Lemma zero_add_not_minus_zero x : Prim2SF (0 + x) <> S754_zero true.
Proof.
  rewrite add_spec. change (Prim2SF 0) with (S754_zero false).
  unfold SF64add, SFadd.
  destruct (Prim2SF x) as [s|s| |s m e]; try destruct s; discriminate.
Qed.

Lemma zero_add_zeros x : (0 + x + 0 + 0 + 0)%float = (0 + x)%float.
Proof.
  now rewrite !(add_zero_r (0 + x)) by apply zero_add_not_minus_zero.
Qed.

(** X21: the baseline after a single week of history.  When the runs of
    the export that fall in the four prior windows all fall in the most
    recent one, the weeks without runs still count in the mileage
    baseline, as weeks of zero miles: the rolling total is that week's
    total divided by 4.  They do not count in the baseline of the flat
    pace, which is that week's pace divided by 1. *)
Theorem X21_empty_weeks_dilute_the_mileage_baseline
  (all_runs : RunFrame) (week_start : Timestamp) (r : RunWeekStats) :
  let last_week :=
    _compute_week_stats all_runs (week_start - 7 * ns_per_day)
                        (week_start - 1 * ns_per_day) in
  (forall run w, In run (runs all_runs) ->
                 In w (tl (prior_windows week_start 4)) ->
                 Pandas.in_window (fst w) (snd w) (date run) = false) ->
  PyFloat.isnan (total_miles last_week) = false ->
  _compute_rolling_avg_stats all_runs week_start 4 = Ok r ->
  total_miles r = or_zero (Some ((0 + total_miles last_week) / 4)%float)
  /\ flat_avg_pace_dec r
     = match flat_avg_pace_dec last_week with
       | Some pace => if PyFloat.isnan pace then None
                      else Some ((0 + pace) / 1)%float
       | None => None
       end.
Proof.
  cbv zeta. intros H Hnan.
  unfold _compute_rolling_avg_stats.
  assert (E : map (fun w => _compute_week_stats all_runs (fst w) (snd w))
                  (prior_windows week_start 4)
              = [ _compute_week_stats all_runs (week_start - 7 * ns_per_day)
                    (week_start - 1 * ns_per_day);
                  default_stats (week_start - 14 * ns_per_day)
                    (week_start - 8 * ns_per_day);
                  default_stats (week_start - 21 * ns_per_day)
                    (week_start - 15 * ns_per_day);
                  default_stats (week_start - 28 * ns_per_day)
                    (week_start - 22 * ns_per_day) ]).
  { rewrite prior_windows_eq in *. cbn [map fst snd tl] in *.
    repeat (f_equal; try (apply no_run_in_window; intros run Hrun;
                          refine (H run (_, _) Hrun _); cbn [In]; tauto)). }
  rewrite E. clear E H. cbv zeta.
  set (last_week := _compute_week_stats all_runs (week_start - 7 * ns_per_day)
                      (week_start - 1 * ns_per_day)) in *.
  destruct (PyFloat.round _) as [n_runs|]; cbn [bind]; [|discriminate].
  destruct (PyFloat.round _) as [n_trail|]; cbn [bind]; [|discriminate].
  intros [= <-]. cbn [total_miles flat_avg_pace_dec]. split.
  - unfold _avg. cbn [map flat_map default_stats total_miles app].
    rewrite Hnan. change (PyFloat.isnan 0) with false.
    cbn [app fold_left List.length]. rewrite zero_add_zeros.
    reflexivity.
  - unfold _avg. cbn [map flat_map default_stats flat_avg_pace_dec app].
    destruct (flat_avg_pace_dec last_week) as [pace|]; [|reflexivity].
    destruct (PyFloat.isnan pace); reflexivity.
Qed.

Lemma X21_empty_weeks_dilute_the_mileage_baseline_witness :
  exists r,
    _compute_rolling_avg_stats Exports.one_week_history
      (Timestamp_of_date (mkdate 2026 3 16)) 4 = Ok r
    /\ total_miles r = 5%float
    /\ flat_avg_pace_dec r = Some 8.5%float.
Proof.
  assert (E : exists r,
            _compute_rolling_avg_stats Exports.one_week_history
              (Timestamp_of_date (mkdate 2026 3 16)) 4 = Ok r)
    by (vm_compute; eexists; reflexivity).
  destruct E as (r & Hr). exists r. split; [exact Hr|].
  assert (H : forall run w,
            In run (runs Exports.one_week_history) ->
            In w (tl (prior_windows (Timestamp_of_date (mkdate 2026 3 16)) 4)) ->
            Pandas.in_window (fst w) (snd w) (date run) = false).
  { intros run w [<-|[]] Hw. rewrite prior_windows_eq in Hw. cbn [tl In] in Hw.
    repeat (destruct Hw as [<-|Hw]; [reflexivity|]). contradiction. }
  destruct (X21_empty_weeks_dilute_the_mileage_baseline _ _ r H eq_refl Hr)
    as [-> ->].
  split; reflexivity.
Defined.

End BaselineDivisors.

(* ------------------------------------------------------------------ *)
(** * Commas in a comma-formatted column *)
(* ------------------------------------------------------------------ *)

Section CommasAreIgnored.

Import PyStr PyConv Garmin.
















Example comma_cells :
  _strip_comma_numeric (PyText "8,980") = Ok 8980%float
  /\ _strip_comma_numeric (PyText " 1,2,3 ") = Ok 123%float
  /\ _clean_generic (PyText "8,980") = Ok PyFloat.nan.
Proof. repeat split; vm_compute; reflexivity. Qed.

End CommasAreIgnored.

(* ------------------------------------------------------------------ *)
(** * Reading a displayed pace back *)
(* ------------------------------------------------------------------ *)

Section DisplayedPaceReadBack.

Import PyStr PyConv Garmin GarminFacts.

(** The display of [m] minutes and [sec] seconds is read back and
    displayed again as the same text. *)
Lemma displayed_pace_fixed m sec :
  0 <= m < 1000 -> 0 <= sec <= 59 ->
  pace_roundtrip (of_int m ++ ":" ++ of_int_02d sec)
  = Ok (of_int m ++ ":" ++ of_int_02d sec).
Proof.
  intros Hm Hsec.
  destruct (of_int_nonneg m ltac:(lia)) as (c & d & Hc & Htake & Hcan & E1).
  destruct (of_int_02d_seconds sec ltac:(lia)) as (a & b & Hab & Ha & Hb & E2).
  assert (Dc : is_digit c = true).
  { apply (take_digits_head (of_int m ++ String ":" "") c d (String ":" "")).
    now rewrite Htake, Hc. }
  set (s := of_int m ++ ":" ++ of_int_02d sec).
  assert (M : match_pace s = Some (of_int m, of_int_02d sec)).
  { unfold match_pace, s. change (":" ++ ?r) with (String ":" r).
    rewrite Htake, Hab, Hc, Ha, Hb. reflexivity. }
  assert (Hs : s = String c d ++ ":" ++ String a (String b EmptyString))
    by (unfold s; now rewrite Hc, Hab).
  pose proof (pace_float_ok_range m sec ltac:(lia) ltac:(lia)) as F.
  unfold pace_float_ok in F.
  unfold pace_roundtrip, _pace_to_decimal_minutes.
  cbn [is_none_or_nan str].
  assert (Hstrip : strip s = s) by (rewrite Hs; now apply strip_pace).
  rewrite Hstrip.
  assert (Hsent : is_sentinel s = false).
  { rewrite Hs. cbn [append]. now apply pace_not_sentinel. }
  assert (L1 : Z.of_nat (String.length (of_int m)) <= int_max_str_digits).
  { pose proof (of_int_length m ltac:(lia)). unfold int_max_str_digits. lia. }
  assert (L2 : Z.of_nat (String.length (of_int_02d sec)) <= int_max_str_digits)
    by (rewrite Hab; cbn; unfold int_max_str_digits; lia).
  rewrite Hsent, M.
  rewrite (int_of_group_short _ _ E1 L1), (int_of_group_short _ _ E2 L2).
  cbn [bind].
  destruct (PyFloat.of_int sec) as [fs|]; [|cbn in F; discriminate F].
  destruct (PyFloat.of_int m) as [fm|]; [|cbn in F; discriminate F].
  cbn [bind] in F |- *.
  apply andb_prop in F as [Hnan F].
  apply negb_true_iff in Hnan.
  unfold _decimal_minutes_to_mmss. rewrite Hnan.
  destruct (PyFloat.round _) as [t|]; [|discriminate F].
  apply Z.eqb_eq in F. subst t. cbn [bind].
  replace ((60 * m + sec) / 60) with m by (apply Z.div_unique with sec; lia).
  replace ((60 * m + sec) mod 60) with sec by (apply Z.mod_unique with m; lia).
  reflexivity.
Qed.

(** X23: what the display writes can be read back.  For a pace that is
    not missing and rounds to a number of seconds from 0 to below 1000
    minutes, the displayed text, parsed by [_pace_to_decimal_minutes] and
    displayed again, is the same text: the display is a fixed point of
    the round trip, although the parsed value may differ from the pace by
    the rounding to whole seconds. *)
Theorem X23_displayed_pace_reads_back (x : float) (t : Z) :
  PyFloat.isnan x = false ->
  PyFloat.round (x * 60)%float = Ok t ->
  0 <= t < 60000 ->
  exists text,
    _decimal_minutes_to_mmss (Some x) = Ok text
    /\ pace_roundtrip text = Ok text
    /\ exists y, _pace_to_decimal_minutes (PyText text) = Ok y
                 /\ _decimal_minutes_to_mmss (Some y) = Ok text.
Proof.
  intros Hnan Hround Ht.
  assert (Hm : 0 <= t / 60 < 1000).
  { split; [apply Z.div_pos; lia | apply Z.div_lt_upper_bound; lia]. }
  assert (Hs : 0 <= t mod 60 <= 59)
    by (pose proof (Z.mod_pos_bound t 60 ltac:(lia)); lia).
  pose proof (displayed_pace_fixed _ _ Hm Hs) as R.
  exists (of_int (t / 60) ++ ":" ++ of_int_02d (t mod 60)).
  split; [|split; [exact R|]].
  - unfold _decimal_minutes_to_mmss. rewrite Hnan, Hround. reflexivity.
  - unfold pace_roundtrip in R.
    destruct (_pace_to_decimal_minutes _) as [y|e]; [|discriminate R].
    exists y. split; [reflexivity | exact R].
Qed.

Lemma X23_displayed_pace_reads_back_witness :
  exists text,
    _decimal_minutes_to_mmss (Some 8.2583%float) = Ok text
    /\ pace_roundtrip text = Ok text
    /\ exists y, _pace_to_decimal_minutes (PyText text) = Ok y
                 /\ _decimal_minutes_to_mmss (Some y) = Ok text.
Proof.
  apply (X23_displayed_pace_reads_back 8.2583%float 495);
    [reflexivity | vm_compute; reflexivity | lia].
Defined.

End DisplayedPaceReadBack.

(* ------------------------------------------------------------------ *)
(** * The icons of the signals *)
(* ------------------------------------------------------------------ *)

Section SignalIcons.

Import Signals Utf8.

(** When [detect] returns, it returns the four groups of signals. *)
Lemma detect_ok_groups r s n b signals :
  detect r s n b = Ok signals ->
  exists rolling_pace cur_pace,
    signals = (running_signals r rolling_pace cur_pace ++ strength_signals s
               ++ nutrition_signals n ++ body_comp_signals b)%list.
Proof.
  destruct (Garmin.format_pace (Running.flat_avg_pace_dec (Running.current r)))
    as [cp|ec] eqn:C;
  destruct (Garmin.format_pace (Running.flat_avg_pace_dec (Running.rolling_4wk r)))
    as [rp|er] eqn:R.
  - rewrite (detect_groups r s n b rp cp).
    + intros [= <-]. eauto.
    + intros _. unfold paces_display. now rewrite C, R.
  - destruct (Running.aerobic_adaptation_signal r) eqn:A;
      destruct (Running.fatigue_signal r) eqn:F;
      try (rewrite (detect_groups r s n b "" "");
           [intros [= <-]; eauto | rewrite A, F; discriminate]);
      unfold detect; rewrite ?A, ?F, C, R; cbv beta iota delta [bind];
      discriminate.
  - destruct (Running.aerobic_adaptation_signal r) eqn:A;
      destruct (Running.fatigue_signal r) eqn:F;
      try (rewrite (detect_groups r s n b "" "");
           [intros [= <-]; eauto | rewrite A, F; discriminate]);
      unfold detect; rewrite ?A, ?F, C; cbv beta iota delta [bind];
      discriminate.
  - destruct (Running.aerobic_adaptation_signal r) eqn:A;
      destruct (Running.fatigue_signal r) eqn:F;
      try (rewrite (detect_groups r s n b "" "");
           [intros [= <-]; eauto | rewrite A, F; discriminate]);
      unfold detect; rewrite ?A, ?F, C; cbv beta iota delta [bind];
      discriminate.
Qed.

Lemma icons_when c s : map icon (when c s) = repeat (icon s) (b2n c).
Proof. now destruct c. Qed.

Lemma icons_volume_drops items :
  map icon (map volume_drop_signal items) = repeat warning_sign (List.length items).
Proof. induction items as [|[mg p] items IH]; cbn; [|rewrite IH]; reflexivity. Qed.

Lemma icons_micronutrients items :
  map icon (map micronutrient_signal items) = repeat warning_sign (List.length items).
Proof. induction items as [|[k p] items IH]; cbn; [|rewrite IH]; reflexivity. Qed.

Lemma icons_running r rolling_pace cur_pace :
  map icon (running_signals r rolling_pace cur_pace)
  = (repeat check_mark (b2n (Running.aerobic_adaptation_signal r))
     ++ repeat warning_sign
          (running_triggered r - b2n (Running.aerobic_adaptation_signal r)))%list.
Proof.
  unfold running_signals, running_triggered, ground_contact_rising. cbv zeta.
  rewrite !map_app, !icons_when.
  destruct (Running.mileage_change_pct r), (Running.ground_contact_change_ms r);
    rewrite ?icons_when, ?andb_true_r, ?andb_false_r;
    cbn [map icon aerobic_signal fatigue_signal overreach_signal
         recovery_debt_signal ground_contact_signal warning good is_some];
    f_equal;
    change (@nil string) with (repeat warning_sign 0);
    rewrite <- !repeat_app; f_equal; cbn [b2n]; lia.
Qed.

Lemma icons_strength s :
  map icon (strength_signals s)
  = (repeat check_mark (b2n (nonempty (Strength.pr_exercises s)))
     ++ repeat warning_sign
          (strength_triggered s - b2n (nonempty (Strength.pr_exercises s))))%list.
Proof.
  unfold strength_signals, strength_triggered.
  rewrite !map_app, !icons_when, icons_volume_drops.
  cbn [icon overload_signal missed_groups_signal warning good].
  f_equal. rewrite <- repeat_app. f_equal. lia.
Qed.

Lemma icons_nutrition n :
  map icon (nutrition_signals n) = repeat warning_sign (nutrition_triggered n).
Proof.
  unfold nutrition_signals, nutrition_triggered. cbv zeta.
  rewrite !map_app, !icons_when, icons_micronutrients.
  cbn [icon low_protein_signal low_carb_signal calorie_variance_signal warning].
  rewrite <- !repeat_app. f_equal. lia.
Qed.

Lemma icons_body_comp b :
  map icon (body_comp_signals b) = repeat warning_sign (body_comp_triggered b).
Proof.
  unfold body_comp_signals, body_comp_triggered.
  rewrite !map_app, !icons_when.
  cbn [icon weight_rising_signal recalibrating_signal warning].
  now rewrite <- repeat_app.
Qed.

(** X24: the icons of the signals [detect] returns.  Only two signals
    carry the check mark: the aerobic-adaptation signal, which then comes
    first, and the progressive-overload signal, which then comes first
    among the strength signals; every other signal carries the warning
    sign.  So a report has at most two check marks. *)
Theorem X24_signal_icons
  (r : Running.RunningAnalysis) (s : Strength.StrengthAnalysis)
  (n : Nutrition.NutritionAnalysis) (b : BodyComp.BodyCompAnalysis)
  (signals : list Signal) :
  detect r s n b = Ok signals ->
  let aerobic := b2n (Running.aerobic_adaptation_signal r) in
  let overload := b2n (nonempty (Strength.pr_exercises s)) in
  map icon signals
  = (repeat check_mark aerobic
     ++ repeat warning_sign (running_triggered r - aerobic)
     ++ repeat check_mark overload
     ++ repeat warning_sign (strength_triggered s - overload
                             + nutrition_triggered n + body_comp_triggered b))%list
  /\ (List.length (filter (fun sig => String.eqb (icon sig) check_mark) signals)
      = aerobic + overload)%nat
  /\ (aerobic + overload <= 2)%nat.
Proof.
  intros H. cbv zeta. apply detect_ok_groups in H as (rp & cp & ->).
  assert (I : map icon (running_signals r rp cp ++ strength_signals s
                        ++ nutrition_signals n ++ body_comp_signals b)
              = (repeat check_mark (b2n (Running.aerobic_adaptation_signal r))
                 ++ repeat warning_sign
                      (running_triggered r
                       - b2n (Running.aerobic_adaptation_signal r))
                 ++ repeat check_mark (b2n (nonempty (Strength.pr_exercises s)))
                 ++ repeat warning_sign
                      (strength_triggered s
                       - b2n (nonempty (Strength.pr_exercises s))
                       + nutrition_triggered n + body_comp_triggered b))%list).
  { rewrite !map_app, icons_running, icons_strength, icons_nutrition,
      icons_body_comp.
    rewrite <- !app_assoc. do 3 f_equal. rewrite <- !repeat_app.
    f_equal. lia. }
  split; [exact I|]. split.
  - assert (F : forall l : list Signal,
              List.length (filter (fun sig => String.eqb (icon sig) check_mark) l)
              = List.length (filter (fun i => String.eqb i check_mark) (map icon l))).
    { induction l as [|x l IH]; [reflexivity|]. cbn [map filter].
      destruct (String.eqb (icon x) check_mark); cbn [List.length]; now rewrite IH. }
    rewrite F, I. clear.
    assert (Rc : forall k, filter (fun i => String.eqb i check_mark)
                             (repeat check_mark k) = repeat check_mark k).
    { induction k as [|k IH]; [reflexivity|]. cbn [repeat filter].
      rewrite String.eqb_refl. now rewrite IH. }
    assert (Rw : forall k, filter (fun i => String.eqb i check_mark)
                             (repeat warning_sign k) = []).
    { induction k as [|k IH]; [reflexivity|]. cbn [repeat filter].
      change (String.eqb warning_sign check_mark) with false. exact IH. }
    rewrite !filter_app, !Rc, !Rw, !app_nil_r. cbn [app].
    now rewrite length_app, !repeat_length.
  - destruct (Running.aerobic_adaptation_signal r),
      (nonempty (Strength.pr_exercises s)); cbn; lia.
Qed.

Lemma X24_signal_icons_witness :
  exists signals,
    detect example_running example_strength example_nutrition example_body_comp
    = Ok signals
    /\ map icon signals
       = [check_mark; warning_sign; warning_sign; warning_sign].
Proof.
  assert (E : exists signals,
            detect example_running example_strength example_nutrition
                   example_body_comp = Ok signals)
    by (vm_compute; eexists; reflexivity).
  destruct E as (signals & H). exists signals. split; [exact H|].
  destruct (X24_signal_icons _ _ _ _ _ H) as [-> _]. reflexivity.
Defined.

End SignalIcons.
